(** * Planning board: layout, viewport and board-mutation core

    A shallow embedding of the board component of the planning-room
    application and the proofs of its specified properties.

    The repository carries the board component twice:
    - [src/App.tsx]: the board owns its node and link collections through
      the application's [useState] hooks and mutates them with functional
      updates ([setBoardItems(prev => ...)]);
    - [src/unnamed/part_000]: the multi-room variant, where the board
      receives the active room's collections as props and writes them back
      through [updateActiveRoom(items, links)].
    The geometry helpers are textually the same in both files and are embedded
    once (module [Geometry]); the handlers that differ are embedded per
    file (modules [App] and [Part0]).

    Numbers.  JavaScript numbers are idealised as exact rationals ([Qc]):
    rounding, infinities and NaN are not modelled.  [Math.cos], [Math.sin]
    and [Math.sqrt] are kept abstract (class [JsMath]).  Division agrees with
    JavaScript for every non-zero divisor.

    Identifiers.  [Math.random().toString(36).substr(2, 9)] is not modelled;
    every handler that draws an identifier takes it as an argument. *)

From Stdlib Require Import QArith Qcanon ZArith Lia Lqa Ascii.
From stdpp Require Import base decidable option numbers list strings gmap.

Local Open Scope Z_scope.
Local Open Scope string_scope.
Local Open Scope list_scope.
Local Open Scope Qc_scope.

(** ** JavaScript values *)

(** Decimal literal [n/d], e.g. [0.8] is [dec 4 5]. *)
Definition dec (n : Z) (d : positive) : Qc := Q2Qc (n # d).

(** Integer literal. *)
Definition int (n : Z) : Qc := Qc_of_Z n.

Definition Qcltb (a b : Qc) : bool := bool_decide (a < b).
Definition Qcgtb (a b : Qc) : bool := bool_decide (b < a).
Infix "<?" := Qcltb : Qc_scope.
Infix ">?" := Qcgtb : Qc_scope.

(** [Math.max] and [Math.min] on two (non-NaN) arguments. *)
Definition Math_max (a b : Qc) : Qc := if a <? b then b else a.
Definition Math_min (a b : Qc) : Qc := if b <? a then b else a.

(** The transcendental part of [Math]. *)
Class JsMath := {
  Math_cos : Qc -> Qc;
  Math_sin : Qc -> Qc;
  Math_sqrt : Qc -> Qc
}.

(** Truthiness of a string ([!s] is [negb (truthy s)]): only [''] is falsy. *)
Definition truthy (s : string) : bool := negb (String.eqb s EmptyString).

(** Truthiness of a [string | null] value. *)
Definition truthyO (o : option string) : bool :=
  match o with
  | Some s => truthy s
  | None => false
  end.

(** The string held by a [string | null] value, read where the value was
    found truthy. *)
Definition str (o : option string) : string := default EmptyString o.

(** [a || b] on numbers: [0] is the only falsy rational. *)
Definition num_or (a b : Qc) : Qc := if bool_decide (a = 0) then b else a.

(** ** Data model *)

(** Modelled from the spec: [types.ts] is not among the sources.  The spec
    lists goal, objective, sticky, idea-strip and image; [src/App.tsx]'s
    [getItemCenter] also tests for ['text'], which only reaches the
    [default] branches of the other tables. *)
Inductive ItemType := objective | idea_strip | image | goal | sticky | text.

(** [BoardLink['variant']]: the four keys of the renderer's [colorMap]. *)
Inductive Variant := critical | positive | alternative | neutral.

#[global] Instance ItemType_eq_dec : EqDecision ItemType.
Proof. solve_decision. Defined.
#[global] Instance Variant_eq_dec : EqDecision Variant.
Proof. solve_decision. Defined.

(** The fields of [BoardItem] and [BoardLink] are those of the object
    literals the handlers build; [color], [isCompleted] and [isLocked] are
    optional. *)
Record BoardItem := mkItem {
  item_id : string;
  item_type : ItemType;
  item_content : string;
  item_x : Qc;
  item_y : Qc;
  item_color : option string;
  item_isCompleted : option bool;
  item_isLocked : option bool
}.

Record BoardLink := mkLink {
  link_id : string;
  fromId : string;
  toId : string;
  variant : Variant
}.

Record Point := mkPoint { px : Qc; py : Qc }.
Record Dim := mkDim { w : Qc; h : Qc }.

#[global] Instance BoardItem_eq_dec : EqDecision BoardItem.
Proof. solve_decision. Defined.
#[global] Instance BoardLink_eq_dec : EqDecision BoardLink.
Proof. solve_decision. Defined.
#[global] Instance Point_eq_dec : EqDecision Point.
Proof. solve_decision. Defined.
#[global] Instance Dim_eq_dec : EqDecision Dim.
Proof. solve_decision. Defined.

(** [{ ...item, x: x', y: y' }] *)
Definition item_with_xy (item : BoardItem) (x' y' : Qc) : BoardItem :=
  {| item_id := item_id item; item_type := item_type item;
     item_content := item_content item; item_x := x'; item_y := y';
     item_color := item_color item; item_isCompleted := item_isCompleted item;
     item_isLocked := item_isLocked item |}.

(** [boardItems.find(i => i.id === id)] *)
Definition findItem (id : string) (boardItems : list BoardItem) : option BoardItem :=
  List.find (fun i => bool_decide (item_id i = id)) boardItems.

(** ** Geometry engine (identical in both files) *)
Module Geometry.

Definition getItemDimensions (t : ItemType) : Dim :=
  match t with
  | objective => mkDim (int 300) (int 200)
  | idea_strip => mkDim (int 280) (int 60)
  | image => mkDim (int 280) (int 220)
  | goal => mkDim (int 180) (int 180)
  | sticky => mkDim (int 180) (int 180)
  | _ => mkDim (int 180) (int 180)
  end.

Definition buffer : Qc := int 40.

(** [checkOverlap(x, y, width, height, excludeId?)]; an absent
    [excludeId] is [None] and equals no item id. *)
Definition checkOverlap (boardItems : list BoardItem)
    (x y width height : Qc) (excludeId : option string) : bool :=
  existsb (fun item =>
    if bool_decide (Some (item_id item) = excludeId) then false
    else
      let d := getItemDimensions (item_type item) in
      (x <? item_x item + w d + buffer) &&
      (x + width + buffer >? item_x item) &&
      (y <? item_y item + h d + buffer) &&
      (y + height + buffer >? item_y item)) boardItems.

Inductive Mode := spiral | grid_below.

Definition rowHeight : Qc := int 250.
Definition offsets : list Qc :=
  [int 0; int 220; int (-220); int 440; int (-440);
   int 660; int (-660); int 880; int (-880)].

(** The inner [for (const ox of offsets)] loop of grid-below mode. *)
Fixpoint gridRow (boardItems : list BoardItem) (refX targetY width height : Qc)
    (oxs : list Qc) : option Point :=
  match oxs with
  | [] => None
  | ox :: rest =>
      let targetX := refX + ox in
      if negb (checkOverlap boardItems targetX targetY width height None)
      then Some (mkPoint targetX targetY)
      else gridRow boardItems refX targetY width height rest
  end.

(** The outer [for (let row = 1; row <= 5; row++)] loop. *)
Fixpoint gridRows (boardItems : list BoardItem) (refX refY width height : Qc)
    (rows : list Z) : option Point :=
  match rows with
  | [] => None
  | row :: rest =>
      let targetY := refY + int row * rowHeight in
      match gridRow boardItems refX targetY width height offsets with
      | Some p => Some p
      | None => gridRows boardItems refX refY width height rest
      end
  end.

(** The local variables of the spiral loop. *)
Record Spiral := mkSpiral {
  angle : Qc; radius : Qc; sx : Qc; sy : Qc; attempts : Z
}.

Section WithMath.
Context `{JsMath}.

(** One pass through the body of the [while]. *)
Definition spiralStep (refX refY : Qc) (s : Spiral) : Spiral :=
  let radius' := radius s + int 15 in
  let angle' := angle s + dec 4 5 in
  {| angle := angle'; radius := radius';
     sx := refX + Math_cos angle' * radius';
     sy := refY + Math_sin angle' * radius';
     attempts := (attempts s + 1)%Z |}.

(** [while (checkOverlap(x, y, width, height) && attempts < 200) {...}].
    [fuel] bounds the number of passes; [whileSpiral_fuel] shows that 200
    passes are never exceeded, so the [0] case is only reached when the
    guard is false. *)
Fixpoint whileSpiral (fuel : nat) (boardItems : list BoardItem)
    (refX refY width height : Qc) (s : Spiral) : Spiral :=
  match fuel with
  | O => s
  | S fuel' =>
      if checkOverlap boardItems (sx s) (sy s) width height None
         && bool_decide (attempts s < 200)%Z
      then whileSpiral fuel' boardItems refX refY width height
             (spiralStep refX refY s)
      else s
  end.

Definition spiralStart (refX refY : Qc) : Spiral :=
  {| angle := 0; radius := 0; sx := refX; sy := refY; attempts := 0 |}.

Definition findBestPosition (boardItems : list BoardItem)
    (refX refY width height : Qc) (mode : Mode) : Point :=
  match
    match mode with
    | grid_below => gridRows boardItems refX refY width height [1; 2; 3; 4; 5]%Z
    | spiral => None
    end
  with
  | Some p => p
  | None =>
      let s := whileSpiral 200 boardItems refX refY width height
                 (spiralStart refX refY) in
      mkPoint (sx s) (sy s)
  end.
End WithMath.

End Geometry.

(** ** Link renderer: grouping and fan-out (shared by both files) *)
Module Render.

(** [[link.fromId, link.toId].sort().join('-')]: the default sort orders
    strings by code unit, and leaves a pair that is already ordered (or
    equal) as it is. *)
Definition pairId (link : BoardLink) : string :=
  if String.ltb (toId link) (fromId link)
  then toId link +:+ "-" +:+ fromId link
  else fromId link +:+ "-" +:+ toId link.

(** One pass of [boardLinks.forEach]: create the bucket if the key has
    none, then push.  Every key contains ['-'], so no key meets a property
    inherited from [Object.prototype]. *)
Definition addToGroup (linkGroups : gmap string (list BoardLink))
    (link : BoardLink) : gmap string (list BoardLink) :=
  let ids := pairId link in
  match linkGroups !! ids with
  | None => <[ids := [link]]> linkGroups
  | Some bucket => <[ids := bucket ++ [link]]> linkGroups
  end.

Definition linkGroups (boardLinks : list BoardLink) : gmap string (list BoardLink) :=
  fold_left addToGroup boardLinks ∅.

(** [Array.prototype.findIndex], [-1] when no element qualifies. *)
Fixpoint findIndexFrom {A} (p : A -> bool) (l : list A) (i : Z) : Z :=
  match l with
  | [] => (-1)%Z
  | x :: rest => if p x then i else findIndexFrom p rest (i + 1)%Z
  end.
Definition findIndex {A} (p : A -> bool) (l : list A) : Z := findIndexFrom p l 0%Z.

(** [linkGroups[pairId] || [link]] *)
Definition siblings (boardLinks : list BoardLink) (link : BoardLink) : list BoardLink :=
  default [link] (linkGroups boardLinks !! pairId link).

Definition siblingIndex (boardLinks : list BoardLink) (link : BoardLink) : Z :=
  findIndex (fun l => bool_decide (link_id l = link_id link)) (siblings boardLinks link).

Definition siblingCount (boardLinks : list BoardLink) (link : BoardLink) : Z :=
  Z.of_nat (length (siblings boardLinks link)).

Definition spread : Qc := int 30.

(** [index - (count - 1) / 2] *)
Definition centeredIndex (boardLinks : list BoardLink) (link : BoardLink) : Qc :=
  int (siblingIndex boardLinks link)
  - (int (siblingCount boardLinks link) - 1) / int 2.

(** [const offset = centeredIndex * spread] *)
Definition linkOffset (boardLinks : list BoardLink) (link : BoardLink) : Qc :=
  centeredIndex boardLinks link * spread.

(** What one [<g>] element of [connections] draws. *)
Record Curve := mkCurve {
  curve_key : string;
  curve_p1 : Point;
  curve_control : Point;
  curve_p2 : Point;
  curve_variant : Variant;
  curve_focused : bool;
  curve_dimmed : bool
}.

#[global] Instance Curve_eq_dec : EqDecision Curve.
Proof. solve_decision. Defined.

Section WithMath.
Context `{JsMath}.

Definition dist (p1 p2 : Point) : Qc :=
  let dx := px p2 - px p1 in
  let dy := py p2 - py p1 in
  Math_sqrt (dx * dx + dy * dy).

(** [nx = -dy / (dist || 1)], [ny = dx / (dist || 1)] *)
Definition normal (p1 p2 : Point) : Point :=
  let dx := px p2 - px p1 in
  let dy := py p2 - py p1 in
  mkPoint (- dy / num_or (dist p1 p2) 1) (dx / num_or (dist p1 p2) 1).

Definition mid (p1 p2 : Point) : Point :=
  mkPoint ((px p1 + px p2) / int 2) ((py p1 + py p2) / int 2).
End WithMath.

End Render.

(** ** Interaction state (the [useState] and [useRef] hooks of the board) *)

Record Transform := mkTransform { t_x : Qc; t_y : Qc; t_s : Qc }.

(** [containerRef.current.getBoundingClientRect()] *)
Record DOMRect := mkRect {
  rect_left : Qc; rect_top : Qc; rect_width : Qc; rect_height : Qc
}.

Record MouseEvent := mkMouse { clientX : Qc; clientY : Qc; button : Z }.
Record WheelEvent := mkWheel { wheelX : Qc; wheelY : Qc; deltaY : Qc }.

#[global] Instance Transform_eq_dec : EqDecision Transform.
Proof. solve_decision. Defined.
#[global] Instance DOMRect_eq_dec : EqDecision DOMRect.
Proof. solve_decision. Defined.

Record Hooks := mkHooks {
  selectedId : option string;
  draggingId : option string;
  pendingLinkStart : option string;
  activeLinkVariant : Variant;
  activeLinkMenuId : option string;
  containerRef : option DOMRect;
  deletingIds : gset string;
  transform : Transform;
  isPanning : bool;
  lastMousePos : Point;
  cursorPos : Point;
  focusModeId : option string;
  isTaskWizardOpen : bool;
  wizardTaskName : string;
  wizardGoalId : string;
  wizardNewGoalName : string;
  wizardSourceId : option string
}.

#[global] Instance Hooks_eq_dec : EqDecision Hooks.
Proof. solve_decision. Defined.

Definition setSelectedId (v : option string) (k : Hooks) : Hooks :=
  mkHooks v (draggingId k) (pendingLinkStart k) (activeLinkVariant k)
    (activeLinkMenuId k) (containerRef k) (deletingIds k) (transform k)
    (isPanning k) (lastMousePos k) (cursorPos k) (focusModeId k)
    (isTaskWizardOpen k) (wizardTaskName k) (wizardGoalId k)
    (wizardNewGoalName k) (wizardSourceId k).
Definition setDraggingId (v : option string) (k : Hooks) : Hooks :=
  mkHooks (selectedId k) v (pendingLinkStart k) (activeLinkVariant k)
    (activeLinkMenuId k) (containerRef k) (deletingIds k) (transform k)
    (isPanning k) (lastMousePos k) (cursorPos k) (focusModeId k)
    (isTaskWizardOpen k) (wizardTaskName k) (wizardGoalId k)
    (wizardNewGoalName k) (wizardSourceId k).
Definition setPendingLinkStart (v : option string) (k : Hooks) : Hooks :=
  mkHooks (selectedId k) (draggingId k) v (activeLinkVariant k)
    (activeLinkMenuId k) (containerRef k) (deletingIds k) (transform k)
    (isPanning k) (lastMousePos k) (cursorPos k) (focusModeId k)
    (isTaskWizardOpen k) (wizardTaskName k) (wizardGoalId k)
    (wizardNewGoalName k) (wizardSourceId k).
Definition setActiveLinkVariant (v : Variant) (k : Hooks) : Hooks :=
  mkHooks (selectedId k) (draggingId k) (pendingLinkStart k) v
    (activeLinkMenuId k) (containerRef k) (deletingIds k) (transform k)
    (isPanning k) (lastMousePos k) (cursorPos k) (focusModeId k)
    (isTaskWizardOpen k) (wizardTaskName k) (wizardGoalId k)
    (wizardNewGoalName k) (wizardSourceId k).
Definition setActiveLinkMenuId (v : option string) (k : Hooks) : Hooks :=
  mkHooks (selectedId k) (draggingId k) (pendingLinkStart k) (activeLinkVariant k)
    v (containerRef k) (deletingIds k) (transform k)
    (isPanning k) (lastMousePos k) (cursorPos k) (focusModeId k)
    (isTaskWizardOpen k) (wizardTaskName k) (wizardGoalId k)
    (wizardNewGoalName k) (wizardSourceId k).
Definition setDeletingIds (f : gset string -> gset string) (k : Hooks) : Hooks :=
  mkHooks (selectedId k) (draggingId k) (pendingLinkStart k) (activeLinkVariant k)
    (activeLinkMenuId k) (containerRef k) (f (deletingIds k)) (transform k)
    (isPanning k) (lastMousePos k) (cursorPos k) (focusModeId k)
    (isTaskWizardOpen k) (wizardTaskName k) (wizardGoalId k)
    (wizardNewGoalName k) (wizardSourceId k).
Definition setTransform (f : Transform -> Transform) (k : Hooks) : Hooks :=
  mkHooks (selectedId k) (draggingId k) (pendingLinkStart k) (activeLinkVariant k)
    (activeLinkMenuId k) (containerRef k) (deletingIds k) (f (transform k))
    (isPanning k) (lastMousePos k) (cursorPos k) (focusModeId k)
    (isTaskWizardOpen k) (wizardTaskName k) (wizardGoalId k)
    (wizardNewGoalName k) (wizardSourceId k).
Definition setIsPanning (v : bool) (k : Hooks) : Hooks :=
  mkHooks (selectedId k) (draggingId k) (pendingLinkStart k) (activeLinkVariant k)
    (activeLinkMenuId k) (containerRef k) (deletingIds k) (transform k)
    v (lastMousePos k) (cursorPos k) (focusModeId k)
    (isTaskWizardOpen k) (wizardTaskName k) (wizardGoalId k)
    (wizardNewGoalName k) (wizardSourceId k).
Definition setLastMousePos (v : Point) (k : Hooks) : Hooks :=
  mkHooks (selectedId k) (draggingId k) (pendingLinkStart k) (activeLinkVariant k)
    (activeLinkMenuId k) (containerRef k) (deletingIds k) (transform k)
    (isPanning k) v (cursorPos k) (focusModeId k)
    (isTaskWizardOpen k) (wizardTaskName k) (wizardGoalId k)
    (wizardNewGoalName k) (wizardSourceId k).
Definition setCursorPos (v : Point) (k : Hooks) : Hooks :=
  mkHooks (selectedId k) (draggingId k) (pendingLinkStart k) (activeLinkVariant k)
    (activeLinkMenuId k) (containerRef k) (deletingIds k) (transform k)
    (isPanning k) (lastMousePos k) v (focusModeId k)
    (isTaskWizardOpen k) (wizardTaskName k) (wizardGoalId k)
    (wizardNewGoalName k) (wizardSourceId k).
Definition setFocusModeId (v : option string) (k : Hooks) : Hooks :=
  mkHooks (selectedId k) (draggingId k) (pendingLinkStart k) (activeLinkVariant k)
    (activeLinkMenuId k) (containerRef k) (deletingIds k) (transform k)
    (isPanning k) (lastMousePos k) (cursorPos k) v
    (isTaskWizardOpen k) (wizardTaskName k) (wizardGoalId k)
    (wizardNewGoalName k) (wizardSourceId k).

(** The five wizard setters that end [handleCreateLinkedTask]:
    closed, and every field back to its empty value. *)
Definition resetWizard (k : Hooks) : Hooks :=
  mkHooks (selectedId k) (draggingId k) (pendingLinkStart k) (activeLinkVariant k)
    (activeLinkMenuId k) (containerRef k) (deletingIds k) (transform k)
    (isPanning k) (lastMousePos k) (cursorPos k) (focusModeId k)
    false EmptyString EmptyString EmptyString None.

(** The setters [openTaskWizard] uses. *)
Definition setWizardSourceId (v : option string) (k : Hooks) : Hooks :=
  mkHooks (selectedId k) (draggingId k) (pendingLinkStart k) (activeLinkVariant k)
    (activeLinkMenuId k) (containerRef k) (deletingIds k) (transform k)
    (isPanning k) (lastMousePos k) (cursorPos k) (focusModeId k)
    (isTaskWizardOpen k) (wizardTaskName k) (wizardGoalId k)
    (wizardNewGoalName k) v.
Definition setWizardGoalId (v : string) (k : Hooks) : Hooks :=
  mkHooks (selectedId k) (draggingId k) (pendingLinkStart k) (activeLinkVariant k)
    (activeLinkMenuId k) (containerRef k) (deletingIds k) (transform k)
    (isPanning k) (lastMousePos k) (cursorPos k) (focusModeId k)
    (isTaskWizardOpen k) (wizardTaskName k) v
    (wizardNewGoalName k) (wizardSourceId k).
Definition setIsTaskWizardOpen (v : bool) (k : Hooks) : Hooks :=
  mkHooks (selectedId k) (draggingId k) (pendingLinkStart k) (activeLinkVariant k)
    (activeLinkMenuId k) (containerRef k) (deletingIds k) (transform k)
    (isPanning k) (lastMousePos k) (cursorPos k) (focusModeId k)
    v (wizardTaskName k) (wizardGoalId k)
    (wizardNewGoalName k) (wizardSourceId k).

(** [toggleLinkMenu(e, id)] *)
Definition toggleLinkMenu (id : string) (k : Hooks) : Hooks :=
  setActiveLinkMenuId
    (if bool_decide (activeLinkMenuId k = Some id) then None else Some id) k.

(** [Partial<BoardItem>]: a key that is absent is [None]; for the three
    optional fields a key that is present may hold [undefined] (the inner
    [None]). *)
Record Patch := mkPatch {
  patch_id : option string;
  patch_type : option ItemType;
  patch_content : option string;
  patch_x : option Qc;
  patch_y : option Qc;
  patch_color : option (option string);
  patch_isCompleted : option (option bool);
  patch_isLocked : option (option bool)
}.

(** [{ ...item, ...updates }] *)
Definition applyPatch (item : BoardItem) (updates : Patch) : BoardItem :=
  {| item_id := default (item_id item) (patch_id updates);
     item_type := default (item_type item) (patch_type updates);
     item_content := default (item_content item) (patch_content updates);
     item_x := default (item_x item) (patch_x updates);
     item_y := default (item_y item) (patch_y updates);
     item_color := default (item_color item) (patch_color updates);
     item_isCompleted := default (item_isCompleted item) (patch_isCompleted updates);
     item_isLocked := default (item_isLocked item) (patch_isLocked updates) |}.

(** [items.map(item => item.id === id ? { ...item, ...updates } : item)] *)
Definition updateItems (id : string) (updates : Patch)
    (boardItems : list BoardItem) : list BoardItem :=
  map (fun item =>
    if bool_decide (item_id item = id) then applyPatch item updates else item)
    boardItems.

(** The content a new node of each type starts with. *)
Definition defaultContent (type : ItemType) : string :=
  if bool_decide (type = image) then "https://picsum.photos/300/200"
  else if bool_decide (type = sticky) then "Note"
  else if bool_decide (type = objective) then "New Objective"
  else if bool_decide (type = idea_strip) then "New Idea Strip"
  else if bool_decide (type = goal) then "New Goal"
  else "Card".

(** Modelled from the spec: [AppSection] of [types.ts]; the four values
    are those the two files navigate to. *)
Inductive AppSection := dashboard | planning | scan | document.

(** [exitFocusMode] *)
Definition exitFocusMode (k : Hooks) : Hooks := setFocusModeId None k.

(** [enterFocusMode(id, type, targetX, targetY)]; the [type] argument is
    unused by the body. *)
Definition enterFocusMode (id : string) (targetX targetY : Qc) (k : Hooks) : Hooks :=
  match containerRef k with
  | None => k
  | Some rect =>
      let targetScale := dec 3 2 in
      let newX := rect_width rect / int 2 - targetX * targetScale in
      let newY := rect_height rect / int 2 - targetY * targetScale in
      setTransform (fun _ => mkTransform newX newY targetScale)
        (setSelectedId (Some id) (setFocusModeId (Some id) k))
  end.

(** The toolbar buttons. *)
Definition zoomIn (k : Hooks) : Hooks :=
  setTransform (fun prev =>
    mkTransform (t_x prev) (t_y prev) (Math_min (t_s prev + dec 1 5) (int 5))) k.
Definition zoomOut (k : Hooks) : Hooks :=
  setTransform (fun prev =>
    mkTransform (t_x prev) (t_y prev) (Math_max (t_s prev - dec 1 5) (dec 1 10))) k.
Definition resetView (k : Hooks) : Hooks :=
  setTransform (fun _ => mkTransform 0 0 1) k.

Definition getViewportCenter (k : Hooks) : Point :=
  match containerRef k with
  | None => mkPoint (int 400) (int 300)
  | Some rect =>
      mkPoint ((rect_width rect / int 2 - t_x (transform k)) / t_s (transform k))
              ((rect_height rect / int 2 - t_y (transform k)) / t_s (transform k))
  end.

Definition getBoardCoordinates (k : Hooks) (cx cy : Qc) : Point :=
  match containerRef k with
  | None => mkPoint 0 0
  | Some rect =>
      mkPoint ((cx - rect_left rect - t_x (transform k)) / t_s (transform k))
              ((cy - rect_top rect - t_y (transform k)) / t_s (transform k))
  end.

(** [{ ...item, x: item.x + dx / scale, y: item.y + dy / scale }] on the
    dragged item, every other item as it is. *)
Definition dragItems (draggingId : string) (dx dy scale : Qc)
    (boardItems : list BoardItem) : list BoardItem :=
  map (fun item =>
    if bool_decide (item_id item = draggingId)
    then item_with_xy item (item_x item + dx / scale) (item_y item + dy / scale)
    else item) boardItems.

(** ** [src/App.tsx] *)
Module App.
Import Geometry.

(** The closure handed to [setTimeout] by [handleDeleteItem]; it captures
    only [id]. *)
Inductive Callback := deleteLater (id : string).

(** A pending [setTimeout]: the time (ms) at which it is due. *)
Record Timer := mkTimer { due : Z; callback : Callback }.

(** [boardItems] and [boardLinks] are the [useState] values of [App];
    [now] is the event-loop clock in milliseconds. *)
Record State := mkState {
  boardItems : list BoardItem;
  boardLinks : list BoardLink;
  hooks : Hooks;
  now : Z;
  timers : list Timer
}.

#[global] Instance Callback_eq_dec : EqDecision Callback.
Proof. solve_decision. Defined.
#[global] Instance Timer_eq_dec : EqDecision Timer.
Proof. solve_decision. Defined.
#[global] Instance State_eq_dec : EqDecision State.
Proof. solve_decision. Defined.

Definition setBoardItems (f : list BoardItem -> list BoardItem) (st : State) : State :=
  mkState (f (boardItems st)) (boardLinks st) (hooks st) (now st) (timers st).
Definition setBoardLinks (f : list BoardLink -> list BoardLink) (st : State) : State :=
  mkState (boardItems st) (f (boardLinks st)) (hooks st) (now st) (timers st).
Definition withHooks (f : Hooks -> Hooks) (st : State) : State :=
  mkState (boardItems st) (boardLinks st) (f (hooks st)) (now st) (timers st).
Definition setTimeout (cb : Callback) (delay : Z) (st : State) : State :=
  mkState (boardItems st) (boardLinks st) (hooks st) (now st)
    (timers st ++ [mkTimer (now st + delay) cb]).

(** [getItemCenter] *)
Definition getItemCenter (item : BoardItem) : Point :=
  let d :=
    if bool_decide (item_type item = image) then mkDim (int 256) (int 200)
    else if bool_decide (item_type item = text) then mkDim (int 180) (int 60)
    else if bool_decide (item_type item = objective) then mkDim (int 256) (int 140)
    else if bool_decide (item_type item = idea_strip) then mkDim (int 280) (int 60)
    else if bool_decide (item_type item = goal) then mkDim (int 180) (int 180)
    else mkDim (int 160) (int 160) in
  mkPoint (item_x item + w d / int 2) (item_y item + h d / int 2).

(** *** Deletion *)

Definition handleDeleteItem (id : string) (st : State) : State :=
  let st := withHooks (setDeletingIds (fun prev => prev ∪ {[id]})) st in
  let st := if bool_decide (selectedId (hooks st) = Some id)
            then withHooks (setSelectedId None) st else st in
  let st := if bool_decide (focusModeId (hooks st) = Some id)
            then withHooks (setFocusModeId None) st else st in
  setTimeout (deleteLater id) 300 st.

(** The body of the timeout callback. *)
Definition fire (cb : Callback) (st : State) : State :=
  match cb with
  | deleteLater id =>
      let st := setBoardItems
                  (filter (fun item => item_id item ≠ id)) st in
      let st := setBoardLinks
                  (filter (fun l => fromId l ≠ id ∧ toId l ≠ id)) st in
      withHooks (setDeletingIds (fun prev => prev ∖ {[id]})) st
  end.

(** The event loop lets [dt] milliseconds pass: every timer that is due
    by then runs, in the order of registration (all timers of the board
    have the same delay, so this is also the order of their due times). *)
Definition elapse (dt : Z) (st : State) : State :=
  let t := (now st + dt)%Z in
  let ready := filter (fun tm => (due tm ≤ t)%Z) (timers st) in
  let waiting := filter (fun tm => ¬ (due tm ≤ t)%Z) (timers st) in
  fold_left (fun s tm => fire (callback tm) s) ready
    (mkState (boardItems st) (boardLinks st) (hooks st) t waiting).

(** *** Viewport *)

Definition handleWheel (e : WheelEvent) (st : State) : State :=
  if truthyO (focusModeId (hooks st)) then st
  else
    let zoomSensitivity := dec 1 1000 in
    let newScale :=
      Math_min (Math_max (dec 1 10)
                  (t_s (transform (hooks st)) - deltaY e * zoomSensitivity))
               (int 5) in
    withHooks (setTransform (fun prev =>
      mkTransform (t_x prev) (t_y prev) newScale)) st.

(** *** Pointer gestures *)

Definition handleStartLink (e : MouseEvent) (id : string) (v : Variant)
    (st : State) : State :=
  let coords := getBoardCoordinates (hooks st) (clientX e) (clientY e) in
  withHooks (fun k =>
    setActiveLinkMenuId None
      (setActiveLinkVariant v
        (setPendingLinkStart (Some id) (setCursorPos coords k)))) st.

(** [handleMouseDown(e, id?)]: [id] is [None] for a press on the canvas
    itself; [rid] is the identifier drawn for a new link. *)
Definition handleMouseDown (rid : string) (e : MouseEvent) (id : option string)
    (st : State) : State :=
  let st := withHooks (setLastMousePos (mkPoint (clientX e) (clientY e))) st in
  if negb (truthyO id) then
    if bool_decide (button e = 0%Z) then
      if truthyO (pendingLinkStart (hooks st)) then
        withHooks (setPendingLinkStart None) st
      else
        let st := withHooks (fun k =>
          setActiveLinkMenuId None (setSelectedId None (setIsPanning true k))) st in
        if truthyO (focusModeId (hooks st)) then withHooks exitFocusMode st else st
    else st
  else
    let id := str id in
    if truthyO (pendingLinkStart (hooks st)) then
      let source := str (pendingLinkStart (hooks st)) in
      let st :=
        if bool_decide (source ≠ id) then
          let newLink := mkLink rid source id (activeLinkVariant (hooks st)) in
          setBoardLinks (fun prev => prev ++ [newLink]) st
        else st in
      withHooks (setPendingLinkStart None) st
    else
      match findItem id (boardItems st) with
      | None => st
      | Some item =>
          let st := withHooks (fun k =>
            setActiveLinkMenuId None (setSelectedId (Some id) k)) st in
          if negb (default false (item_isLocked item))
          then withHooks (setDraggingId (Some id)) st
          else st
      end.

Definition handleContainerMouseMove (e : MouseEvent) (st : State) : State :=
  let st :=
    if truthyO (pendingLinkStart (hooks st))
    then withHooks (setCursorPos
           (getBoardCoordinates (hooks st) (clientX e) (clientY e))) st
    else st in
  if isPanning (hooks st) && negb (truthyO (focusModeId (hooks st))) then
    let dx := clientX e - px (lastMousePos (hooks st)) in
    let dy := clientY e - py (lastMousePos (hooks st)) in
    let st := withHooks (setTransform (fun prev =>
      mkTransform (t_x prev + dx) (t_y prev + dy) (t_s prev))) st in
    withHooks (setLastMousePos (mkPoint (clientX e) (clientY e))) st
  else if truthyO (draggingId (hooks st)) then
    let dragged := str (draggingId (hooks st)) in
    let dx := clientX e - px (lastMousePos (hooks st)) in
    let dy := clientY e - py (lastMousePos (hooks st)) in
    let scale := t_s (transform (hooks st)) in
    let st := setBoardItems (dragItems dragged dx dy scale) st in
    withHooks (setLastMousePos (mkPoint (clientX e) (clientY e))) st
  else st.

Definition handleContainerMouseUp (st : State) : State :=
  withHooks (fun k => setIsPanning false (setDraggingId None k)) st.

Definition handleDoubleClickNode (id : string) (st : State) : State :=
  match findItem id (boardItems st) with
  | Some item =>
      withHooks (enterFocusMode id (item_x item) (item_y item + int 100)) st
  | None => st
  end.

(** The operations that touch the viewport scale. *)
Inductive ViewportOp :=
| opWheel (e : WheelEvent)
| opZoomIn
| opZoomOut
| opResetView
| opEnterFocus (id : string) (targetX targetY : Qc).

Definition runViewportOp (op : ViewportOp) (st : State) : State :=
  match op with
  | opWheel e => handleWheel e st
  | opZoomIn => withHooks zoomIn st
  | opZoomOut => withHooks zoomOut st
  | opResetView => withHooks resetView st
  | opEnterFocus id targetX targetY => withHooks (enterFocusMode id targetX targetY) st
  end.

(** [handleUpdateItem(id, updates)] *)
Definition handleUpdateItem (id : string) (updates : Patch) (st : State) : State :=
  setBoardItems (updateItems id updates) st.

(** [openTaskWizard(sourceId?)] *)
Definition openTaskWizard (sourceId : option string) (st : State) : State :=
  let st := withHooks (setWizardSourceId
              (if truthyO sourceId then sourceId else None)) st in
  let goals := List.filter (fun i => bool_decide (item_type i = goal)) (boardItems st) in
  let st :=
    match goals with
    | g :: _ => withHooks (setWizardGoalId (item_id g)) st
    | [] => withHooks (setWizardGoalId EmptyString) st
    end in
  withHooks (setIsTaskWizardOpen true) st.

(** What [pendingConnection] draws: a dashed line from the centre of the
    source node to the cursor, in the colour of the pending variant. *)
Record Preview := mkPreview {
  preview_from : Point; preview_to : Point; preview_variant : Variant
}.

Definition pendingConnection (st : State) : option Preview :=
  if negb (truthyO (pendingLinkStart (hooks st))) then None
  else
    match findItem (str (pendingLinkStart (hooks st))) (boardItems st) with
    | None => None
    | Some startItem =>
        Some (mkPreview (getItemCenter startItem) (cursorPos (hooks st))
                (activeLinkVariant (hooks st)))
    end.

(** [handleSyncFromScanner] of the [App] component: both collections grow
    by the batch and the planning section is shown. *)
Definition handleSyncFromScanner (newItems : list BoardItem)
    (newLinks : list BoardLink) (st : State) : State * AppSection :=
  let st := setBoardItems (fun prev => prev ++ newItems) st in
  let st := setBoardLinks (fun prev => prev ++ newLinks) st in
  (st, planning).

(** [Array.prototype.indexOf] on strings, [-1] when absent. *)
Definition indexOf (x : string) (l : list string) : Z :=
  Render.findIndex (fun y => bool_decide (y = x)) l.

(** [toggleLanguage]: [langs] is [Object.keys(TRANSLATIONS)]; the result is
    [None] where the array read yields [undefined]. *)
Definition toggleLanguage (langs : list string) (language : string) : option string :=
  let idx := indexOf language langs in
  if bool_decide (langs = []) then None
  else langs !! Z.to_nat ((idx + 1) `mod` Z.of_nat (length langs)).

Section WithMath.
Context `{JsMath}.

(** *** Task-creation wizard *)

(** The identifiers drawn by one submission, in the order of the four
    [Math.random()] calls of the body (the second to fourth are only
    drawn on their branches). *)
Record WizardIds := mkWizardIds {
  taskId : string; sourceLinkId : string; goalId : string; goalLinkId : string
}.

(** [s || fallback] on strings *)
Definition str_or (s fallback : string) : string :=
  if truthy s then s else fallback.

(** The source the new task hangs from: the wizard's source if it
    resolves, else the first objective, else none. *)
Definition wizardSource (st : State) : option BoardItem :=
  let sourceItem :=
    if truthyO (wizardSourceId (hooks st))
    then findItem (str (wizardSourceId (hooks st))) (boardItems st)
    else None in
  match sourceItem with
  | Some i => Some i
  | None => List.find (fun i => bool_decide (item_type i = objective)) (boardItems st)
  end.

(** The condition under which the body creates a goal node. *)
Definition createsGoal (k : Hooks) : bool :=
  bool_decide (wizardGoalId k = "new_goal")
  || (negb (truthy (wizardGoalId k)) && truthy (wizardNewGoalName k)).

Definition handleCreateLinkedTask (ids : WizardIds) (st : State) : State :=
  let k := hooks st in
  let sourceItem := wizardSource st in
  let center := getViewportCenter k in
  let refX := match sourceItem with Some s => item_x s | None => px center end in
  let refY := match sourceItem with Some s => item_y s | None => py center end in
  let taskDims := getItemDimensions sticky in
  let taskPos := findBestPosition (boardItems st) refX refY (w taskDims) (h taskDims)
                   (match sourceItem with Some _ => grid_below | None => spiral end) in
  let newTask :=
    mkItem (taskId ids) sticky (str_or (wizardTaskName k) "New Task")
      (px taskPos) (py taskPos) (Some "bg-yellow-200") (Some false) (Some false) in
  let newItems := [newTask] in
  let newLinks : list BoardLink := [] in
  let newLinks :=
    match sourceItem with
    | Some s => newLinks ++ [mkLink (sourceLinkId ids) (item_id s) (item_id newTask) critical]
    | None => newLinks
    end in
  let targetGoalId := wizardGoalId k in
  let '(newItems, targetGoalId) :=
    if createsGoal k then
      let goalDims := getItemDimensions goal in
      let goalPos := findBestPosition (boardItems st) (px taskPos) (py taskPos)
                       (w goalDims) (h goalDims) grid_below in
      let newGoal :=
        mkItem (goalId ids) goal (str_or (wizardNewGoalName k) "New Goal")
          (px goalPos) (py goalPos) None (Some false) (Some false) in
      (newItems ++ [newGoal], item_id newGoal)
    else (newItems, targetGoalId) in
  let newLinks :=
    if truthy targetGoalId && bool_decide (targetGoalId ≠ "new_goal")
    then newLinks ++ [mkLink (goalLinkId ids) (item_id newTask) targetGoalId positive]
    else newLinks in
  let st := setBoardItems (fun prev => prev ++ newItems) st in
  let st := setBoardLinks (fun prev => prev ++ newLinks) st in
  withHooks resetWizard st.

(** *** Link renderer *)

(** One element of [boardLinks.map(...)]: [None] is the [null] of a
    link with a dangling endpoint. *)
Definition connection (st : State) (link : BoardLink) : option Render.Curve :=
  match findItem (fromId link) (boardItems st),
        findItem (toId link) (boardItems st) with
  | Some from, Some to =>
      let p1 := getItemCenter from in
      let p2 := getItemCenter to in
      let m := Render.mid p1 p2 in
      let n := Render.normal p1 p2 in
      let offset := Render.linkOffset (boardLinks st) link in
      let controlX := px m + px n * offset in
      let controlY := py m + py n * offset in
      let isFocused := bool_decide (focusModeId (hooks st) = Some (link_id link)) in
      let isDimmed := truthyO (focusModeId (hooks st))
                      && bool_decide (focusModeId (hooks st) ≠ Some (link_id link)) in
      Some (Render.mkCurve (link_id link) p1 (mkPoint controlX controlY) p2
              (variant link) isFocused isDimmed)
  | _, _ => None
  end.

Definition connections (st : State) : list (option Render.Curve) :=
  map (connection st) (boardLinks st).
(** [handleAddItem(type)]; [rid] is the identifier drawn for the node. *)
Definition handleAddItem (rid : string) (type : ItemType) (st : State) : State :=
  let center := getViewportCenter (hooks st) in
  let dims := getItemDimensions type in
  let pos := findBestPosition (boardItems st)
               (px center - w dims / int 2) (py center - h dims / int 2)
               (w dims) (h dims) spiral in
  let newItem :=
    mkItem rid type (defaultContent type) (px pos) (py pos)
      (if bool_decide (type = sticky) then Some "bg-yellow-200" else None)
      (Some false) (Some false) in
  let st := setBoardItems (fun prev => prev ++ [newItem]) st in
  let st := withHooks (setSelectedId (Some (item_id newItem))) st in
  if bool_decide (type = objective)
  then withHooks (enterFocusMode (item_id newItem) (item_x newItem) (item_y newItem)) st
  else st.

(** [createConnectedIdea(e, sourceId)]; [rid] and [lid] are the
    identifiers drawn for the node and for the link. *)
Definition createConnectedIdea (rid lid : string) (sourceId : string)
    (st : State) : State :=
  match findItem sourceId (boardItems st) with
  | None => st
  | Some sourceItem =>
      let dims := getItemDimensions idea_strip in
      let pos := findBestPosition (boardItems st) (item_x sourceItem)
                   (item_y sourceItem) (w dims) (h dims) grid_below in
      let newItem :=
        mkItem rid idea_strip "New Idea" (px pos) (py pos) None
          (Some false) (Some false) in
      let newLink := mkLink lid (item_id sourceItem) (item_id newItem) neutral in
      let st := setBoardItems (fun prev => prev ++ [newItem]) st in
      let st := setBoardLinks (fun prev => prev ++ [newLink]) st in
      withHooks (fun k =>
        setSelectedId (Some (item_id newItem)) (setActiveLinkMenuId None k)) st
  end.

(** [createConnectedTask(e, sourceId, variant)] *)
Definition createConnectedTask (rid lid : string) (sourceId : string)
    (v : Variant) (st : State) : State :=
  match findItem sourceId (boardItems st) with
  | None => st
  | Some sourceItem =>
      let dims := getItemDimensions sticky in
      let pos := findBestPosition (boardItems st) (item_x sourceItem)
                   (item_y sourceItem) (w dims) (h dims) grid_below in
      let newTask :=
        mkItem rid sticky "New Task" (px pos) (py pos) (Some "bg-yellow-200")
          (Some false) (Some false) in
      let newLink := mkLink lid (item_id sourceItem) (item_id newTask) v in
      let st := setBoardItems (fun prev => prev ++ [newTask]) st in
      let st := setBoardLinks (fun prev => prev ++ [newLink]) st in
      withHooks (fun k =>
        setSelectedId (Some (item_id newTask)) (setActiveLinkMenuId None k)) st
  end.
End WithMath.

End App.

(** ** [src/unnamed/part_000] (the multi-room variant) *)
Module Part0.
Import Geometry.

(** A room, as far as the board reads or writes it ([name],
    [description], [createdAt], [themeColor] and [boardStyle] are left
    out). *)
Record PlanningRoom := mkRoom {
  room_id : string;
  room_items : list BoardItem;
  room_links : list BoardLink;
  updatedAt : Z
}.

(** What a render of [PlanningBoard] closes over from [App]:
    [boardItems = activeRoom.items], [boardLinks = activeRoom.links], and
    the [activeRoomId] inside [updateActiveRoom]. *)
Record Props := mkProps {
  boardItems : list BoardItem;
  boardLinks : list BoardLink;
  roomKey : option string
}.

(** The closure handed to [setTimeout] by [handleDeleteItem]: besides
    [id] it captures the props and the [selectedId] and [focusModeId] of
    the render in which the handler was created. *)
Inductive Callback :=
  deleteLater (id : string) (p : Props) (selected focused : option string).

Record Timer := mkTimer { due : Z; callback : Callback }.

Record State := mkState {
  rooms : list PlanningRoom;
  activeRoomId : option string;
  hooks : Hooks;
  now : Z;
  timers : list Timer
}.

#[global] Instance PlanningRoom_eq_dec : EqDecision PlanningRoom.
Proof. solve_decision. Defined.
#[global] Instance Props_eq_dec : EqDecision Props.
Proof. solve_decision. Defined.
#[global] Instance Callback_eq_dec : EqDecision Callback.
Proof. solve_decision. Defined.
#[global] Instance Timer_eq_dec : EqDecision Timer.
Proof. solve_decision. Defined.
#[global] Instance State_eq_dec : EqDecision State.
Proof. solve_decision. Defined.

(** [rooms.find(r => r.id === activeRoomId) || rooms[0]] *)
Definition activeRoom (st : State) : option PlanningRoom :=
  match List.find (fun r => bool_decide (Some (room_id r) = activeRoomId st)) (rooms st) with
  | Some r => Some r
  | None => head (rooms st)
  end.

(** The props of the current render; the board is mounted only when
    [activeRoom] is defined. *)
Definition props (st : State) : option Props :=
  match activeRoom st with
  | Some r => Some (mkProps (room_items r) (room_links r) (activeRoomId st))
  | None => None
  end.

(** [setRooms(prev => prev.map(r => r.id === activeRoomId
      ? { ...r, items, links, updatedAt: Date.now() } : r))] *)
Definition updateActiveRoom (key : option string)
    (items : list BoardItem) (links : list BoardLink) (st : State) : State :=
  mkState
    (map (fun r =>
       if bool_decide (Some (room_id r) = key)
       then mkRoom (room_id r) items links (now st)
       else r) (rooms st))
    (activeRoomId st) (hooks st) (now st) (timers st).

(** [setBoardItems={(i) => updateActiveRoom(i, activeRoom.links)}] *)
Definition setBoardItems (p : Props) (i : list BoardItem) (st : State) : State :=
  updateActiveRoom (roomKey p) i (boardLinks p) st.
(** [setBoardLinks={(l) => updateActiveRoom(activeRoom.items, l)}] *)
Definition setBoardLinks (p : Props) (l : list BoardLink) (st : State) : State :=
  updateActiveRoom (roomKey p) (boardItems p) l st.

Definition withHooks (f : Hooks -> Hooks) (st : State) : State :=
  mkState (rooms st) (activeRoomId st) (f (hooks st)) (now st) (timers st).
Definition setTimeout (cb : Callback) (delay : Z) (st : State) : State :=
  mkState (rooms st) (activeRoomId st) (hooks st) (now st)
    (timers st ++ [mkTimer (now st + delay) cb]).

(** The collections the board shows. *)
Definition shownItems (st : State) : list BoardItem :=
  match activeRoom st with Some r => room_items r | None => [] end.
Definition shownLinks (st : State) : list BoardLink :=
  match activeRoom st with Some r => room_links r | None => [] end.

Definition getItemCenter (item : BoardItem) : Point :=
  let d :=
    if bool_decide (item_type item = image) then mkDim (int 256) (int 200)
    else if bool_decide (item_type item = objective) then mkDim (int 256) (int 140)
    else if bool_decide (item_type item = idea_strip) then mkDim (int 280) (int 60)
    else if bool_decide (item_type item = goal) then mkDim (int 180) (int 180)
    else mkDim (int 160) (int 160) in
  mkPoint (item_x item + w d / int 2) (item_y item + h d / int 2).

(** *** Deletion *)

Definition handleDeleteItem (p : Props) (id : string) (st : State) : State :=
  let st := withHooks (setDeletingIds (fun prev => prev ∪ {[id]})) st in
  setTimeout (deleteLater id p (selectedId (hooks st)) (focusModeId (hooks st))) 300 st.

Definition fire (cb : Callback) (st : State) : State :=
  match cb with
  | deleteLater id p selected focused =>
      let st := setBoardItems p
                  (filter (fun item => item_id item ≠ id) (boardItems p)) st in
      let st := setBoardLinks p
                  (filter (fun l => fromId l ≠ id ∧ toId l ≠ id) (boardLinks p)) st in
      let st := withHooks (setDeletingIds (fun prev => prev ∖ {[id]})) st in
      let st := if bool_decide (selected = Some id)
                then withHooks (setSelectedId None) st else st in
      if bool_decide (focused = Some id) then withHooks exitFocusMode st else st
  end.

Definition elapse (dt : Z) (st : State) : State :=
  let t := (now st + dt)%Z in
  let ready := filter (fun tm => (due tm ≤ t)%Z) (timers st) in
  let waiting := filter (fun tm => ¬ (due tm ≤ t)%Z) (timers st) in
  fold_left (fun s tm => fire (callback tm) s) ready
    (mkState (rooms st) (activeRoomId st) (hooks st) t waiting).

(** *** Viewport *)

Definition handleWheel (e : WheelEvent) (st : State) : State :=
  let zoomSpeed := dec 1 1000 in
  let tr := transform (hooks st) in
  let newScale :=
    Math_min (Math_max (t_s tr - deltaY e * zoomSpeed) (dec 1 10)) (int 5) in
  match containerRef (hooks st) with
  | None => st
  | Some rect =>
      let mouseX := wheelX e - rect_left rect in
      let mouseY := wheelY e - rect_top rect in
      let boardX := (mouseX - t_x tr) / t_s tr in
      let boardY := (mouseY - t_y tr) / t_s tr in
      withHooks (setTransform (fun _ =>
        mkTransform (mouseX - boardX * newScale)
                    (mouseY - boardY * newScale) newScale)) st
  end.

Inductive ViewportOp :=
| opWheel (e : WheelEvent)
| opZoomIn
| opZoomOut
| opResetView
| opEnterFocus (id : string) (targetX targetY : Qc).

Definition runViewportOp (op : ViewportOp) (st : State) : State :=
  match op with
  | opWheel e => handleWheel e st
  | opZoomIn => withHooks zoomIn st
  | opZoomOut => withHooks zoomOut st
  | opResetView => withHooks resetView st
  | opEnterFocus id targetX targetY => withHooks (enterFocusMode id targetX targetY) st
  end.

(** *** Pointer gestures *)

Definition handleStartLink (id : string) (v : Variant) (st : State) : State :=
  withHooks (fun k =>
    setActiveLinkMenuId None (setActiveLinkVariant v (setPendingLinkStart (Some id) k))) st.

Definition handleMouseDown (p : Props) (rid : string) (e : MouseEvent)
    (id : option string) (st : State) : State :=
  let st := withHooks (setLastMousePos (mkPoint (clientX e) (clientY e))) st in
  if negb (truthyO id) then
    if bool_decide (button e = 0%Z) then
      if truthyO (pendingLinkStart (hooks st)) then
        withHooks (setPendingLinkStart None) st
      else
        let st := withHooks (fun k =>
          setActiveLinkMenuId None (setSelectedId None (setIsPanning true k))) st in
        if truthyO (focusModeId (hooks st)) then withHooks exitFocusMode st else st
    else st
  else
    let id := str id in
    if truthyO (pendingLinkStart (hooks st)) then
      let source := str (pendingLinkStart (hooks st)) in
      let st :=
        if bool_decide (source ≠ id) then
          setBoardLinks p
            (boardLinks p ++ [mkLink rid source id (activeLinkVariant (hooks st))]) st
        else st in
      withHooks (setPendingLinkStart None) st
    else
      match findItem id (boardItems p) with
      | None => st
      | Some item =>
          let st := withHooks (fun k =>
            setActiveLinkMenuId None (setSelectedId (Some id) k)) st in
          if negb (default false (item_isLocked item))
          then withHooks (setDraggingId (Some id)) st
          else st
      end.

Definition handleContainerMouseMove (p : Props) (e : MouseEvent) (st : State) : State :=
  let st :=
    if truthyO (pendingLinkStart (hooks st))
    then withHooks (setCursorPos
           (getBoardCoordinates (hooks st) (clientX e) (clientY e))) st
    else st in
  if isPanning (hooks st) && negb (truthyO (focusModeId (hooks st))) then
    let dx := clientX e - px (lastMousePos (hooks st)) in
    let dy := clientY e - py (lastMousePos (hooks st)) in
    let st := withHooks (setTransform (fun prev =>
      mkTransform (t_x prev + dx) (t_y prev + dy) (t_s prev))) st in
    withHooks (setLastMousePos (mkPoint (clientX e) (clientY e))) st
  else if truthyO (draggingId (hooks st)) then
    let dragged := str (draggingId (hooks st)) in
    let dx := clientX e - px (lastMousePos (hooks st)) in
    let dy := clientY e - py (lastMousePos (hooks st)) in
    let st := setBoardItems p
                (dragItems dragged dx dy (t_s (transform (hooks st))) (boardItems p)) st in
    withHooks (setLastMousePos (mkPoint (clientX e) (clientY e))) st
  else st.

(** An event reaches the handlers of the latest render: they see the
    props of the state they run on.  With no active room the board is
    not mounted and nothing runs. *)
Definition dispatch (handler : Props -> State -> State) (st : State) : State :=
  match props st with
  | Some p => handler p st
  | None => st
  end.

(** [createRoom(...)] of the [App] component, as far as [PlanningRoom] is
    modelled: the new room comes first, becomes the active one and the
    planning section is shown.  [rid] is the identifier drawn for the room;
    [initialItems.length > 0 ? initialItems : []] is [initialItems]. *)
Definition createRoom (rid : string) (initialItems : list BoardItem)
    (initialLinks : list BoardLink) (st : State) : State * AppSection :=
  (mkState (mkRoom rid initialItems initialLinks (now st) :: rooms st)
     (Some rid) (hooks st) (now st) (timers st), planning).

(** [deleteRoom(id)]: the [activeRoomId] compared inside the updater is
    the one of the render that created the handler. *)
Definition deleteRoom (id : string) (st : State) : State :=
  let filtered := List.filter (fun r => negb (bool_decide (room_id r = id))) (rooms st) in
  let active :=
    if bool_decide (activeRoomId st = Some id)
    then match filtered with
         | r :: _ => Some (room_id r)
         | [] => None
         end
    else activeRoomId st in
  mkState filtered active (hooks st) (now st) (timers st).

(** [onSync] of the scanner: one write of both collections, then the
    planning section.  The scanner is shown whether or not there is a room;
    with no room [activeRoom] is [undefined], reading [activeRoom.items]
    throws and nothing is written: that is the [None]. *)
Definition onSync (i : list BoardItem) (l : list BoardLink) (st : State)
    : option (State * AppSection) :=
  match activeRoom st with
  | Some r =>
      Some (updateActiveRoom (activeRoomId st) (room_items r ++ i) (room_links r ++ l) st,
            planning)
  | None => None
  end.

(** [handleUpdateItem(id, updates)] *)
Definition handleUpdateItem (p : Props) (id : string) (updates : Patch)
    (st : State) : State :=
  setBoardItems p (updateItems id updates (boardItems p)) st.

Section WithMath.
Context `{JsMath}.

(** [controlX = midX + nx * (index - (siblings.length - 1) / 2) * 30] *)
Definition connection (p : Props) (k : Hooks) (link : BoardLink)
    : option Render.Curve :=
  match findItem (fromId link) (boardItems p),
        findItem (toId link) (boardItems p) with
  | Some from, Some to =>
      let p1 := getItemCenter from in
      let p2 := getItemCenter to in
      let m := Render.mid p1 p2 in
      let n := Render.normal p1 p2 in
      let controlX := px m + px n * Render.centeredIndex (boardLinks p) link * int 30 in
      let controlY := py m + py n * Render.centeredIndex (boardLinks p) link * int 30 in
      Some (Render.mkCurve (link_id link) p1 (mkPoint controlX controlY) p2
              (variant link)
              (bool_decide (focusModeId k = Some (link_id link)))
              (truthyO (focusModeId k)
               && bool_decide (focusModeId k ≠ Some (link_id link))))
  | _, _ => None
  end.

Definition connections (p : Props) (k : Hooks) : list (option Render.Curve) :=
  map (connection p k) (boardLinks p).
(** [createConnectedTask(e, sourceId, variant)]: the two collections are
    written one after the other through the props. *)
Definition createConnectedTask (p : Props) (rid lid : string) (sourceId : string)
    (v : Variant) (st : State) : State :=
  match findItem sourceId (boardItems p) with
  | None => st
  | Some sourceItem =>
      let dims := getItemDimensions sticky in
      let pos := findBestPosition (boardItems p) (item_x sourceItem)
                   (item_y sourceItem) (w dims) (h dims) grid_below in
      let newTask :=
        mkItem rid sticky "New Task" (px pos) (py pos) (Some "bg-yellow-200")
          (Some false) (Some false) in
      let newLink := mkLink lid sourceId (item_id newTask) v in
      let st := setBoardItems p (boardItems p ++ [newTask]) st in
      let st := setBoardLinks p (boardLinks p ++ [newLink]) st in
      withHooks (fun k =>
        setSelectedId (Some (item_id newTask)) (setActiveLinkMenuId None k)) st
  end.
End WithMath.

End Part0.

(** ** The document scanner (component [DocumentScanner], same in both files) *)
Module Scanner.

Inductive BlockType := textBlock | imageBlock.

(** [DocBlock['tag']] *)
Inductive Tag := tagGoal | tagObjective | tagSticky | tagIdeaStrip | tagImage.

#[global] Instance BlockType_eq_dec : EqDecision BlockType.
Proof. solve_decision. Defined.
#[global] Instance Tag_eq_dec : EqDecision Tag.
Proof. solve_decision. Defined.

Record DocBlock := mkBlock {
  block_id : string;
  block_type : BlockType;
  block_content : string;
  block_tag : option Tag
}.

Record ContextMenu := mkMenu { menu_x : Qc; menu_y : Qc; menu_blockId : string }.

Record State := mkState {
  blocks : list DocBlock;
  contextMenu : option ContextMenu
}.

#[global] Instance DocBlock_eq_dec : EqDecision DocBlock.
Proof. solve_decision. Defined.

Definition initial : State :=
  mkState [mkBlock "1" textBlock "Start typing your strategy here..." None] None.

(** [addBlock(type)]; [rid] is the identifier drawn for the block. *)
Definition addBlock (rid : string) (type : BlockType) (st : State) : State :=
  let newBlock :=
    mkBlock rid type
      (if bool_decide (type = textBlock) then EmptyString
       else "https://picsum.photos/400/200") None in
  mkState (blocks st ++ [newBlock]) (contextMenu st).

Definition updateBlock (id : string) (content : string) (st : State) : State :=
  mkState
    (map (fun b => if bool_decide (block_id b = id)
                   then mkBlock (block_id b) (block_type b) content (block_tag b)
                   else b) (blocks st))
    (contextMenu st).

Definition deleteBlock (id : string) (st : State) : State :=
  mkState (List.filter (fun b => negb (bool_decide (block_id b = id))) (blocks st))
    (contextMenu st).

Definition handleRightClick (e : MouseEvent) (blockId : string) (st : State) : State :=
  mkState (blocks st) (Some (mkMenu (clientX e) (clientY e) blockId)).

(** [handleTag(tag)]; [None] is the "untag" entry. *)
Definition handleTag (tag : option Tag) (st : State) : State :=
  match contextMenu st with
  | Some menu =>
      mkState
        (map (fun b => if bool_decide (block_id b = menu_blockId menu)
                       then mkBlock (block_id b) (block_type b) (block_content b) tag
                       else b) (blocks st))
        None
  | None => st
  end.

(** The node type a tag stands for. *)
Definition tagType (tag : Tag) : ItemType :=
  if bool_decide (tag = tagSticky) then sticky
  else if bool_decide (tag = tagImage) then image
  else if bool_decide (tag = tagGoal) then goal
  else if bool_decide (tag = tagObjective) then objective
  else idea_strip.

(** The local variables of [handleSyncToBoard]. *)
Record Sync := mkSync {
  newItems : list BoardItem;
  newLinks : list BoardLink;
  lastTaskItemId : option string;
  gridX : Qc;
  gridY : Qc
}.

(** One pass of [blocks.forEach]; [rnd n] is the identifier drawn for the
    [n]-th link of the batch. *)
Definition syncBlock (rnd : nat -> string) (s : Sync) (block : DocBlock) : Sync :=
  match block_tag block with
  | None => s
  | Some tag =>
      let newItem :=
        mkItem ("scan-" +:+ block_id block) (tagType tag) (block_content block)
          (gridX s) (gridY s)
          (if bool_decide (tag = tagSticky) then Some "bg-yellow-200" else None)
          (Some false) None in
      let last :=
        if bool_decide (tag = tagSticky) then Some (item_id newItem)
        else lastTaskItemId s in
      let links :=
        if bool_decide (tag = tagImage) && truthyO last
        then newLinks s
               ++ [mkLink ("link-" +:+ rnd (length (newLinks s))) (str last)
                     (item_id newItem) neutral]
        else newLinks s in
      let gridX' := gridX s + int 220 in
      if gridX' >? int 800
      then mkSync (newItems s ++ [newItem]) links last (int 100) (gridY s + int 220)
      else mkSync (newItems s ++ [newItem]) links last gridX' (gridY s)
  end.

Definition syncStart : Sync := mkSync [] [] None (int 100) (int 100).

(** [handleSyncToBoard]: the batch handed to [onSync]. *)
Definition handleSyncToBoard (rnd : nat -> string) (st : State)
    : list BoardItem * list BoardLink :=
  let s := fold_left (syncBlock rnd) (blocks st) syncStart in
  (newItems s, newLinks s).

End Scanner.

(** ** The planning sheet (component [PlanningSheet], same in both files) *)
Module Sheet.

Definition goals (boardItems : list BoardItem) : list BoardItem :=
  List.filter (fun i => bool_decide (item_type i = goal)) boardItems.
Definition objectives (boardItems : list BoardItem) : list BoardItem :=
  List.filter (fun i => bool_decide (item_type i = objective)) boardItems.
Definition tasks (boardItems : list BoardItem) : list BoardItem :=
  List.filter (fun i => bool_decide (item_type i = sticky)) boardItems.
Definition ideas (boardItems : list BoardItem) : list BoardItem :=
  List.filter (fun i => bool_decide (item_type i = idea_strip)) boardItems.

Inductive Direction := incoming | outgoing.

(** [getDeps(id, type)]: [filter(Boolean)] drops the [undefined] of a
    link whose other end is not on the board. *)
Definition getDeps (boardItems : list BoardItem) (boardLinks : list BoardLink)
    (id : string) (type : Direction) : list BoardItem :=
  let links :=
    List.filter (fun l =>
      match type with
      | incoming => bool_decide (toId l = id)
      | outgoing => bool_decide (fromId l = id)
      end) boardLinks in
  omap (fun o : option BoardItem => o)
    (map (fun l =>
       let targetId := match type with incoming => fromId l | outgoing => toId l end in
       findItem targetId boardItems) links).

End Sheet.

(** ** The specification's vocabulary *)
Module Spec.

(** Where the board point [b] is drawn, in client coordinates: the board
    layer is styled [translate(x, y) scale(s)] with origin [0 0] inside
    the container.  This is the inverse of [getBoardCoordinates]. *)
Definition boardToClient (k : Hooks) (b : Point) : Point :=
  match containerRef k with
  | None => mkPoint 0 0
  | Some rect =>
      mkPoint (rect_left rect + t_x (transform k) + px b * t_s (transform k))
              (rect_top rect + t_y (transform k) + py b * t_s (transform k))
  end.

(** [clamp(scale - deltaY * k, 0.1, 5)] with [k = 0.001] *)
Definition clampedScale (scale deltaY : Qc) : Qc :=
  Math_min (Math_max (dec 1 10) (scale - deltaY * dec 1 1000)) (int 5).

(** The interval the viewport scale lives in. *)
Definition scaleInRange (s : Qc) : Prop := dec 1 10 ≤ s ∧ s ≤ int 5.

(** An axis-aligned rectangle: top-left corner and size. *)
Record Box := mkBox { box_x : Qc; box_y : Qc; box_w : Qc; box_h : Qc }.

(** A rectangle given by its four edges. *)
Record Edges := mkEdges { e_left : Qc; e_right : Qc; e_top : Qc; e_bottom : Qc }.

(** Modelled from the spec: the rectangle "expanded by a fixed buffer (40
    units)", grown by 40 on each of its four sides. *)
Definition expanded (b : Box) : Edges :=
  mkEdges (box_x b - int 40) (box_x b + box_w b + int 40)
          (box_y b - int 40) (box_y b + box_h b + int 40).

(** The rectangle with only its right and its bottom edge moved out by 40;
    the sums are taken from the corner, size first and 40 last. *)
Definition extended (b : Box) : Edges :=
  mkEdges (box_x b) (box_x b + box_w b + int 40)
          (box_y b) (box_y b + box_h b + int 40).

(** Modelled from the spec: the symmetric AABB test, "overlap iff both axis
    projections intersect". *)
Definition meet (a b : Edges) : Prop :=
  (e_left a < e_right b ∧ e_left b < e_right a)
  ∧ (e_top a < e_bottom b ∧ e_top b < e_bottom a).

#[global] Instance meet_dec (a b : Edges) : Decision (meet a b).
Proof. unfold meet. apply _. Defined.

(** The type-determined box of a node. *)
Definition itemBox (item : BoardItem) : Box :=
  mkBox (item_x item) (item_y item)
        (w (Geometry.getItemDimensions (item_type item)))
        (h (Geometry.getItemDimensions (item_type item))).

Section WithMath.
Context `{JsMath}.

(** The [k]-th point of the spiral around [(refX, refY)]: radius [15 k],
    angle [0.8 k]. *)
Definition spiralCandidate (refX refY : Qc) (k : nat) : Point :=
  let angle := int (Z.of_nat k) * dec 4 5 in
  let radius := int (Z.of_nat k) * int 15 in
  mkPoint (refX + Math_cos angle * radius) (refY + Math_sin angle * radius).

(** Modelled from the spec: the length of the straight line from [p1] to
    [p2], its perpendicular unit normal and its midpoint. *)
Definition chordLength (p1 p2 : Point) : Qc :=
  Math_sqrt ((px p2 - px p1) * (px p2 - px p1) + (py p2 - py p1) * (py p2 - py p1)).
Definition unitNormal (p1 p2 : Point) : Point :=
  mkPoint (- (py p2 - py p1) / chordLength p1 p2) ((px p2 - px p1) / chordLength p1 p2).

(** The loop variables of the spiral search after [k] passes. *)
Definition spiralAt (refX refY : Qc) (k : nat) : Geometry.Spiral :=
  {| Geometry.angle := int (Z.of_nat k) * dec 4 5;
     Geometry.radius := int (Z.of_nat k) * int 15;
     Geometry.sx := px (spiralCandidate refX refY k);
     Geometry.sy := py (spiralCandidate refX refY k);
     Geometry.attempts := Z.of_nat k |}.

End WithMath.

Definition midpoint (p1 p2 : Point) : Point :=
  mkPoint ((px p1 + px p2) / int 2) ((py p1 + py p2) / int 2).

(** The point [p] moved by [offset] along the direction [n]. *)
Definition displacedBy (p n : Point) (offset : Qc) : Point :=
  mkPoint (px p + px n * offset) (py p + py n * offset).

(** The candidate rectangle of size [width] x [height] at [p] overlaps a
    node of [boardItems]. *)
Definition overlapsAt (boardItems : list BoardItem) (width height : Qc)
    (p : Point) : Prop :=
  Geometry.checkOverlap boardItems (px p) (py p) width height None = true.

(** Cascade integrity for the deleted [id]: no node carries it and no
    link has it as an endpoint. *)
Definition purged (id : string) (items : list BoardItem) (links : list BoardLink) : Prop :=
  (id ∉ map item_id items) ∧ (∀ l, l ∈ links → fromId l ≠ id ∧ toId l ≠ id).

(** What a drag by [(mx, my)] board units of the node [dragged] may do to
    one node: the dragged node moves by that much and keeps every other
    field, any other node stays as it is. *)
Definition draggedFrame (dragged : string) (mx my : Qc) (old new : BoardItem) : Prop :=
  if decide (item_id old = dragged) then
    item_x new = item_x old + mx
    ∧ item_y new = item_y old + my
    ∧ item_id new = item_id old
    ∧ item_type new = item_type old
    ∧ item_content new = item_content old
    ∧ item_color new = item_color old
    ∧ item_isCompleted new = item_isCompleted old
    ∧ item_isLocked new = item_isLocked old
  else new = old.

(** The goal the new task is linked to: the goal created by the
    submission if there is one, else the goal picked in the form, if any. *)
Definition wizardTarget (k : Hooks) (ids : App.WizardIds) : option string :=
  if App.createsGoal k then Some (App.goalId ids)
  else if truthy (wizardGoalId k) then Some (wizardGoalId k)
  else None.

(** Two links join the same unordered pair of nodes. *)
Definition sameEndpoints (a b : BoardLink) : Prop :=
  (fromId a = fromId b ∧ toId a = toId b) ∨ (fromId a = toId b ∧ toId a = fromId b).

#[global] Instance sameEndpoints_dec (a b : BoardLink) : Decision (sameEndpoints a b).
Proof. unfold sameEndpoints. apply _. Defined.

(** The parallel links of [link]: the links between the same unordered
    pair of nodes, in the order of the collection. *)
Definition parallelGroup (boardLinks : list BoardLink) (link : BoardLink)
    : list BoardLink :=
  filter (sameEndpoints link) boardLinks.

(** The joined key tells the endpoint pairs of the collection apart
    (it always does when the ids contain no ['-']). *)
Definition keysFaithful (boardLinks : list BoardLink) : Prop :=
  ∀ a b, a ∈ boardLinks → b ∈ boardLinks →
    Render.pairId a = Render.pairId b → sameEndpoints a b.

(** The id contains the separator ['-'] of the joined key. *)
Fixpoint hasDash (s : string) : bool :=
  match s with
  | EmptyString => false
  | String c rest => Ascii.eqb c "-"%char || hasDash rest
  end.

Definition sumQc (l : list Qc) : Qc := foldr Qcplus 0 l.

(** The links whose key is [key], in the order of the collection. *)
Definition bucket (key : string) (boardLinks : list BoardLink) : list BoardLink :=
  filter (fun l => Render.pairId l = key) boardLinks.

(** [activeRoomId] names one of the rooms, so [updateActiveRoom] writes to
    the room the board shows. *)
Definition roomResolved (st : Part0.State) : Prop :=
  is_Some (List.find (fun r => bool_decide (Some (Part0.room_id r) = Part0.activeRoomId st))
             (Part0.rooms st)).

End Spec.

(** ** Concrete boards used by the examples *)
Module Samples.

Definition rect800 : DOMRect := mkRect 0 0 (int 800) (int 600).

(** The hooks of a freshly mounted board. *)
Definition hooks0 : Hooks :=
  mkHooks None None None critical None (Some rect800) ∅
    (mkTransform 0 0 1) false (mkPoint 0 0) (mkPoint 0 0) None
    false EmptyString EmptyString EmptyString None.

(** Wheel forward by 1000 units with the cursor at (100, 100). *)
Definition wheelIn : WheelEvent := mkWheel (int 100) (int 100) (int (-1000)).

Definition appEmpty : App.State := App.mkState [] [] hooks0 0 [].

Definition roomEmpty : Part0.State :=
  Part0.mkState [Part0.mkRoom "r" [] [] 0] (Some "r") hooks0 0 [].

Definition note (id : string) (x y : Z) : BoardItem :=
  mkItem id sticky "Note" (int x) (int y) (Some "bg-yellow-200") None None.

(** Two notes joined by one link, the first note selected. *)
Definition twoNotes : list BoardItem := [note "n1" 100 100; note "n2" 500 100].
Definition oneLink : list BoardLink := [mkLink "l1" "n1" "n2" critical].

Definition appTwoNotes : App.State :=
  App.mkState twoNotes oneLink (setSelectedId (Some "n1") hooks0) 0 [].

Definition roomTwoNotes : Part0.State :=
  Part0.mkState [Part0.mkRoom "r" twoNotes oneLink 0] (Some "r")
    (setSelectedId (Some "n1") hooks0) 0 [].

(** A link gesture started on [n1], and three presses. *)
Definition appPending : App.State :=
  App.handleStartLink (mkMouse (int 150) (int 150) 0) "n1" positive appTwoNotes.
Definition roomPending : Part0.State := Part0.handleStartLink "n1" positive roomTwoNotes.
Definition primaryPress : MouseEvent := mkMouse (int 700) (int 500) 0.
Definition secondaryPress : MouseEvent := mkMouse (int 700) (int 500) 2.

(** Note [n1] being dragged, at scale 2, and a pointer move by (30, -10). *)
Definition appDragging : App.State :=
  App.mkState twoNotes oneLink
    (setTransform (fun _ => mkTransform 0 0 (int 2))
       (setLastMousePos (mkPoint (int 200) (int 200))
          (setDraggingId (Some "n1") hooks0))) 0 [].
Definition pointerMove : MouseEvent := mkMouse (int 230) (int 190) 0.

(** A stand-in for the transcendental functions, for the examples whose
    result does not depend on them. *)
Definition flatMath : JsMath :=
  {| Math_cos := fun _ => 1; Math_sin := fun _ => 0; Math_sqrt := fun x => x |}.

Definition wizardIds : App.WizardIds := App.mkWizardIds "t9" "s9" "g9" "k9".

(** The wizard on an empty board: no goal picked (the placeholder entry),
    and a goal name left in the form by an earlier, cancelled attempt. *)
Definition appWizardLeftover : App.State :=
  App.mkState [] []
    (mkHooks None None None critical None (Some rect800) ∅
       (mkTransform 0 0 1) false (mkPoint 0 0) (mkPoint 0 0) None
       true "Write tests" EmptyString "Ship" None) 0 [].

(** The wizard on the two-note board with "create new goal" picked. *)
Definition appWizardNewGoal : App.State :=
  App.mkState twoNotes oneLink
    (mkHooks None None None critical None (Some rect800) ∅
       (mkTransform 0 0 1) false (mkPoint 0 0) (mkPoint 0 0) None
       true "Write tests" "new_goal" "Ship" None) 0 [].

(** Three parallel links between [n1] and [n2], one of them reversed, and
    one link elsewhere. *)
Definition fanLinks : list BoardLink :=
  [mkLink "a" "n1" "n2" critical; mkLink "b" "n3" "n1" neutral;
   mkLink "c" "n2" "n1" positive; mkLink "d" "n1" "n2" alternative].

(** Two nodes imported by the scanner (ids [scan-...]) and one drawn on the
    board, with links between them. *)
Definition scannedLinks : list BoardLink :=
  [mkLink "link-a" "scan-1" "scan-x7" neutral; mkLink "m" "k3" "scan-1" critical;
   mkLink "link-b" "scan-x7" "scan-1" neutral].

End Samples.

(** ** Vocabulary for the properties of the remaining handlers *)
Module Vocab.

(** Referential integrity: both ends of every link are on the board. *)
Definition linksResolved (items : list BoardItem) (links : list BoardLink) : Prop :=
  ∀ l, l ∈ links →
    is_Some (findItem (fromId l) items) ∧ is_Some (findItem (toId l) items).

(** The active room id names a room, or there is neither a room nor an
    active id. *)
Definition roomsConsistent (st : Part0.State) : Prop :=
  Spec.roomResolved st ∨ (Part0.rooms st = [] ∧ Part0.activeRoomId st = None).

(** The cell of the [k]-th scanned node: four columns 220 apart from
    (100, 100). *)
Definition scanCell (k : nat) : Point :=
  mkPoint (int 100 + int 220 * int (Z.of_nat (k mod 4)))
          (int 100 + int 220 * int (Z.of_nat (k / 4))).

(** The cells grid-below mode tries, row by row. *)
Definition gridCells (refX refY : Qc) : list Point :=
  row ← [1; 2; 3; 4; 5]%Z;
  (fun ox => mkPoint (refX + ox) (refY + int row * Geometry.rowHeight))
    <$> Geometry.offsets.


(** A run of pointer moves over the board of [src/App.tsx]. *)
Definition pointerMoves (es : list MouseEvent) (st : App.State) : App.State :=
  fold_left (fun s e => App.handleContainerMouseMove e s) es st.

(** Where the pointer is after the moves [es], having started at [p0]. *)
Definition pointerAt (es : list MouseEvent) (p0 : Point) : Point :=
  List.last (map (fun e => mkPoint (clientX e) (clientY e)) es) p0.

(** The offsets moved by the step from [from] to [to]. *)
Definition panned (from to : Point) (tr : Transform) : Transform :=
  mkTransform (t_x tr + (px to - px from)) (t_y tr + (py to - py from)) (t_s tr).


(** The viewport after the pointer moves [es] of a pan, the pointer having
    been at [p] before them: each move shifts the offsets by its step from
    the previous pointer position, one move after the other. *)
Fixpoint panSteps (p : Point) (es : list MouseEvent) (tr : Transform) : Transform :=
  match es with
  | [] => tr
  | e :: rest =>
      panSteps (mkPoint (clientX e) (clientY e)) rest
        (panned p (mkPoint (clientX e) (clientY e)) tr)
  end.

(** The nodes after the pointer moves [es] of a drag of [id] at [scale], the
    pointer having been at [p] before them: each move shifts the node by its
    step from the previous pointer position over the scale, one move after
    the other. *)
Fixpoint dragSteps (id : string) (scale : Qc) (p : Point) (es : list MouseEvent)
    (items : list BoardItem) : list BoardItem :=
  match es with
  | [] => items
  | e :: rest =>
      dragSteps id scale (mkPoint (clientX e) (clientY e)) rest
        (dragItems id (clientX e - px p) (clientY e - py p) scale items)
  end.

(** The candidate box of the given size overlaps no node when put at [c]. *)
Definition freeAt (boardItems : list BoardItem) (width height : Qc) (c : Point) : bool :=
  negb (Geometry.checkOverlap boardItems (px c) (py c) width height None).


(** The tagged blocks of a document, in order, each with its tag. *)
Definition tagged (blocks : list Scanner.DocBlock) : list (Scanner.DocBlock * Scanner.Tag) :=
  omap (fun b => (fun tag => (b, tag)) <$> Scanner.block_tag b) blocks.

(** The node made of the [k]-th tagged block. *)
Definition scanItem (k : nat) (bt : Scanner.DocBlock * Scanner.Tag) : BoardItem :=
  mkItem ("scan-" +:+ Scanner.block_id bt.1) (Scanner.tagType bt.2)
    (Scanner.block_content bt.1) (px (scanCell k)) (py (scanCell k))
    (if bool_decide (bt.2 = Scanner.tagSticky) then Some "bg-yellow-200" else None)
    (Some false) None.

(** [l] is a neutral link from a sticky note of [items] to an image that
    comes later in [items], with no other sticky note in between. *)
Definition notePicture (items : list BoardItem) (l : BoardLink) : Prop :=
  ∃ (i j : nat) (t m : BoardItem),
    (i < j)%nat ∧ items !! i = Some t ∧ items !! j = Some m
    ∧ item_type t = sticky ∧ item_type m = image
    ∧ fromId l = item_id t ∧ toId l = item_id m ∧ variant l = neutral
    ∧ ∀ (k : nat) x, (i < k < j)%nat → items !! k = Some x → item_type x ≠ sticky.

(** What the loop of [handleSyncToBoard] maintains: every link made so far
    joins a note to a later picture, and [lastTaskItemId] names the last
    note made so far, if any. *)
Definition syncInv (s : Scanner.Sync) : Prop :=
  (∀ l, l ∈ Scanner.newLinks s → notePicture (Scanner.newItems s) l)
  ∧ match Scanner.lastTaskItemId s with
    | None => ∀ x, x ∈ Scanner.newItems s → item_type x ≠ sticky
    | Some id =>
        truthy id = true
        ∧ ∃ (i : nat) t, Scanner.newItems s !! i = Some t ∧ item_type t = sticky
            ∧ item_id t = id
            ∧ ∀ (k : nat) x, (i < k)%nat → Scanner.newItems s !! k = Some x →
                item_type x ≠ sticky
    end.


(** The patch the text fields of the nodes send: [{ content }]. *)
Definition contentPatch (content : string) : Patch :=
  mkPatch None None (Some content) None None None None None.

(** The board of [src/App.tsx] has no dangling link. *)
Definition resolved (st : App.State) : Prop :=
  linksResolved (App.boardItems st) (App.boardLinks st).


(** The end of a link the sheet matches against the node, and the end it
    then shows, for each direction. *)
Definition nearEnd (type : Sheet.Direction) (l : BoardLink) : string :=
  match type with Sheet.incoming => toId l | Sheet.outgoing => fromId l end.
Definition farEnd (type : Sheet.Direction) (l : BoardLink) : string :=
  match type with Sheet.incoming => fromId l | Sheet.outgoing => toId l end.


(** [k] presses of the language button, starting from [language]. *)
Definition toggles (langs : list string) (k : nat) (language : string) : option string :=
  Nat.iter k (fun o => o ≫= App.toggleLanguage langs) (Some language).

End Vocab.

(** ** Further boards used by the examples *)
Module Boards.

(** A board whose only node is locked. *)
Definition lockedNote : BoardItem :=
  mkItem "k1" sticky "Fixed" (int 100) (int 100) (Some "bg-yellow-200") None (Some true).
Definition appLocked : App.State :=
  App.mkState [lockedNote] [] Samples.hooks0 0 [].


(** A document of six blocks: a note, plain text, two pictures, a goal and
    one more picture, all but the text tagged. *)
Definition scannedDoc : Scanner.State :=
  Scanner.mkState
    [Scanner.mkBlock "b1" Scanner.textBlock "Ship it" (Some Scanner.tagSticky);
     Scanner.mkBlock "b2" Scanner.textBlock "so that" None;
     Scanner.mkBlock "b3" Scanner.imageBlock "a.png" (Some Scanner.tagImage);
     Scanner.mkBlock "b4" Scanner.imageBlock "b.png" (Some Scanner.tagImage);
     Scanner.mkBlock "b5" Scanner.textBlock "Done" (Some Scanner.tagGoal);
     Scanner.mkBlock "b6" Scanner.imageBlock "c.png" (Some Scanner.tagImage)]
    None.

(** The link ids of a batch: [r0], [r1], ... *)
Definition linkIds (n : nat) : string :=
  match n with O => "r0" | 1%nat => "r1" | 2%nat => "r2" | _ => "r3" end.

End Boards.

(** * Proofs *)

(** ** Arithmetic helpers *)

(** Closed comparisons between literals are decided by evaluation. *)
Ltac qc_eval := apply (bool_decide_unpack _); vm_compute; exact I.

Lemma Qcltb_true (a b : Qc) : (a <? b) = true ↔ a < b.
Proof. unfold Qcltb. apply bool_decide_eq_true. Qed.

Lemma Qcltb_false (a b : Qc) : (a <? b) = false ↔ b ≤ a.
Proof.
  unfold Qcltb. rewrite bool_decide_eq_false. split.
  - apply Qcnot_lt_le.
  - apply Qcle_not_lt.
Qed.

Lemma Qcgtb_true (a b : Qc) : (a >? b) = true ↔ b < a.
Proof. unfold Qcgtb. apply bool_decide_eq_true. Qed.

Lemma Math_max_lb_l (a b : Qc) : a ≤ Math_max a b.
Proof.
  unfold Math_max. destruct (a <? b) eqn:E.
  - apply Qclt_le_weak, Qcltb_true, E.
  - apply Qcle_refl.
Qed.

Lemma Math_max_lb_r (a b : Qc) : b ≤ Math_max a b.
Proof.
  unfold Math_max. destruct (a <? b) eqn:E.
  - apply Qcle_refl.
  - apply Qcltb_false, E.
Qed.

Lemma Math_max_lub (a b c : Qc) : a ≤ c → b ≤ c → Math_max a b ≤ c.
Proof. unfold Math_max. destruct (a <? b); auto. Qed.

Lemma Math_min_ub_l (a b : Qc) : Math_min a b ≤ a.
Proof.
  unfold Math_min. destruct (b <? a) eqn:E.
  - apply Qclt_le_weak, Qcltb_true, E.
  - apply Qcle_refl.
Qed.

Lemma Math_min_ub_r (a b : Qc) : Math_min a b ≤ b.
Proof.
  unfold Math_min. destruct (b <? a) eqn:E.
  - apply Qcle_refl.
  - apply Qcltb_false, E.
Qed.

Lemma Math_min_glb (a b c : Qc) : c ≤ a → c ≤ b → c ≤ Math_min a b.
Proof. unfold Math_min. destruct (b <? a); auto. Qed.

Lemma clamp_in_range (v : Qc) :
  Spec.scaleInRange (Math_min (Math_max (dec 1 10) v) (int 5)).
Proof.
  split.
  - apply Math_min_glb; [apply Math_max_lb_l | qc_eval].
  - apply Math_min_ub_r.
Qed.

Ltac qc_lra :=
  unfold Qcle, Qclt, Qcminus, Qcplus, Qcopp, Qcmult, dec, int, Qc_of_Z, Q2Qc in *;
  cbn [this] in *; rewrite ?Qred_correct in *; lra.

(** ** Viewport *)

Import Spec.

Lemma zoomIn_in_range (s : Qc) :
  scaleInRange s → scaleInRange (Math_min (s + dec 1 5) (int 5)).
Proof.
  intros [Hlo Hhi]. split.
  - apply Math_min_glb; qc_lra.
  - apply Math_min_ub_r.
Qed.

Lemma zoomOut_in_range (s : Qc) :
  scaleInRange s → scaleInRange (Math_max (s - dec 1 5) (dec 1 10)).
Proof.
  intros [Hlo Hhi]. split.
  - apply Math_max_lb_r.
  - apply Math_max_lub; qc_lra.
Qed.

Lemma enterFocusMode_scale (id : string) (tx ty : Qc) (k : Hooks) :
  t_s (transform (enterFocusMode id tx ty k)) = t_s (transform k)
  ∨ t_s (transform (enterFocusMode id tx ty k)) = dec 3 2.
Proof. unfold enterFocusMode. destruct (containerRef k); [by right | by left]. Qed.

Lemma focus_scale_in_range : scaleInRange (dec 3 2).
Proof. split; qc_eval. Qed.

Lemma reset_scale_in_range : scaleInRange 1.
Proof. split; qc_eval. Qed.

(** C9.  Every operation on the viewport of [src/App.tsx] (wheel,
    zoom-in, zoom-out, reset, entering focus mode) keeps a scale that lies
    in [0.1, 5] inside [0.1, 5]. *)
Theorem scale_clamp_invariant (op : App.ViewportOp) (st : App.State) :
  scaleInRange (t_s (transform (App.hooks st))) →
  scaleInRange (t_s (transform (App.hooks (App.runViewportOp op st)))).
Proof.
  intros Hs. destruct op as [e | | | | id tx ty]; cbn.
  - unfold App.handleWheel. destruct (truthyO _); [exact Hs |].
    cbn. apply clamp_in_range.
  - by apply zoomIn_in_range.
  - by apply zoomOut_in_range.
  - apply reset_scale_in_range.
  - destruct (enterFocusMode_scale id tx ty (App.hooks st)) as [-> | ->];
      [exact Hs | apply focus_scale_in_range].
Qed.

Lemma scale_clamp_invariant_witness :
  scaleInRange (t_s (transform (App.hooks
    (App.runViewportOp (App.opWheel Samples.wheelIn) Samples.appEmpty)))).
Proof.
  apply (scale_clamp_invariant (App.opWheel Samples.wheelIn) Samples.appEmpty).
  split; qc_eval.
Defined.

(** The same invariant for the viewport operations of the multi-room
    variant, whose wheel handler has no focus-mode guard. *)
Lemma scale_clamp_invariant_rooms (op : Part0.ViewportOp) (st : Part0.State) :
  scaleInRange (t_s (transform (Part0.hooks st))) →
  scaleInRange (t_s (transform (Part0.hooks (Part0.runViewportOp op st)))).
Proof.
  intros Hs. destruct op as [e | | | | id tx ty]; cbn.
  - unfold Part0.handleWheel. destruct (containerRef _); [| exact Hs].
    cbn. split.
    + apply Math_min_glb; [apply Math_max_lb_r | qc_eval].
    + apply Math_min_ub_r.
  - by apply zoomIn_in_range.
  - by apply zoomOut_in_range.
  - apply reset_scale_in_range.
  - destruct (enterFocusMode_scale id tx ty (Part0.hooks st)) as [-> | ->];
      [exact Hs | apply focus_scale_in_range].
Qed.

Lemma Math_max_comm (a b : Qc) : Math_max a b = Math_max b a.
Proof.
  unfold Math_max. destruct (a <? b) eqn:Eab, (b <? a) eqn:Eba; try done.
  - apply Qcltb_true in Eab, Eba. destruct (Qclt_not_le _ _ Eab). by apply Qclt_le_weak.
  - apply Qcltb_false in Eab, Eba. by apply Qcle_antisym.
Qed.

(** Rescaling the offset [m] of a point from scale [s] to [s'] leaves it in
    place exactly when the offset is zero or the scale did not change. *)
Lemma rescale_fixed_iff (c m s s' : Qc) :
  s ≠ 0 → c + m / s * s' = c + m ↔ m = 0 ∨ s' = s.
Proof.
  intros Hs. split.
  - intros Heq.
    assert (Hm : m * (s' - s) = 0).
    { assert (H1 : m / s * s' = m).
      { apply (Qcplus_inj_r c). exact Heq. }
      transitivity (m / s * s' * s - m * s); [field; exact Hs |].
      rewrite H1. ring. }
    destruct (Qcmult_integral _ _ Hm) as [H0 | H0]; [by left | right].
    transitivity (s' - s + s); [ring | rewrite H0; ring].
  - intros [-> | ->]; [| field; exact Hs].
    unfold Qcdiv. ring.
Qed.

(** C2, counterexample.  In [src/App.tsx] the wheel handler rescales
    without moving the offsets: outside focus mode, at scale 1 and offset
    (0, 0), a wheel step of -1000 with the cursor on board point (100, 100)
    doubles the scale, and that board point is then drawn at (200, 200). *)
Lemma zoom_to_cursor_fails_in_App :
  let k := App.hooks Samples.appEmpty in
  let k' := App.hooks (App.handleWheel Samples.wheelIn Samples.appEmpty) in
  let b := getBoardCoordinates k (wheelX Samples.wheelIn) (wheelY Samples.wheelIn) in
  focusModeId k = None
  ∧ t_s (transform k') = clampedScale (t_s (transform k)) (deltaY Samples.wheelIn)
  ∧ b = mkPoint (int 100) (int 100)
  ∧ boardToClient k' b = mkPoint (int 200) (int 200)
  ∧ boardToClient k' b ≠ mkPoint (wheelX Samples.wheelIn) (wheelY Samples.wheelIn).
Proof.
  cbv zeta. split; [reflexivity |]. split; [reflexivity |].
  split; [by apply (bool_decide_unpack _) |].
  assert (H : boardToClient
                (App.hooks (App.handleWheel Samples.wheelIn Samples.appEmpty))
                (getBoardCoordinates (App.hooks Samples.appEmpty)
                   (wheelX Samples.wheelIn) (wheelY Samples.wheelIn))
              = mkPoint (int 200) (int 200)).
  { by apply (bool_decide_unpack _). }
  split; [exact H |]. rewrite H. intros Heq.
  apply (f_equal px) in Heq. cbn in Heq. revert Heq.
  by apply (bool_decide_unpack _).
Qed.

(** C2, as amended.  The two wheel handlers, at a non-zero scale:
    - [src/unnamed/part_000] (no focus-mode guard, container mounted) sets
      the scale to [clamp(scale - deltaY * 0.001, 0.1, 5)] and recomputes
      the offsets so that the board point under the cursor is drawn at the
      cursor again;
    - [src/App.tsx] (outside focus mode) sets the scale to the same
      clamped value and keeps both offsets, so on each axis the board point
      under the cursor stays on its pixel exactly when the cursor is on the
      offset origin of that axis or the scale did not change. *)
Theorem zoom_to_cursor (e : WheelEvent) :
  (∀ (st : Part0.State) (rect : DOMRect),
     containerRef (Part0.hooks st) = Some rect →
     t_s (transform (Part0.hooks st)) ≠ 0 →
     let k := Part0.hooks st in
     let k' := Part0.hooks (Part0.handleWheel e st) in
     t_s (transform k') = clampedScale (t_s (transform k)) (deltaY e)
     ∧ boardToClient k' (getBoardCoordinates k (wheelX e) (wheelY e))
       = mkPoint (wheelX e) (wheelY e))
  ∧
  (∀ (st : App.State) (rect : DOMRect),
     truthyO (focusModeId (App.hooks st)) = false →
     containerRef (App.hooks st) = Some rect →
     t_s (transform (App.hooks st)) ≠ 0 →
     let k := App.hooks st in
     let k' := App.hooks (App.handleWheel e st) in
     let b := getBoardCoordinates k (wheelX e) (wheelY e) in
     transform k'
       = mkTransform (t_x (transform k)) (t_y (transform k))
           (clampedScale (t_s (transform k)) (deltaY e))
     ∧ (px (boardToClient k' b) = wheelX e
        ↔ wheelX e - rect_left rect - t_x (transform k) = 0
          ∨ t_s (transform k') = t_s (transform k))
     ∧ (py (boardToClient k' b) = wheelY e
        ↔ wheelY e - rect_top rect - t_y (transform k) = 0
          ∨ t_s (transform k') = t_s (transform k))).
Proof.
  split.
  - intros st rect Hrect Hs. cbv zeta.
    unfold Part0.handleWheel, getBoardCoordinates, boardToClient.
    rewrite Hrect. cbn. rewrite Hrect. cbn. split.
    + unfold clampedScale. f_equal. apply Math_max_comm.
    + f_equal; ring.
  - intros st rect Hfocus Hrect Hs. cbv zeta.
    unfold App.handleWheel, getBoardCoordinates, boardToClient.
    rewrite Hfocus, Hrect. cbn. rewrite Hrect. cbn.
    split; [reflexivity |]. split.
    + set (m := wheelX e - rect_left rect - t_x (transform (App.hooks st))).
      set (c := rect_left rect + t_x (transform (App.hooks st))).
      replace (wheelX e) with (c + m) at 1 by (unfold c, m; ring).
      by apply rescale_fixed_iff.
    + set (m := wheelY e - rect_top rect - t_y (transform (App.hooks st))).
      set (c := rect_top rect + t_y (transform (App.hooks st))).
      replace (wheelY e) with (c + m) at 1 by (unfold c, m; ring).
      by apply rescale_fixed_iff.
Qed.

Lemma zoom_to_cursor_witness :
  boardToClient (Part0.hooks (Part0.handleWheel Samples.wheelIn Samples.roomEmpty))
    (getBoardCoordinates (Part0.hooks Samples.roomEmpty)
       (wheelX Samples.wheelIn) (wheelY Samples.wheelIn))
  = mkPoint (wheelX Samples.wheelIn) (wheelY Samples.wheelIn)
  ∧ transform (App.hooks (App.handleWheel Samples.wheelIn Samples.appEmpty))
    = mkTransform 0 0 (int 2).
Proof.
  split.
  - apply (proj1 (zoom_to_cursor Samples.wheelIn) Samples.roomEmpty Samples.rect800).
    + reflexivity.
    + by apply (bool_decide_unpack _).
  - destruct (proj2 (zoom_to_cursor Samples.wheelIn) Samples.appEmpty Samples.rect800)
      as [Ht _].
    + reflexivity.
    + reflexivity.
    + by apply (bool_decide_unpack _).
    + rewrite Ht. by apply (bool_decide_unpack _).
Defined.

(** ** Geometry engine *)

Import Geometry.

(** The per-node test of [checkOverlap] is the AABB test on the two
    rectangles with their right and bottom edges moved out by 40. *)
Lemma overlap_test_meet (x y width height : Qc) (item : BoardItem) :
  (x <? item_x item + w (getItemDimensions (item_type item)) + buffer)
  && (x + width + buffer >? item_x item)
  && (y <? item_y item + h (getItemDimensions (item_type item)) + buffer)
  && (y + height + buffer >? item_y item) = true
  ↔ meet (extended (mkBox x y width height)) (extended (itemBox item)).
Proof.
  rewrite !andb_true_iff, !Qcltb_true, !Qcgtb_true.
  unfold meet, extended, itemBox, buffer. cbn. tauto.
Qed.

(** Moving the near edges out as well only makes two rectangles meet more
    easily. *)
Lemma extended_meet_expanded (a b : Box) :
  meet (extended a) (extended b) → meet (expanded a) (expanded b).
Proof.
  destruct a as [ax ay aw ah], b as [bx' by' bw bh].
  unfold meet, extended, expanded. cbn.
  unfold Qclt, Qcminus, Qcplus, Qcopp, int, Qc_of_Z, Q2Qc. cbn [this].
  rewrite ?Qred_correct. unfold inject_Z.
  intros [[H1 H2] [H3 H4]]. repeat split; lra.
Qed.



Section Spiral.
Context `{JsMath}.
Variables (boardItems : list BoardItem) (refX refY width height : Qc).

Local Abbreviation overlapsAt := (Spec.overlapsAt boardItems width height).
Local Abbreviation spiralAt := (Spec.spiralAt refX refY).

Lemma int_0 : int 0 = 0.
Proof. apply Z2Qc_inj_0. Qed.

Lemma int_succ (k : nat) : int (Z.of_nat (S k)) = int (Z.of_nat k) + 1.
Proof. unfold int. by rewrite Nat2Z.inj_succ, <- Z.add_1_r, Z2Qc_inj_add, Z2Qc_inj_1. Qed.

Lemma spiralCandidate_0 : spiralCandidate refX refY 0 = mkPoint refX refY.
Proof.
  unfold spiralCandidate. change (Z.of_nat 0) with 0%Z. rewrite int_0. f_equal; ring.
Qed.

Lemma spiralStart_at : spiralStart refX refY = spiralAt 0.
Proof.
  unfold spiralStart, Spec.spiralAt. rewrite spiralCandidate_0. cbn [px py].
  change (Z.of_nat 0) with 0%Z. rewrite int_0. f_equal; ring.
Qed.

Lemma spiralStep_at (k : nat) : spiralStep refX refY (spiralAt k) = spiralAt (S k).
Proof.
  unfold spiralStep, Spec.spiralAt, spiralCandidate. cbn [angle radius sx sy attempts px py].
  rewrite int_succ, Nat2Z.inj_succ, <- Z.add_1_r.
  assert (Ha : int (Z.of_nat k) * dec 4 5 + dec 4 5 = (int (Z.of_nat k) + 1) * dec 4 5)
    by ring.
  assert (Hr : int (Z.of_nat k) * int 15 + int 15 = (int (Z.of_nat k) + 1) * int 15)
    by ring.
  by rewrite Ha, Hr.
Qed.

(** The loop, entered after [k] passes with enough fuel for the rest,
    stops on the first candidate from [k] on that does not overlap, or on
    candidate 200. *)
Lemma whileSpiral_first (fuel k : nat) :
  (k + fuel = 200)%nat →
  ∃ j, (k ≤ j ≤ 200)%nat
    ∧ whileSpiral fuel boardItems refX refY width height (spiralAt k) = spiralAt j
    ∧ (∀ i, (k ≤ i < j)%nat → overlapsAt (spiralCandidate refX refY i))
    ∧ ((j < 200)%nat → ¬ overlapsAt (spiralCandidate refX refY j)).
Proof.
  revert k. induction fuel as [| fuel IH]; intros k Hk.
  - exists k. split; [lia |]. split; [reflexivity |].
    split; [intros i Hi; lia | intros Hlt; lia].
  - cbn [whileSpiral]. cbn [sx sy attempts Spec.spiralAt].
    destruct (checkOverlap boardItems (px (spiralCandidate refX refY k))
                (py (spiralCandidate refX refY k)) width height None) eqn:Hover.
    + rewrite bool_decide_eq_true_2 by lia. cbn [andb].
      rewrite spiralStep_at.
      destruct (IH (S k)) as (j & Hj & Hrun & Hbefore & Hstop); [lia |].
      exists j. split; [lia |]. split; [exact Hrun |]. split; [| exact Hstop].
      intros i Hi. destruct (decide (i = k)) as [-> | Hne].
      * exact Hover.
      * apply Hbefore. lia.
    + cbn [andb]. exists k. split; [lia |]. split; [reflexivity |].
      split; [intros i Hi; lia |].
      intros _. unfold Spec.overlapsAt. by rewrite Hover.
Qed.

(** Termination: once [attempts] has reached 200 minus the fuel, more
    fuel changes nothing; 200 passes are never exceeded. *)
Lemma whileSpiral_fuel (fuel extra : nat) (s : Spiral) :
  (200 - attempts s ≤ Z.of_nat fuel)%Z →
  whileSpiral (fuel + extra) boardItems refX refY width height s
  = whileSpiral fuel boardItems refX refY width height s.
Proof.
  revert s. induction fuel as [| fuel IH]; intros s Hs.
  - cbn [Nat.add whileSpiral]. destruct extra as [| extra]; [reflexivity |].
    cbn [whileSpiral]. rewrite bool_decide_eq_false_2 by lia.
    by rewrite andb_false_r.
  - cbn [Nat.add whileSpiral].
    destruct (checkOverlap _ _ _ _ _ _ && bool_decide _); [| reflexivity].
    apply IH. cbn [spiralStep attempts]. lia.
Qed.

(** C3.  In spiral mode [findBestPosition] walks the candidates
    [(refX + cos(0.8 k) * 15 k, refY + sin(0.8 k) * 15 k)], [k = 0, 1, ...],
    and returns the first one that overlaps no node, or candidate 200 after
    200 overlapping ones.  So a free reference point is returned as it is, a
    free candidate among the 201 makes the result free, and 200 failed
    attempts yield the last candidate.  The loop ends within 200 passes:
    the function always returns a coordinate. *)
Theorem findBestPosition_spiral :
  let r := findBestPosition boardItems refX refY width height spiral in
  (∃ j, (j ≤ 200)%nat
     ∧ r = spiralCandidate refX refY j
     ∧ (∀ i, (i < j)%nat → overlapsAt (spiralCandidate refX refY i))
     ∧ ((j < 200)%nat → ¬ overlapsAt r))
  ∧ (¬ overlapsAt (mkPoint refX refY) → r = mkPoint refX refY)
  ∧ ((∃ k, (k ≤ 200)%nat ∧ ¬ overlapsAt (spiralCandidate refX refY k)) → ¬ overlapsAt r)
  ∧ ((∀ k, (k < 200)%nat → overlapsAt (spiralCandidate refX refY k))
     → r = spiralCandidate refX refY 200)
  ∧ (∀ extra,
       whileSpiral (200 + extra) boardItems refX refY width height (spiralStart refX refY)
       = whileSpiral 200 boardItems refX refY width height (spiralStart refX refY)).
Proof.
  cbv zeta.
  destruct (whileSpiral_first 200 0 eq_refl) as (j & Hj & Hrun & Hbefore & Hstop).
  assert (Hr : findBestPosition boardItems refX refY width height spiral
               = spiralCandidate refX refY j).
  { unfold findBestPosition. rewrite spiralStart_at, Hrun. cbn [sx sy Spec.spiralAt].
    by destruct (spiralCandidate refX refY j). }
  rewrite Hr. split; [| split; [| split; [| split]]].
  - exists j. split; [lia |]. split; [reflexivity |].
    split; [intros i Hi; apply Hbefore; lia | exact Hstop].
  - intros Hfree. rewrite <- spiralCandidate_0 in Hfree.
    destruct j as [| j]; [apply spiralCandidate_0 |].
    destruct Hfree. apply Hbefore. lia.
  - intros (k & Hk & Hfree) Hover.
    destruct (decide (j < 200)%nat) as [Hlt | Hge]; [by apply Hstop |].
    assert (j = 200%nat) as -> by lia.
    destruct (decide (k = 200%nat)) as [-> | Hne]; [by apply Hfree |].
    apply Hfree, Hbefore. lia.
  - intros Hall. destruct (decide (j < 200)%nat) as [Hlt | Hge].
    + destruct (Hstop Hlt). by apply Hall.
    + by assert (j = 200%nat) as -> by lia.
  - intros extra. apply whileSpiral_fuel. cbn. lia.
Qed.

End Spiral.

(** ** Deletion *)

Lemma purged_filter (id : string) (items : list BoardItem) (links : list BoardLink) :
  purged id (filter (fun item => item_id item ≠ id) items)
            (filter (fun l => fromId l ≠ id ∧ toId l ≠ id) links).
Proof.
  split.
  - rewrite list_elem_of_fmap. intros (item & -> & Hin).
    apply list_elem_of_filter in Hin. by destruct Hin.
  - intros l Hin. apply list_elem_of_filter in Hin. by destruct Hin.
Qed.

(** Whatever happened since the handler ran, the callback of
    [src/App.tsx] filters the collections of the moment it fires. *)
Lemma App_fire_purges (id : string) (s : App.State) :
  purged id (App.boardItems (App.fire (App.deleteLater id) s))
            (App.boardLinks (App.fire (App.deleteLater id) s)).
Proof. cbn. apply purged_filter. Qed.

Lemma App_handleDeleteItem_frame (id : string) (st : App.State) :
  App.boardItems (App.handleDeleteItem id st) = App.boardItems st
  ∧ App.boardLinks (App.handleDeleteItem id st) = App.boardLinks st
  ∧ App.now (App.handleDeleteItem id st) = App.now st
  ∧ App.timers (App.handleDeleteItem id st)
    = App.timers st ++ [App.mkTimer (App.now st + 300) (App.deleteLater id)].
Proof. unfold App.handleDeleteItem. repeat case_bool_decide; done. Qed.

(** In [src/App.tsx], once at least 300 ms have passed since
    [handleDeleteItem(id)], the node and every link that touches it are
    gone, whatever other deletions were pending. *)
Lemma App_delete_cascades (id : string) (st : App.State) (dt : Z) :
  (300 ≤ dt)%Z →
  purged id (App.boardItems (App.elapse dt (App.handleDeleteItem id st)))
            (App.boardLinks (App.elapse dt (App.handleDeleteItem id st))).
Proof.
  intros Hdt. unfold App.elapse.
  destruct (App_handleDeleteItem_frame id st) as (Hi & Hl & Hn & Ht).
  rewrite Hi, Hl, Hn, Ht. rewrite !filter_app.
  rewrite (filter_cons_True (λ tm, (App.due tm ≤ App.now st + dt)%Z)) by (cbn; lia).
  rewrite filter_nil, fold_left_app. cbn [fold_left App.callback].
  apply App_fire_purges.
Qed.

(** C1, evaluated on the multi-room variant.  Deleting note [n1] of a room
    with two notes and one link: when the timer has fired, the link is gone
    but the room still holds both notes, because the second write,
    [setBoardLinks], goes through [updateActiveRoom(activeRoom.items, l)]
    with the items of the render that created the handler.  On the same
    board [src/App.tsx] removes the note and the link. *)
Theorem delete_keeps_node_in_rooms_variant :
  let st1 := Part0.dispatch (fun p => Part0.handleDeleteItem p "n1") Samples.roomTwoNotes in
  let st2 := Part0.elapse 300 st1 in
  let st2' := App.elapse 300 (App.handleDeleteItem "n1" Samples.appTwoNotes) in
  Part0.shownItems st2 = Samples.twoNotes
  ∧ Part0.shownLinks st2 = []
  ∧ Part0.timers st2 = []
  ∧ ¬ purged "n1" (Part0.shownItems st2) (Part0.shownLinks st2)
  ∧ App.boardItems st2' = [Samples.note "n2" 500 100]
  ∧ App.boardLinks st2' = [].
Proof.
  cbv zeta.
  assert (Hitems : Part0.shownItems (Part0.elapse 300
            (Part0.dispatch (fun p => Part0.handleDeleteItem p "n1") Samples.roomTwoNotes))
          = Samples.twoNotes) by (by apply (bool_decide_unpack _)).
  split; [exact Hitems |].
  split; [by apply (bool_decide_unpack _) |].
  split; [by apply (bool_decide_unpack _) |].
  split.
  - rewrite Hitems. intros [Hnode _]. apply Hnode. cbn. by left.
  - split; by apply (bool_decide_unpack _).
Qed.

(** C5, counterexample.  In the multi-room variant the selection is not
    cleared when [handleDeleteItem] is called: with note [n1] selected it is
    still selected after the call and 299 ms later, and is cleared only when
    the timer fires. *)
Lemma delete_clears_selection_late_in_rooms_variant :
  let st1 := Part0.dispatch (fun p => Part0.handleDeleteItem p "n1") Samples.roomTwoNotes in
  selectedId (Part0.hooks Samples.roomTwoNotes) = Some "n1"
  ∧ "n1" ∈ deletingIds (Part0.hooks st1)
  ∧ selectedId (Part0.hooks st1) = Some "n1"
  ∧ selectedId (Part0.hooks (Part0.elapse 299 st1)) = Some "n1"
  ∧ selectedId (Part0.hooks (Part0.elapse 300 st1)) = None.
Proof.
  cbv zeta. split; [reflexivity |].
  split; [by apply (bool_decide_unpack _) |].
  repeat split; by apply (bool_decide_unpack _).
Qed.

Lemma App_handleDeleteItem_hooks (id : string) (st : App.State) :
  let k := App.hooks st in
  let k1 := App.hooks (App.handleDeleteItem id st) in
  deletingIds k1 = deletingIds k ∪ {[id]}
  ∧ selectedId k1 = (if bool_decide (selectedId k = Some id) then None else selectedId k)
  ∧ focusModeId k1 = (if bool_decide (focusModeId k = Some id) then None else focusModeId k).
Proof. cbv zeta. unfold App.handleDeleteItem. cbn. repeat case_bool_decide; done. Qed.

(** C5, as amended.  For both handlers the call itself adds [id] to the
    deleting set, leaves the node and link collections as they are and
    registers one callback due 300 ms later; with no other timer pending the
    collections stay untouched for any lapse shorter than 300 ms.
    - [src/App.tsx]: a selection or focus target equal to [id] is cleared by
      the call; after 300 ms the callback has removed the node, its links and
      the deleting mark.
    - [src/unnamed/part_000]: the call leaves selection and focus target as
      they are; the callback clears them, when they were equal to [id] at the
      call, together with the deleting mark. *)
Theorem delete_timing (id : string) :
  (∀ st : App.State,
     let k := App.hooks st in
     let st1 := App.handleDeleteItem id st in
     let k1 := App.hooks st1 in
     deletingIds k1 = deletingIds k ∪ {[id]}
     ∧ App.boardItems st1 = App.boardItems st
     ∧ App.boardLinks st1 = App.boardLinks st
     ∧ App.timers st1
       = App.timers st ++ [App.mkTimer (App.now st + 300) (App.deleteLater id)]
     ∧ selectedId k1 = (if bool_decide (selectedId k = Some id) then None else selectedId k)
     ∧ focusModeId k1 = (if bool_decide (focusModeId k = Some id) then None else focusModeId k)
     ∧ (∀ dt, (dt < 300)%Z → App.timers st = [] →
          App.boardItems (App.elapse dt st1) = App.boardItems st
          ∧ App.boardLinks (App.elapse dt st1) = App.boardLinks st
          ∧ id ∈ deletingIds (App.hooks (App.elapse dt st1)))
     ∧ (∀ dt, (300 ≤ dt)%Z → App.timers st = [] →
          App.boardItems (App.elapse dt st1)
          = filter (fun item => item_id item ≠ id) (App.boardItems st)
          ∧ App.boardLinks (App.elapse dt st1)
            = filter (fun l => fromId l ≠ id ∧ toId l ≠ id) (App.boardLinks st)
          ∧ id ∉ deletingIds (App.hooks (App.elapse dt st1))))
  ∧
  (∀ (st : Part0.State) (p : Part0.Props),
     let k := Part0.hooks st in
     let st1 := Part0.handleDeleteItem p id st in
     let k1 := Part0.hooks st1 in
     deletingIds k1 = deletingIds k ∪ {[id]}
     ∧ Part0.rooms st1 = Part0.rooms st
     ∧ Part0.timers st1
       = Part0.timers st
         ++ [Part0.mkTimer (Part0.now st + 300)
               (Part0.deleteLater id p (selectedId k) (focusModeId k))]
     ∧ selectedId k1 = selectedId k
     ∧ focusModeId k1 = focusModeId k
     ∧ (∀ dt, (dt < 300)%Z → Part0.timers st = [] →
          Part0.rooms (Part0.elapse dt st1) = Part0.rooms st
          ∧ id ∈ deletingIds (Part0.hooks (Part0.elapse dt st1))
          ∧ selectedId (Part0.hooks (Part0.elapse dt st1)) = selectedId k
          ∧ focusModeId (Part0.hooks (Part0.elapse dt st1)) = focusModeId k)
     ∧ (∀ dt, (300 ≤ dt)%Z → Part0.timers st = [] →
          let k2 := Part0.hooks (Part0.elapse dt st1) in
          (id ∉ deletingIds k2)
          ∧ selectedId k2
            = (if bool_decide (selectedId k = Some id) then None else selectedId k)
          ∧ focusModeId k2
            = (if bool_decide (focusModeId k = Some id) then None else focusModeId k))).
Proof.
  split.
  - intros st. cbv zeta.
    destruct (App_handleDeleteItem_frame id st) as (Hi & Hl & Hn & Ht).
    destruct (App_handleDeleteItem_hooks id st) as (Hd & Hsel & Hfoc).
    do 6 (split; [assumption |]). split.
    + intros dt Hdt Hnone. unfold App.elapse.
      rewrite Hi, Hl, Hn, Ht, Hnone. cbn [app].
      rewrite (filter_cons_False (λ tm, (App.due tm ≤ App.now st + dt)%Z))
        by (cbn; lia).
      rewrite filter_nil. cbn [fold_left App.boardItems App.boardLinks App.hooks].
      rewrite Hd. split; [done |]. split; [done |].
      apply elem_of_union. right. by apply elem_of_singleton.
    + intros dt Hdt Hnone. unfold App.elapse.
      rewrite Hi, Hl, Hn, Ht, Hnone. cbn [app].
      rewrite (filter_cons_True (λ tm, (App.due tm ≤ App.now st + dt)%Z))
        by (cbn; lia).
      rewrite filter_nil. cbn -[App.handleDeleteItem filter].
      rewrite Hd. split; [done |]. split; [done |].
      rewrite elem_of_difference, elem_of_singleton. by intros [_ Hne].
  - intros st p. cbv zeta. unfold Part0.handleDeleteItem. cbn.
    do 5 (split; [reflexivity |]). split.
    + intros dt Hdt Hnone. unfold Part0.elapse. cbn. rewrite Hnone. cbn [app].
      rewrite (filter_cons_False (λ tm, (Part0.due tm ≤ Part0.now st + dt)%Z))
        by (cbn; lia).
      cbn. split; [done |]. split; [| done].
      apply elem_of_union. right. by apply elem_of_singleton.
    + intros dt Hdt Hnone. unfold Part0.elapse. cbn. rewrite Hnone. cbn [app].
      rewrite (filter_cons_True (λ tm, (Part0.due tm ≤ Part0.now st + dt)%Z))
        by (cbn; lia).
      cbn. repeat case_bool_decide; cbn;
        (split; [| done]); rewrite elem_of_difference, elem_of_singleton;
        by intros [_ Hne].
Qed.

Lemma delete_timing_witness :
  App.boardItems (App.elapse 300 (App.handleDeleteItem "n1" Samples.appTwoNotes))
  = filter (fun item => item_id item ≠ "n1") (App.boardItems Samples.appTwoNotes).
Proof.
  destruct (proj1 (delete_timing "n1") Samples.appTwoNotes)
    as (_ & _ & _ & _ & _ & _ & _ & Hlate).
  destruct (Hlate 300%Z) as [Hitems _]; [lia | reflexivity | exact Hitems].
Defined.

(** ** Pointer gestures *)

Lemma truthy_true (s : string) : s ≠ EmptyString → truthy s = true.
Proof. intros Hs. unfold truthy. by apply negb_true_iff, String.eqb_neq. Qed.

Lemma truthy_true_iff (s : string) : truthy s = true ↔ s ≠ EmptyString.
Proof. unfold truthy. by rewrite negb_true_iff, String.eqb_neq. Qed.

Lemma truthy_false_iff (s : string) : truthy s = false ↔ s = EmptyString.
Proof. unfold truthy. by rewrite negb_false_iff, String.eqb_eq. Qed.

(** Writing to the active room shows what was written. *)
Lemma shown_after_update (st : Part0.State)
    (items : list BoardItem) (links : list BoardLink) :
  roomResolved st →
  let st' := Part0.updateActiveRoom (Part0.activeRoomId st) items links st in
  Part0.shownItems st' = items ∧ Part0.shownLinks st' = links.
Proof.
  intros [r Hr]. cbv zeta.
  unfold Part0.shownItems, Part0.shownLinks, Part0.activeRoom, Part0.updateActiveRoom.
  cbn [Part0.rooms Part0.activeRoomId].
  assert (Hfind : List.find
            (λ r0, bool_decide (Some (Part0.room_id r0) = Part0.activeRoomId st))
            (map (λ r0, if bool_decide (Some (Part0.room_id r0) = Part0.activeRoomId st)
                        then Part0.mkRoom (Part0.room_id r0) items links (Part0.now st)
                        else r0) (Part0.rooms st))
          = Some (Part0.mkRoom (Part0.room_id r) items links (Part0.now st))).
  { revert Hr. induction (Part0.rooms st) as [| r0 rs IH]; [discriminate |].
    cbn [List.find map]. case_bool_decide as Hid.
    - intros [= ->]. cbn [Part0.room_id]. by rewrite bool_decide_eq_true_2.
    - rewrite bool_decide_eq_false_2 by exact Hid. exact IH. }
  by rewrite Hfind.
Qed.

Lemma props_resolved (st : Part0.State) :
  roomResolved st →
  Part0.props st
  = Some (Part0.mkProps (Part0.shownItems st) (Part0.shownLinks st)
            (Part0.activeRoomId st)).
Proof.
  intros [r Hr]. unfold roomResolved in Hr.
  unfold Part0.props, Part0.shownItems, Part0.shownLinks, Part0.activeRoom.
  by rewrite Hr.
Qed.

Lemma roomResolved_update (st : Part0.State)
    (items : list BoardItem) (links : list BoardLink) :
  roomResolved st →
  roomResolved (Part0.updateActiveRoom (Part0.activeRoomId st) items links st).
Proof.
  intros [r Hr]. unfold roomResolved, Part0.updateActiveRoom.
  cbn [Part0.rooms Part0.activeRoomId]. revert Hr.
  induction (Part0.rooms st) as [| r0 rs IH]; [discriminate |].
  cbn [List.find map]. case_bool_decide as Hid.
  - intros _. cbn [Part0.room_id]. by rewrite bool_decide_eq_true_2.
  - rewrite bool_decide_eq_false_2 by exact Hid. exact IH.
Qed.

(** In the multi-room variant every completed deletion leaves the node
    collection exactly as it was when the handler was called and removes
    only the links: the write of the filtered links restores the items. *)
Lemma Part0_delete_keeps_items (id : string) (st : Part0.State) (dt : Z) :
  roomResolved st → Part0.timers st = [] → (300 ≤ dt)%Z →
  let st2 := Part0.elapse dt
               (Part0.dispatch (fun p => Part0.handleDeleteItem p id) st) in
  Part0.shownItems st2 = Part0.shownItems st
  ∧ Part0.shownLinks st2
    = filter (fun l => fromId l ≠ id ∧ toId l ≠ id) (Part0.shownLinks st).
Proof.
  intros Hroom Hnone Hdt. cbv zeta.
  unfold Part0.dispatch. rewrite (props_resolved st Hroom).
  unfold Part0.handleDeleteItem, Part0.elapse. cbn. rewrite Hnone. cbn [app].
  rewrite (filter_cons_True (λ tm, (Part0.due tm ≤ Part0.now st + dt)%Z))
    by (cbn; lia).
  rewrite filter_nil.
  set (items1 := filter (fun item => item_id item ≠ id) (Part0.shownItems st)).
  set (links2 := filter (fun l => fromId l ≠ id ∧ toId l ≠ id) (Part0.shownLinks st)).
  set (st0 := Part0.mkState (Part0.rooms st) (Part0.activeRoomId st)
                (setDeletingIds (fun prev => prev ∪ {[id]}) (Part0.hooks st))
                (Part0.now st + dt) []).
  assert (Hroom0 : roomResolved st0) by exact Hroom.
  pose proof (roomResolved_update st0 items1 (Part0.shownLinks st) Hroom0) as Hroom1.
  destruct (shown_after_update _ (Part0.shownItems st) links2 Hroom1)
    as [Hitems Hlinks].
  cbn [fold_left Part0.callback Part0.fire].
  repeat case_bool_decide; (split; [exact Hitems | exact Hlinks]).
Qed.

(** C6, counterexample.  With a link gesture pending from [n1], a press of
    a non-primary button on the empty canvas does not clear the pending
    state, in either file. *)
Lemma pending_survives_secondary_press :
  let st' := App.handleMouseDown "x" Samples.secondaryPress None Samples.appPending in
  let rt' := Part0.dispatch
               (fun p => Part0.handleMouseDown p "x" Samples.secondaryPress None)
               Samples.roomPending in
  pendingLinkStart (App.hooks Samples.appPending) = Some "n1"
  ∧ pendingLinkStart (App.hooks st') = Some "n1"
  ∧ pendingLinkStart (Part0.hooks Samples.roomPending) = Some "n1"
  ∧ pendingLinkStart (Part0.hooks rt') = Some "n1".
Proof. cbv zeta. repeat split; by apply (bool_decide_unpack _). Qed.

(** C6, as amended.  While a link gesture from a (non-empty) [source] with
    variant [v] is pending, in both files:
    - a primary-button press on the empty canvas, and any press on the
      source node itself, clear the pending state and leave nodes and links
      as they are;
    - a press of another button on the empty canvas leaves the pending
      state, the nodes and the links as they are;
    - a press on a node with a different (non-empty) id appends exactly one
      link [source -> target] of variant [v], leaves the nodes as they are
      and clears the pending state; that link is not a self-loop. *)
Theorem link_pending_resolution (source rid : string) (v : Variant) (e : MouseEvent) :
  source ≠ EmptyString →
  (∀ st : App.State,
     pendingLinkStart (App.hooks st) = Some source →
     activeLinkVariant (App.hooks st) = v →
     let press := fun id => App.handleMouseDown rid e id st in
     let frame := fun st' =>
       App.boardItems st' = App.boardItems st ∧ App.boardLinks st' = App.boardLinks st in
     (button e = 0%Z →
        pendingLinkStart (App.hooks (press None)) = None ∧ frame (press None))
     ∧ (button e ≠ 0%Z →
        pendingLinkStart (App.hooks (press None)) = Some source ∧ frame (press None))
     ∧ (pendingLinkStart (App.hooks (press (Some source))) = None
        ∧ frame (press (Some source)))
     ∧ (∀ target, target ≠ EmptyString → target ≠ source →
          pendingLinkStart (App.hooks (press (Some target))) = None
          ∧ App.boardItems (press (Some target)) = App.boardItems st
          ∧ App.boardLinks (press (Some target))
            = App.boardLinks st ++ [mkLink rid source target v]
          ∧ fromId (mkLink rid source target v) ≠ toId (mkLink rid source target v)))
  ∧
  (∀ st : Part0.State,
     roomResolved st →
     pendingLinkStart (Part0.hooks st) = Some source →
     activeLinkVariant (Part0.hooks st) = v →
     let press := fun id =>
       Part0.dispatch (fun p => Part0.handleMouseDown p rid e id) st in
     (button e = 0%Z →
        pendingLinkStart (Part0.hooks (press None)) = None
        ∧ Part0.rooms (press None) = Part0.rooms st)
     ∧ (button e ≠ 0%Z →
        pendingLinkStart (Part0.hooks (press None)) = Some source
        ∧ Part0.rooms (press None) = Part0.rooms st)
     ∧ (pendingLinkStart (Part0.hooks (press (Some source))) = None
        ∧ Part0.rooms (press (Some source)) = Part0.rooms st)
     ∧ (∀ target, target ≠ EmptyString → target ≠ source →
          pendingLinkStart (Part0.hooks (press (Some target))) = None
          ∧ Part0.shownItems (press (Some target)) = Part0.shownItems st
          ∧ Part0.shownLinks (press (Some target))
            = Part0.shownLinks st ++ [mkLink rid source target v]
          ∧ fromId (mkLink rid source target v) ≠ toId (mkLink rid source target v))).
Proof.
  intros Hsource. pose proof (truthy_true source Hsource) as Htruthy. split.
  - intros st Hpend Hv. cbv zeta. unfold App.handleMouseDown. cbn.
    rewrite Hpend. cbn. rewrite Htruthy.
    split; [| split; [| split]].
    + intros Hb. by rewrite bool_decide_eq_true_2.
    + intros Hb. rewrite bool_decide_eq_false_2 by done. cbn. by rewrite Hpend.
    + cbn. by rewrite bool_decide_eq_false_2 by (intros Hne; by apply Hne).
    + intros target Ht Hne. rewrite (truthy_true target) by done. cbn.
      rewrite bool_decide_eq_true_2 by done. cbn. rewrite Hv.
      repeat split. congruence.
  - intros st Hroom Hpend Hv. cbv zeta.
    unfold Part0.dispatch. rewrite (props_resolved st Hroom). unfold Part0.handleMouseDown. cbn.
    rewrite Hpend. cbn. rewrite Htruthy.
    split; [| split; [| split]].
    + intros Hb. by rewrite bool_decide_eq_true_2.
    + intros Hb. rewrite bool_decide_eq_false_2 by done. cbn. by rewrite Hpend.
    + cbn. by rewrite bool_decide_eq_false_2 by (intros Hne; by apply Hne).
    + intros target Ht Hne. rewrite (truthy_true target) by done. cbn.
      rewrite bool_decide_eq_true_2 by done. cbn. rewrite Hv.
      split; [done |].
      destruct (shown_after_update st (Part0.shownItems st)
                  (Part0.shownLinks st ++ [mkLink rid source target v]) Hroom)
        as [Hitems Hlinks].
      split; [exact Hitems |]. split; [exact Hlinks |]. congruence.
Qed.

Lemma link_pending_resolution_witness :
  App.boardLinks
    (App.handleMouseDown "x" Samples.primaryPress (Some "n2") Samples.appPending)
  = App.boardLinks Samples.appPending ++ [mkLink "x" "n1" "n2" positive].
Proof.
  destruct (link_pending_resolution "n1" "x" positive Samples.primaryPress)
    as [Happ _]; [done |].
  destruct (Happ Samples.appPending) as (_ & _ & _ & Hlink);
    [reflexivity | reflexivity |].
  destruct (Hlink "n2") as (_ & _ & Hlinks & _); [done | done | exact Hlinks].
Defined.

Lemma dragItems_frame (dragged : string) (dx dy scale : Qc) (items : list BoardItem) :
  Forall2 (draggedFrame dragged (dx / scale) (dy / scale))
    items (dragItems dragged dx dy scale items).
Proof.
  induction items as [| item items IH]; [constructor |].
  cbn [dragItems map]. constructor; [| exact IH].
  unfold draggedFrame. case_bool_decide as Hid.
  - rewrite decide_True by exact Hid. by cbn.
  - by rewrite decide_False by exact Hid.
Qed.

(** C10.  While a node is being dragged (pan not in effect), a pointer move
    changes, in both files, only the nodes that carry the dragged id, and of
    those only [x] and [y], each by the pointer delta divided by the
    viewport scale; every other node, every other field and the whole link
    collection stay as they are. *)
Theorem drag_frame (dragged : string) (e : MouseEvent) :
  dragged ≠ EmptyString →
  (∀ st : App.State,
     draggingId (App.hooks st) = Some dragged →
     isPanning (App.hooks st) && negb (truthyO (focusModeId (App.hooks st))) = false →
     t_s (transform (App.hooks st)) ≠ 0 →
     let st' := App.handleContainerMouseMove e st in
     let dx := clientX e - px (lastMousePos (App.hooks st)) in
     let dy := clientY e - py (lastMousePos (App.hooks st)) in
     let scale := t_s (transform (App.hooks st)) in
     Forall2 (draggedFrame dragged (dx / scale) (dy / scale))
       (App.boardItems st) (App.boardItems st')
     ∧ App.boardLinks st' = App.boardLinks st)
  ∧
  (∀ st : Part0.State,
     roomResolved st →
     draggingId (Part0.hooks st) = Some dragged →
     isPanning (Part0.hooks st) && negb (truthyO (focusModeId (Part0.hooks st))) = false →
     t_s (transform (Part0.hooks st)) ≠ 0 →
     let st' := Part0.dispatch (fun p => Part0.handleContainerMouseMove p e) st in
     let dx := clientX e - px (lastMousePos (Part0.hooks st)) in
     let dy := clientY e - py (lastMousePos (Part0.hooks st)) in
     let scale := t_s (transform (Part0.hooks st)) in
     Forall2 (draggedFrame dragged (dx / scale) (dy / scale))
       (Part0.shownItems st) (Part0.shownItems st')
     ∧ Part0.shownLinks st' = Part0.shownLinks st).
Proof.
  intros Hdragged. pose proof (truthy_true dragged Hdragged) as Htruthy. split.
  - intros st Hdrag Hpan _. cbv zeta. unfold App.handleContainerMouseMove.
    destruct (truthyO (pendingLinkStart (App.hooks st))); cbn;
      rewrite Hpan, Hdrag; cbn; rewrite Htruthy; cbn;
      (split; [apply dragItems_frame | reflexivity]).
  - intros st Hroom Hdrag Hpan _. cbv zeta.
    unfold Part0.dispatch. rewrite (props_resolved st Hroom). unfold Part0.handleContainerMouseMove.
    destruct (shown_after_update st
                (dragItems dragged
                   (clientX e - px (lastMousePos (Part0.hooks st)))
                   (clientY e - py (lastMousePos (Part0.hooks st)))
                   (t_s (transform (Part0.hooks st))) (Part0.shownItems st))
                (Part0.shownLinks st) Hroom) as [Hitems Hlinks].
    destruct (truthyO (pendingLinkStart (Part0.hooks st))); cbn;
      rewrite Hpan, Hdrag; cbn; rewrite Htruthy; cbn;
      (split; [| exact Hlinks]);
      (eapply eq_rect; [apply dragItems_frame | symmetry; exact Hitems]).
Qed.

Lemma drag_frame_witness :
  Forall2 (draggedFrame "n1" (int 30 / int 2) (int (-10) / int 2))
    (App.boardItems Samples.appDragging)
    (App.boardItems (App.handleContainerMouseMove Samples.pointerMove Samples.appDragging)).
Proof.
  destruct (drag_frame "n1" Samples.pointerMove) as [Happ _]; [done |].
  destruct (Happ Samples.appDragging) as [Hitems _].
  - reflexivity.
  - reflexivity.
  - by apply (bool_decide_unpack _).
  - exact Hitems.
Defined.

(** ** Task-creation wizard *)

(** C8, counterexample.  With the placeholder entry selected (no goal id)
    and a goal name still in the form, a submission creates a goal node and
    links the task to it although "create new goal" was not chosen. *)
Lemma wizard_creates_goal_unasked :
  let st := Samples.appWizardLeftover in
  let st' := App.handleCreateLinkedTask (H := Samples.flatMath) Samples.wizardIds st in
  wizardGoalId (App.hooks st) = EmptyString
  ∧ wizardGoalId (App.hooks st) ≠ "new_goal"
  ∧ map item_type (App.boardItems st') = [sticky; goal]
  ∧ map item_id (App.boardItems st') = ["t9"; "g9"]
  ∧ App.boardLinks st' = [mkLink "k9" "t9" "g9" positive].
Proof.
  cbv zeta. split; [reflexivity |]. split; [done |].
  repeat split; by apply (bool_decide_unpack _).
Qed.

Section Wizard.
Context `{JsMath}.

(** C8, as amended.  A wizard submission appends, in one update,
    - exactly one task node, and exactly one goal node when "create new
      goal" is the selected entry, or when no goal is selected and the
      goal-name field is not empty; no goal node otherwise;
    - one critical link source -> task exactly when a source resolves: the
      wizard's source if that id names a node, else the first objective node,
      else none;
    - one positive link task -> goal exactly when a target goal is
      determined: the created goal, else the goal selected in the form;
    so at most two links; and it resets the wizard.  (The identifier drawn
    for a created goal is taken to be neither empty nor ['new_goal'].) *)
Theorem wizard_submission (ids : App.WizardIds) (st : App.State) :
  App.goalId ids ≠ EmptyString →
  App.goalId ids ≠ "new_goal" →
  let k := App.hooks st in
  let st' := App.handleCreateLinkedTask ids st in
  let sourceLinks :=
    match App.wizardSource st with
    | Some s => [mkLink (App.sourceLinkId ids) (item_id s) (App.taskId ids) critical]
    | None => []
    end in
  let goalLinks :=
    match wizardTarget k ids with
    | Some g => [mkLink (App.goalLinkId ids) (App.taskId ids) g positive]
    | None => []
    end in
  (App.createsGoal k = true
   ↔ wizardGoalId k = "new_goal" ∨ (wizardGoalId k = EmptyString ∧ wizardNewGoalName k ≠ EmptyString))
  ∧ (∃ taskPos goalPos : Point,
       App.boardItems st'
       = App.boardItems st
         ++ mkItem (App.taskId ids) sticky (App.str_or (wizardTaskName k) "New Task")
              (px taskPos) (py taskPos) (Some "bg-yellow-200") (Some false) (Some false)
         :: (if App.createsGoal k
             then [mkItem (App.goalId ids) goal
                     (App.str_or (wizardNewGoalName k) "New Goal")
                     (px goalPos) (py goalPos) None (Some false) (Some false)]
             else []))
  ∧ App.boardLinks st' = App.boardLinks st ++ sourceLinks ++ goalLinks
  ∧ (length (sourceLinks ++ goalLinks) ≤ 2)%nat
  ∧ (∀ s, truthyO (wizardSourceId k) = true →
          findItem (str (wizardSourceId k)) (App.boardItems st) = Some s →
          App.wizardSource st = Some s)
  ∧ ((truthyO (wizardSourceId k) = false
      ∨ findItem (str (wizardSourceId k)) (App.boardItems st) = None) →
     App.wizardSource st
     = List.find (fun i => bool_decide (item_type i = objective)) (App.boardItems st))
  ∧ App.hooks st' = resetWizard k.
Proof.
  intros Hne Hnew. cbv zeta.
  assert (Hgoal : truthy (App.goalId ids) && bool_decide (App.goalId ids ≠ "new_goal") = true).
  { rewrite (truthy_true _ Hne). by rewrite bool_decide_eq_true_2. }
  split; [| split; [| split; [| split; [| split; [| split]]]]].
  - unfold App.createsGoal.
    rewrite orb_true_iff, andb_true_iff, bool_decide_eq_true, negb_true_iff.
    by rewrite truthy_false_iff, truthy_true_iff.
  - unfold App.handleCreateLinkedTask.
    destruct (App.createsGoal (App.hooks st)); cbn.
    + do 2 eexists. reflexivity.
    + eexists _, (mkPoint 0 0). reflexivity.
  - unfold App.handleCreateLinkedTask, wizardTarget.
    destruct (App.createsGoal (App.hooks st)) eqn:Hcreate.
    + cbn. rewrite Hgoal. cbn. destruct (App.wizardSource st); by rewrite <- ?app_assoc.
    + assert (Hsel : wizardGoalId (App.hooks st) ≠ "new_goal").
      { unfold App.createsGoal in Hcreate. apply orb_false_iff in Hcreate as [Hsel _].
        by apply bool_decide_eq_false in Hsel. }
      cbn. rewrite (bool_decide_eq_true_2 _ Hsel), andb_true_r.
      destruct (truthy (wizardGoalId (App.hooks st))), (App.wizardSource st); cbn;
        by rewrite <- ?app_assoc, ?app_nil_r.
  - destruct (App.wizardSource st), (wizardTarget (App.hooks st) ids); cbn; lia.
  - intros s Htruthy Hfind. unfold App.wizardSource. by rewrite Htruthy, Hfind.
  - intros Hnone. unfold App.wizardSource.
    destruct Hnone as [Hfalsy | Hfind]; [by rewrite Hfalsy |].
    rewrite Hfind. by destruct (truthyO _).
  - unfold App.handleCreateLinkedTask.
    destruct (App.createsGoal (App.hooks st)); reflexivity.
Qed.

End Wizard.

Lemma wizard_submission_witness :
  App.boardLinks
    (App.handleCreateLinkedTask (H := Samples.flatMath) Samples.wizardIds
       Samples.appWizardNewGoal)
  = Samples.oneLink ++ [] ++ [mkLink "k9" "t9" "g9" positive].
Proof.
  destruct (wizard_submission (H := Samples.flatMath) Samples.wizardIds
              Samples.appWizardNewGoal) as (_ & _ & Hlinks & _); [done | done |].
  exact Hlinks.
Defined.

(** ** Link renderer *)

Import Render.

Lemma ltb_asym (x y : string) : String.ltb x y = true → String.ltb y x = false.
Proof.
  unfold String.ltb. rewrite (String.compare_antisym y x).
  by destruct (String.compare x y).
Qed.

Lemma ltb_total (x y : string) :
  String.ltb x y = false → String.ltb y x = false → x = y.
Proof.
  unfold String.ltb. rewrite (String.compare_antisym y x).
  destruct (String.compare x y) eqn:Hcmp; try done.
  intros _ _. by apply String.compare_eq_iff.
Qed.

(** The key does not depend on the direction of the link. *)
Lemma pairId_same (a b : BoardLink) : sameEndpoints a b → pairId a = pairId b.
Proof.
  unfold pairId. intros [[-> ->] | [Hf Ht]]; [done |]. rewrite Hf, Ht.
  destruct (String.ltb (fromId b) (toId b)) eqn:Hab.
  - by rewrite (ltb_asym _ _ Hab).
  - destruct (String.ltb (toId b) (fromId b)) eqn:Hba; [done |].
    by rewrite (ltb_total _ _ Hab Hba).
Qed.

Lemma linkGroups_snoc (boardLinks : list BoardLink) (link : BoardLink) :
  linkGroups (boardLinks ++ [link]) = addToGroup (linkGroups boardLinks) link.
Proof. unfold linkGroups. by rewrite fold_left_app. Qed.

Lemma linkGroups_lookup (boardLinks : list BoardLink) (key : string) :
  linkGroups boardLinks !! key
  = match bucket key boardLinks with [] => None | g => Some g end.
Proof.
  induction boardLinks as [| link boardLinks IH] using rev_ind; [done |].
  rewrite linkGroups_snoc. unfold bucket in *. rewrite filter_app.
  unfold addToGroup. destruct (decide (pairId link = key)) as [<- | Hne].
  - rewrite (filter_cons_True (λ l, pairId l = pairId link)) by done.
    rewrite filter_nil, IH.
    destruct (filter (λ l, pairId l = pairId link) boardLinks) as [| l0 g].
    + by rewrite lookup_insert_eq.
    + by rewrite lookup_insert_eq.
  - rewrite (filter_cons_False (λ l, pairId l = key)) by done.
    rewrite filter_nil, app_nil_r.
    destruct (linkGroups boardLinks !! pairId link);
      by rewrite lookup_insert_ne.
Qed.

Lemma siblings_bucket (boardLinks : list BoardLink) (link : BoardLink) :
  link ∈ boardLinks → siblings boardLinks link = bucket (pairId link) boardLinks.
Proof.
  intros Hin. unfold siblings. rewrite linkGroups_lookup.
  destruct (bucket (pairId link) boardLinks) as [| l0 g] eqn:Hb; [| done].
  assert (Hmem : link ∈ bucket (pairId link) boardLinks).
  { unfold bucket. by apply list_elem_of_filter. }
  rewrite Hb in Hmem. by apply not_elem_of_nil in Hmem.
Qed.

Lemma filter_agree {A} (P Q : A → Prop) `{∀ x, Decision (P x)} `{∀ x, Decision (Q x)}
    (l : list A) :
  (∀ x, x ∈ l → P x ↔ Q x) → filter P l = filter Q l.
Proof.
  induction l as [| x l IH]; [done |]. intros Hagree.
  assert (Htail : filter P l = filter Q l).
  { apply IH. intros y Hy. apply Hagree. by right. }
  destruct (decide (P x)) as [HP | HP].
  - rewrite (filter_cons_True P) by done.
    rewrite (filter_cons_True Q) by (apply Hagree; [left | done]).
    by rewrite Htail.
  - rewrite (filter_cons_False P) by done.
    rewrite (filter_cons_False Q); [by rewrite Htail |].
    intros HQ. apply HP, Hagree; [left | done].
Qed.

Lemma bucket_parallel (boardLinks : list BoardLink) (link : BoardLink) :
  keysFaithful boardLinks → link ∈ boardLinks →
  bucket (pairId link) boardLinks = parallelGroup boardLinks link.
Proof.
  intros Hkeys Hin. apply filter_agree. intros l Hl. split.
  - intros Hkey. apply Hkeys; done.
  - intros Hsame. symmetry. by apply pairId_same.
Qed.

Lemma findIndexFrom_unique (g : list BoardLink) (j : nat) (l : BoardLink) (i : Z) :
  NoDup (map link_id g) → g !! j = Some l →
  findIndexFrom (fun x => bool_decide (link_id x = link_id l)) g i = (i + Z.of_nat j)%Z.
Proof.
  revert j i. induction g as [| x g IH]; intros j i Hnd Hj; [done |].
  cbn [findIndexFrom]. apply NoDup_cons in Hnd as [Hx Hnd].
  destruct j as [| j].
  - injection Hj as ->. rewrite bool_decide_eq_true_2 by done. lia.
  - cbn in Hj. rewrite bool_decide_eq_false_2.
    + rewrite (IH j (i + 1)%Z Hnd Hj). lia.
    + intros Heq. apply Hx. cbn. rewrite Heq.
      apply list_elem_of_fmap. exists l. split; [done |].
      by apply list_elem_of_lookup_2 in Hj.
Qed.

Lemma NoDup_ids_filter (P : BoardLink → Prop) `{∀ x, Decision (P x)}
    (boardLinks : list BoardLink) :
  NoDup (map link_id boardLinks) → NoDup (map link_id (filter P boardLinks)).
Proof.
  intros Hnd. eapply sublist_NoDup; [exact Hnd |].
  apply (fmap_sublist link_id), sublist_filter.
Qed.

Lemma int_add (a b : Z) : int (a + b) = int a + int b.
Proof. apply Z2Qc_inj_add. Qed.

Lemma int_sub (a b : Z) : int (a - b) = int a - int b.
Proof. apply Z2Qc_inj_sub. Qed.

Lemma int_1 : int 1 = 1.
Proof. apply Z2Qc_inj_1. Qed.

Lemma int_2 : int 2 = 1 + 1.
Proof. apply Z2Qc_inj_2. Qed.

Lemma two_nonzero : (1 + 1 : Qc) ≠ 0.
Proof. by apply (bool_decide_unpack _). Qed.

Lemma sumQc_app (l1 l2 : list Qc) : sumQc (l1 ++ l2) = sumQc l1 + sumQc l2.
Proof.
  unfold sumQc. induction l1 as [| x l1 IH]; cbn [app foldr]; [ring |].
  rewrite IH. ring.
Qed.

(** The offsets [(j - c) * 30] for [j = 0 .. n - 1] add up to
    [(n (n - 1) / 2 - n c) * 30]. *)
Lemma sum_centered (n : nat) (c : Qc) :
  sumQc (map (fun j : nat => (int (Z.of_nat j) - c) * spread) (seq 0 n))
  = (int (Z.of_nat n) * (int (Z.of_nat n) - 1) / int 2 - int (Z.of_nat n) * c) * spread.
Proof.
  induction n as [| n IH].
  - cbn [seq map sumQc foldr]. change (Z.of_nat 0) with 0%Z. rewrite int_0, int_2.
    field. apply two_nonzero.
  - rewrite seq_S, map_app, sumQc_app, IH. cbn [map sumQc foldr Nat.add].
    rewrite Nat2Z.inj_succ, <- Z.add_1_r, int_add, int_1, int_2.
    field. apply two_nonzero.
Qed.

Lemma map_by_index {A B} (f : A → B) (h : nat → B) (g : list A) :
  (∀ j l, g !! j = Some l → f l = h j) → map f g = map h (seq 0 (length g)).
Proof.
  intros Hfh. apply list_eq. intros i.
  rewrite !list_lookup_fmap. destruct (g !! i) as [l |] eqn:Hi.
  - rewrite (lookup_seq_lt _ _ _ (lookup_lt_Some _ _ _ Hi)). cbn.
    by rewrite (Hfh i l Hi).
  - rewrite (lookup_seq_ge _ _ _ (proj1 (lookup_ge_None _ _) Hi)). done.
Qed.

(** With distinct link ids and faithful keys the renderer's group of a link
    is the list of its parallel links, and the [j]-th of them has index [j]
    and offset [30 * (j - (k - 1) / 2)]. *)
Lemma group_offsets (boardLinks : list BoardLink) (link : BoardLink) (j : nat)
    (l : BoardLink) :
  NoDup (map link_id boardLinks) →
  keysFaithful boardLinks →
  link ∈ boardLinks →
  parallelGroup boardLinks link !! j = Some l →
  siblings boardLinks l = parallelGroup boardLinks link
  ∧ siblingIndex boardLinks l = Z.of_nat j
  ∧ centeredIndex boardLinks l
    = int (Z.of_nat j) - (int (Z.of_nat (length (parallelGroup boardLinks link))) - 1) / int 2
  ∧ linkOffset boardLinks l
    = int 30 * (int (Z.of_nat j)
                - (int (Z.of_nat (length (parallelGroup boardLinks link))) - 1) / int 2).
Proof.
  intros Hnd Hkeys Hin Hj. set (group := parallelGroup boardLinks link) in *.
  assert (Hl : l ∈ group) by (by apply list_elem_of_lookup_2 in Hj).
  apply list_elem_of_filter in Hl as [Hsame Hl].
  assert (Hsib : siblings boardLinks l = group).
  { rewrite (siblings_bucket _ _ Hl), <- (pairId_same _ _ Hsame).
    by apply bucket_parallel. }
  assert (Hidx : siblingIndex boardLinks l = Z.of_nat j).
  { unfold siblingIndex, findIndex. rewrite Hsib.
    rewrite (findIndexFrom_unique group j l 0%Z); [lia | | exact Hj].
    by apply NoDup_ids_filter. }
  split; [exact Hsib |]. split; [exact Hidx |].
  unfold linkOffset, centeredIndex, siblingCount, spread. rewrite Hidx, Hsib.
  split; [reflexivity | ring].
Qed.

(** C7, counterexample.  Without distinct link ids the offsets are not
    symmetric: of two parallel links that share an id both are found at
    index 0, both get the offset -15, and the sum is -30.  And with ids that
    contain ['-'] two different endpoint pairs can share a key: the link
    [a-b -> c] has no parallel link, yet it is displaced by -15. *)
Lemma fan_out_needs_distinct_ids_and_faithful_keys :
  let twins := [mkLink "l1" "n1" "n2" critical; mkLink "l1" "n1" "n2" positive] in
  let dashed := [mkLink "l1" "a-b" "c" neutral; mkLink "l2" "a" "b-c" neutral] in
  (parallelGroup twins (mkLink "l1" "n1" "n2" critical) = twins
   ∧ map (siblingIndex twins) twins = [0%Z; 0%Z]
   ∧ map (linkOffset twins) twins = [int (-15); int (-15)]
   ∧ sumQc (map (linkOffset twins) twins) ≠ 0)
  ∧ (parallelGroup dashed (mkLink "l1" "a-b" "c" neutral)
     = [mkLink "l1" "a-b" "c" neutral]
     ∧ linkOffset dashed (mkLink "l1" "a-b" "c" neutral) = int (-15)
     ∧ sumQc (map (linkOffset dashed)
                (parallelGroup dashed (mkLink "l1" "a-b" "c" neutral))) ≠ 0).
Proof.
  cbv zeta. split; [split; [| split; [| split]] | split; [| split]]; qc_eval.
Qed.

Section FanOut.
Context `{JsMath}.

(** C7, as amended.  Let the link ids be distinct and the joined keys tell
    the endpoint pairs apart.  For the [k] parallel links between one
    unordered pair of nodes, taken in collection order, the renderer of
    either file groups exactly these links and gives the [j]-th of them the
    offset [30 * (j - (k - 1) / 2)].  If both ends of the link are nodes the
    curve is drawn, from the centre of the one to the centre of the other,
    with its control point at the midpoint of that line moved by the offset
    along the perpendicular unit normal [(-dy / len, dx / len)] of the line
    (along [(-dy, dx)] where [len] is 0); [src/unnamed/part_000] multiplies
    the normal by [j - (k - 1) / 2] first and by 30 last.  The offsets are
    symmetric around zero (the [j]-th and the [(k - 1 - j)]-th are
    opposite) and their sum is 0. *)
Theorem fan_out_symmetry (boardLinks : list BoardLink) (link : BoardLink) :
  NoDup (map link_id boardLinks) →
  keysFaithful boardLinks →
  link ∈ boardLinks →
  let group := parallelGroup boardLinks link in
  let k := length group in
  let centredAt := fun j : nat => int (Z.of_nat j) - (int (Z.of_nat k) - 1) / int 2 in
  let offsetAt := fun j : nat => int 30 * centredAt j in
  let direction := fun p1 p2 : Point =>
    if bool_decide (chordLength p1 p2 = 0)
    then mkPoint (- (py p2 - py p1) / 1) ((px p2 - px p1) / 1)
    else unitNormal p1 p2 in
  (∀ j l, group !! j = Some l →
     siblings boardLinks l = group
     ∧ siblingIndex boardLinks l = Z.of_nat j
     ∧ linkOffset boardLinks l = offsetAt j
     ∧ (∀ st from to,
          App.boardLinks st = boardLinks →
          findItem (fromId l) (App.boardItems st) = Some from →
          findItem (toId l) (App.boardItems st) = Some to →
          let p1 := App.getItemCenter from in
          let p2 := App.getItemCenter to in
          ∃ c, App.connection st l = Some c
               ∧ curve_p1 c = p1 ∧ curve_p2 c = p2
               ∧ curve_control c
                 = displacedBy (midpoint p1 p2) (direction p1 p2) (offsetAt j))
     ∧ (∀ p hk from to,
          Part0.boardLinks p = boardLinks →
          findItem (fromId l) (Part0.boardItems p) = Some from →
          findItem (toId l) (Part0.boardItems p) = Some to →
          let p1 := Part0.getItemCenter from in
          let p2 := Part0.getItemCenter to in
          ∃ c, Part0.connection p hk l = Some c
               ∧ curve_p1 c = p1 ∧ curve_p2 c = p2
               ∧ curve_control c
                 = mkPoint
                     (px (midpoint p1 p2) + px (direction p1 p2) * centredAt j * int 30)
                     (py (midpoint p1 p2) + py (direction p1 p2) * centredAt j * int 30)))
  ∧ (∀ j, (j < k)%nat → offsetAt (k - 1 - j)%nat = - offsetAt j)
  ∧ sumQc (map (linkOffset boardLinks) group) = 0.
Proof.
  intros Hnd Hkeys Hin. cbv zeta.
  set (group := parallelGroup boardLinks link).
  assert (Hdir : ∀ p1 p2 : Point,
            normal p1 p2
            = if bool_decide (chordLength p1 p2 = 0)
              then mkPoint (- (py p2 - py p1) / 1) ((px p2 - px p1) / 1)
              else unitNormal p1 p2).
  { intros p1 p2. unfold normal, unitNormal, num_or, dist.
    fold (chordLength p1 p2). by case_bool_decide. }
  split; [| split].
  - intros j l Hj.
    destruct (group_offsets boardLinks link j l Hnd Hkeys Hin Hj)
      as (Hsib & Hidx & Hci & Hoff).
    fold group in Hsib, Hci, Hoff.
    split; [exact Hsib |]. split; [exact Hidx |]. split; [exact Hoff |]. split.
    + intros st from to Hlinks Hfrom Hto. unfold App.connection.
      rewrite Hfrom, Hto. eexists. split; [reflexivity |].
      cbn [curve_p1 curve_p2 curve_control]. split; [done |]. split; [done |].
      rewrite Hlinks, Hoff, Hdir. reflexivity.
    + intros p hk from to Hlinks Hfrom Hto. unfold Part0.connection.
      rewrite Hfrom, Hto. eexists. split; [reflexivity |].
      cbn [curve_p1 curve_p2 curve_control]. split; [done |]. split; [done |].
      rewrite Hlinks, Hci, Hdir. reflexivity.
  - intros j Hj.
    replace (Z.of_nat (length group - 1 - j))
      with (Z.of_nat (length group) - 1 - Z.of_nat j)%Z by lia.
    rewrite !int_sub, int_1, int_2. field. apply two_nonzero.
  - rewrite (map_by_index _
      (fun j : nat => (int (Z.of_nat j) - (int (Z.of_nat (length group)) - 1) / int 2)
                      * spread)).
    + rewrite sum_centered, int_2. field. apply two_nonzero.
    + intros j l Hj.
      destruct (group_offsets boardLinks link j l Hnd Hkeys Hin Hj) as (_ & _ & _ & ->).
      subst group. unfold spread. ring.
Qed.

End FanOut.

(** Joining with ['-'] is injective on ids that contain no ['-']. *)
Lemma join_inj (a b c d : string) :
  hasDash a = false → hasDash c = false →
  a +:+ "-" +:+ b = c +:+ "-" +:+ d → a = c ∧ b = d.
Proof.
  revert c. induction a as [| x a IH]; intros [| y c] Ha Hc Heq;
    cbn [hasDash String.append] in *; simplify_eq/=.
  - done.
  - apply orb_false_iff in Ha as [_ Ha]. apply orb_false_iff in Hc as [_ Hc].
    destruct (IH c Ha Hc) as [-> ->]; done.
Qed.

(** Ids without ['-'] (every id drawn by the board, and the ids of the
    built-in boards) make the keys faithful. *)
Lemma keysFaithful_no_dash (boardLinks : list BoardLink) :
  (∀ l, l ∈ boardLinks → hasDash (fromId l) = false ∧ hasDash (toId l) = false) →
  keysFaithful boardLinks.
Proof.
  intros Hdash a b Ha Hb. destruct (Hdash a Ha) as [Haf Hat].
  destruct (Hdash b Hb) as [Hbf Hbt]. unfold pairId, sameEndpoints.
  destruct (String.ltb (toId a) (fromId a)), (String.ltb (toId b) (fromId b));
    intros Heq; apply join_inj in Heq as [H1 H2]; try done; auto.
Qed.

Lemma fan_out_symmetry_witness :
  sumQc (map (linkOffset Samples.fanLinks)
           (parallelGroup Samples.fanLinks (mkLink "a" "n1" "n2" critical))) = 0.
Proof.
  apply (fan_out_symmetry (H := Samples.flatMath) Samples.fanLinks
           (mkLink "a" "n1" "n2" critical)).
  - by apply (bool_decide_unpack _).
  - apply keysFaithful_no_dash. intros l Hl.
    repeat (apply elem_of_cons in Hl as [-> | Hl]; [by split |]).
    by apply not_elem_of_nil in Hl.
  - by left.
Defined.

(** The three parallel links of the sample get the offsets -30, 0, 30;
    the reversed one sits in the middle. *)
Example fan_out_three :
  map (linkOffset Samples.fanLinks)
    (parallelGroup Samples.fanLinks (mkLink "a" "n1" "n2" critical))
  = [int (-30); int 0; int 30].
Proof. qc_eval. Qed.

(** Ids with ['-'] can make two different endpoint pairs share a key: the
    links [a-b -> c] and [a -> b-c] are grouped together and fanned out
    although neither has a parallel link. *)
Example dashed_ids_share_a_key :
  let links := [mkLink "l1" "a-b" "c" neutral; mkLink "l2" "a" "b-c" neutral] in
  map pairId links = ["a-b-c"; "a-b-c"]
  ∧ map (linkOffset links) links = [int (-15); int 15].
Proof. cbv zeta. split; qc_eval. Qed.

(** A sticky at (100, 100): a second sticky overlaps until it is a full
    buffer away from the first one's far edge. *)
Example overlap_at_buffer_edge :
  let board := [Samples.note "n1" 100 100] in
  checkOverlap board (int 100) (int 100) (int 180) (int 180) None = true
  ∧ checkOverlap board (int 319) (int 100) (int 180) (int 180) None = true
  ∧ checkOverlap board (int 320) (int 100) (int 180) (int 180) None = false
  ∧ checkOverlap board (int 100) (int 100) (int 180) (int 180) (Some "n1") = false.
Proof. cbv zeta. repeat split; qc_eval. Qed.

(** On the empty board the reference point itself is returned. *)
Example spiral_on_empty_board :
  findBestPosition (H := Samples.flatMath) [] (int 7) (int 9) (int 180) (int 180) spiral
  = mkPoint (int 7) (int 9).
Proof. qc_eval. Qed.

(** Faithfulness of the keys of a given collection is decidable, so it
    can be checked by evaluation. *)
Lemma keysFaithful_Forall (boardLinks : list BoardLink) :
  keysFaithful boardLinks
  ↔ Forall (fun a => Forall (fun b => pairId a = pairId b → sameEndpoints a b)
                       boardLinks) boardLinks.
Proof.
  unfold keysFaithful. rewrite Forall_forall. split.
  - intros Hkeys a Ha. apply Forall_forall. intros b Hb. by apply Hkeys.
  - intros Hall a b Ha Hb. specialize (Hall a Ha).
    rewrite Forall_forall in Hall. by apply Hall.
Qed.

(** The ids the scanner makes ([scan-...]) contain ['-'], and the keys
    are still faithful on the sample. *)
Example scanned_ids_faithful : keysFaithful Samples.scannedLinks.
Proof. apply keysFaithful_Forall. qc_eval. Qed.

Section Reversed.
Context `{JsMath}.

(** Reversing a link keeps the distance between its endpoints, keeps the
    midpoint and flips the normal. *)
Lemma dist_reverse (p1 p2 : Point) : dist p2 p1 = dist p1 p2.
Proof. unfold dist. f_equal. ring. Qed.

Lemma mid_reverse (p1 p2 : Point) : mid p2 p1 = mid p1 p2.
Proof. unfold mid. f_equal; f_equal; ring. Qed.

Lemma normal_reverse (p1 p2 : Point) :
  normal p2 p1 = mkPoint (- px (normal p1 p2)) (- py (normal p1 p2)).
Proof.
  unfold normal. rewrite (dist_reverse p1 p2). cbn [px py].
  unfold Qcdiv. f_equal; ring.
Qed.

(** Two opposite links that are the only links between two nodes get the
    offsets -15 and 15; each is moved along its own perpendicular unit
    normal, the two normals are opposite, and so both curves get the same
    control point: they are drawn on top of each other.  Other links of the
    board do not matter. *)
Remark opposite_links_share_control (st : App.State) (a c : BoardLink)
    (n1 n2 : BoardItem) :
  NoDup (map link_id (App.boardLinks st)) →
  keysFaithful (App.boardLinks st) →
  parallelGroup (App.boardLinks st) a = [a; c] →
  fromId a = toId c → toId a = fromId c →
  findItem (fromId a) (App.boardItems st) = Some n1 →
  findItem (toId a) (App.boardItems st) = Some n2 →
  let p1 := App.getItemCenter n1 in
  let p2 := App.getItemCenter n2 in
  chordLength p1 p2 ≠ 0 →
  ∃ ca cc,
    App.connection st a = Some ca ∧ App.connection st c = Some cc
    ∧ linkOffset (App.boardLinks st) a = int (-15)
    ∧ linkOffset (App.boardLinks st) c = int 15
    ∧ curve_control ca = displacedBy (midpoint p1 p2) (unitNormal p1 p2) (int (-15))
    ∧ curve_control cc = displacedBy (midpoint p2 p1) (unitNormal p2 p1) (int 15)
    ∧ unitNormal p2 p1 = mkPoint (- px (unitNormal p1 p2)) (- py (unitNormal p1 p2))
    ∧ curve_control ca = curve_control cc.
Proof.
  intros Hnd Hkeys Hgroup Hft Htf Hn1 Hn2. cbv zeta. intros Hlen.
  set (p1 := App.getItemCenter n1) in *. set (p2 := App.getItemCenter n2) in *.
  assert (Hrev : chordLength p2 p1 = chordLength p1 p2).
  { unfold chordLength. f_equal. ring. }
  assert (Hin : a ∈ App.boardLinks st).
  { assert (Ha : a ∈ parallelGroup (App.boardLinks st) a)
      by (rewrite Hgroup; apply list_elem_of_here).
    by apply list_elem_of_filter in Ha as [_ Ha]. }
  destruct (group_offsets (App.boardLinks st) a 0 a Hnd Hkeys Hin) as (_ & _ & _ & Ha).
  { by rewrite Hgroup. }
  destruct (group_offsets (App.boardLinks st) a 1 c Hnd Hkeys Hin) as (_ & _ & _ & Hc).
  { by rewrite Hgroup. }
  rewrite Hgroup in Ha, Hc. cbn [length] in Ha, Hc.
  assert (Ha' : linkOffset (App.boardLinks st) a = int (-15)) by (rewrite Ha; qc_eval).
  assert (Hc' : linkOffset (App.boardLinks st) c = int 15) by (rewrite Hc; qc_eval).
  assert (Hnorm : ∀ q1 q2 : Point, chordLength q1 q2 ≠ 0 → normal q1 q2 = unitNormal q1 q2).
  { intros q1 q2 Hq. unfold normal, unitNormal, num_or, dist.
    fold (chordLength q1 q2). by rewrite bool_decide_eq_false_2. }
  assert (Hopp : unitNormal p2 p1
                 = mkPoint (- px (unitNormal p1 p2)) (- py (unitNormal p1 p2))).
  { unfold unitNormal. rewrite Hrev. cbn [px py]. unfold Qcdiv. f_equal; ring. }
  unfold App.connection. rewrite <- Hft, <- Htf, Hn1, Hn2.
  fold p1 p2. do 2 eexists. split; [reflexivity |]. split; [reflexivity |].
  cbn [curve_control]. rewrite Ha', Hc'.
  rewrite (Hnorm p1 p2 Hlen), (Hnorm p2 p1) by (by rewrite Hrev).
  split; [done |]. split; [done |]. split; [reflexivity |]. split; [reflexivity |].
  split; [exact Hopp |].
  rewrite Hopp. unfold mid. cbn [px py].
  replace (int (-15)) with (- int 15) by qc_eval.
  unfold Qcdiv. f_equal; ring.
Qed.

End Reversed.

(** * The remaining handlers *)

Import Vocab.

Ltac qc_arith :=
  unfold Qcle, Qclt, Qcminus, Qcplus, Qcopp, Qcmult, dec, int, Qc_of_Z, Q2Qc in *;
  cbn [this] in *; rewrite ?Qred_correct in *; unfold inject_Z in *; lra.

(** ** Viewport: buttons, coordinates, focus, pan *)

(** On a mounted board with a non-zero scale, [getBoardCoordinates] and the
    drawing transform are inverse to each other, and [getViewportCenter] is
    the board point drawn at the centre of the container. *)
Theorem board_client_round_trip (k : Hooks) (rect : DOMRect) :
  containerRef k = Some rect →
  t_s (transform k) ≠ 0 →
  (∀ b, getBoardCoordinates k (px (boardToClient k b)) (py (boardToClient k b)) = b)
  ∧ (∀ cx cy, boardToClient k (getBoardCoordinates k cx cy) = mkPoint cx cy)
  ∧ getViewportCenter k
    = getBoardCoordinates k (rect_left rect + rect_width rect / int 2)
        (rect_top rect + rect_height rect / int 2).
Proof.
  intros Hrect Hs. unfold getBoardCoordinates, boardToClient, getViewportCenter.
  rewrite Hrect. split; [| split].
  - intros [bx' by']. cbn. f_equal; field; exact Hs.
  - intros cx cy. cbn. f_equal; field; exact Hs.
  - f_equal; f_equal; ring.
Qed.

Lemma board_client_round_trip_witness :
  boardToClient Samples.hooks0 (getBoardCoordinates Samples.hooks0 (int 30) (int 40))
  = mkPoint (int 30) (int 40).
Proof.
  destruct (board_client_round_trip Samples.hooks0 Samples.rect800) as (_ & Hback & _).
  - reflexivity.
  - by apply (bool_decide_unpack _).
  - apply Hback.
Defined.

(** What [enterFocusMode] does with and without a container. *)
Lemma enterFocusMode_mounted (id : string) (targetX targetY : Qc) (k : Hooks) :
  let k' := enterFocusMode id targetX targetY k in
  (∀ rect, containerRef k = Some rect →
     boardToClient k' (mkPoint targetX targetY)
     = mkPoint (rect_left rect + rect_width rect / int 2)
               (rect_top rect + rect_height rect / int 2)
     ∧ t_s (transform k') = dec 3 2
     ∧ focusModeId k' = Some id
     ∧ selectedId k' = Some id)
  ∧ (containerRef k = None → k' = k).
Proof.
  cbv zeta. unfold enterFocusMode, boardToClient. split.
  - intros rect Hrect. rewrite Hrect. cbn. rewrite Hrect.
    split; [f_equal; ring | done].
  - by intros ->.
Qed.

(** [enterFocusMode] on a mounted board puts the target point at the centre
    of the container at scale 1.5 and makes the target both focused and
    selected; without a container it changes nothing. *)
Theorem enterFocusMode_centres (id : string) (targetX targetY : Qc) (k : Hooks) :
  let k' := enterFocusMode id targetX targetY k in
  (∀ rect, containerRef k = Some rect →
     boardToClient k' (mkPoint targetX targetY)
     = mkPoint (rect_left rect + rect_width rect / int 2)
               (rect_top rect + rect_height rect / int 2)
     ∧ t_s (transform k') = dec 3 2
     ∧ focusModeId k' = Some id
     ∧ selectedId k' = Some id)
  ∧ (containerRef k = None → k' = k).
Proof. exact (enterFocusMode_mounted id targetX targetY k). Qed.

(** Double-clicking a node of a mounted board focuses it with the point 100
    units below its corner at the centre of the container; a double click on
    an id that no node carries changes nothing. *)
Theorem double_click_focus (id : string) (st : App.State) :
  let st' := App.handleDoubleClickNode id st in
  (∀ item rect,
     findItem id (App.boardItems st) = Some item →
     containerRef (App.hooks st) = Some rect →
     focusModeId (App.hooks st') = Some id
     ∧ boardToClient (App.hooks st') (mkPoint (item_x item) (item_y item + int 100))
       = mkPoint (rect_left rect + rect_width rect / int 2)
                 (rect_top rect + rect_height rect / int 2)
     ∧ App.boardItems st' = App.boardItems st
     ∧ App.boardLinks st' = App.boardLinks st)
  ∧ (findItem id (App.boardItems st) = None → st' = st).
Proof.
  cbv zeta. unfold App.handleDoubleClickNode. split.
  - intros item rect Hfind Hrect. rewrite Hfind. cbn.
    destruct (proj1 (enterFocusMode_mounted id (item_x item) (item_y item + int 100)
                       (App.hooks st)) rect Hrect) as (Hc & _ & Hf & _).
    split; [exact Hf |]. split; [exact Hc | done].
  - by intros ->.
Qed.

Lemma double_click_focus_witness :
  focusModeId (App.hooks (App.handleDoubleClickNode "n1" Samples.appTwoNotes))
  = Some "n1".
Proof.
  destruct (proj1 (double_click_focus "n1" Samples.appTwoNotes)
              (Samples.note "n1" 100 100) Samples.rect800) as [Hf _].
  - reflexivity.
  - reflexivity.
  - exact Hf.
Defined.

(** ** Gestures made of several pointer events *)

Ltac destruct_hooks k :=
  let hSel := fresh "hSel" in let hDrag := fresh "hDrag" in
  let hPend := fresh "hPend" in let hVar := fresh "hVar" in
  let hMenu := fresh "hMenu" in let hRef := fresh "hRef" in
  let hDel := fresh "hDel" in let tx := fresh "tx" in let ty := fresh "ty" in
  let ts := fresh "ts" in let hPan := fresh "hPan" in let lx := fresh "lx" in
  let ly := fresh "ly" in let hCur := fresh "hCur" in let hFoc := fresh "hFoc" in
  let hWo := fresh "hWo" in let hWt := fresh "hWt" in let hWg := fresh "hWg" in
  let hWn := fresh "hWn" in let hWs := fresh "hWs" in
  destruct k as [hSel hDrag hPend hVar hMenu hRef hDel [tx ty ts] hPan [lx ly]
                 hCur hFoc hWo hWt hWg hWn hWs].

Lemma last_cons_default {A} (l : list A) (p0 p : A) :
  List.last (p :: l) p0 = List.last l p.
Proof.
  revert p0 p. induction l as [| a l IHl]; intros p0 p; [done |].
  change (List.last (p :: a :: l) p0) with (List.last (a :: l) p0).
  by rewrite (IHl p0 a), (IHl p a).
Qed.

Lemma pan_step (e : MouseEvent) (st : App.State) :
  isPanning (App.hooks st) = true →
  truthyO (focusModeId (App.hooks st)) = false →
  truthyO (pendingLinkStart (App.hooks st)) = false →
  App.handleContainerMouseMove e st
  = App.withHooks (fun k =>
      setLastMousePos (mkPoint (clientX e) (clientY e))
        (setTransform (panned (lastMousePos k) (mkPoint (clientX e) (clientY e))) k)) st.
Proof.
  intros Hpan Hfocus Hpend. unfold App.handleContainerMouseMove.
  rewrite Hpend. cbv zeta. rewrite Hpan, Hfocus. reflexivity.
Qed.

Lemma pointerAt_cons (e : MouseEvent) (es : list MouseEvent) (p0 : Point) :
  pointerAt (e :: es) p0 = pointerAt es (mkPoint (clientX e) (clientY e)).
Proof. unfold pointerAt. cbn [map]. apply last_cons_default. Qed.

Lemma pan_moves (es : list MouseEvent) (st : App.State) :
  isPanning (App.hooks st) = true →
  truthyO (focusModeId (App.hooks st)) = false →
  truthyO (pendingLinkStart (App.hooks st)) = false →
  pointerMoves es st
  = App.withHooks (fun k =>
      setLastMousePos (pointerAt es (lastMousePos k))
        (setTransform (panSteps (lastMousePos k) es) k)) st.
Proof.
  revert st. induction es as [| e es IH]; intros st Hpan Hfocus Hpend.
  - destruct st as [items links k nw tms]. by destruct_hooks k.
  - unfold pointerMoves in *. cbn [fold_left]. rewrite (pan_step e st Hpan Hfocus Hpend).
    rewrite IH by (destruct st as [? ? []]; assumption).
    destruct st as [items links k nw tms]. destruct_hooks k.
    unfold App.withHooks, setLastMousePos, setTransform.
    cbn [App.hooks App.boardItems App.boardLinks App.now App.timers lastMousePos transform
         panSteps].
    by rewrite pointerAt_cons.
Qed.

(** A pan gesture in [src/App.tsx]: a primary press on the empty canvas
    while no link is pending, any run of pointer moves, and the release.
    The press makes its own position the starting point and ends focus
    mode, so the pan is never blocked; every move then adds its step from
    the previous pointer position to the offsets, one move after the other,
    and a press released without a move leaves the viewport as it was.  The
    scale, the nodes and the links are untouched, and the gesture leaves the
    board unselected, out of focus mode and no longer panning. *)
Theorem pan_gesture (rid : string) (e0 : MouseEvent) (es : list MouseEvent)
    (st : App.State) :
  button e0 = 0%Z →
  truthyO (pendingLinkStart (App.hooks st)) = false →
  let p0 := mkPoint (clientX e0) (clientY e0) in
  let st' := App.handleContainerMouseUp
               (pointerMoves es (App.handleMouseDown rid e0 None st)) in
  transform (App.hooks st') = panSteps p0 es (transform (App.hooks st))
  ∧ t_s (transform (App.hooks st')) = t_s (transform (App.hooks st))
  ∧ (es = [] → transform (App.hooks st') = transform (App.hooks st))
  ∧ lastMousePos (App.hooks st') = pointerAt es p0
  ∧ App.boardItems st' = App.boardItems st
  ∧ App.boardLinks st' = App.boardLinks st
  ∧ isPanning (App.hooks st') = false
  ∧ selectedId (App.hooks st') = None
  ∧ truthyO (focusModeId (App.hooks st')) = false.
Proof.
  intros Hb Hpend. cbv zeta.
  assert (Hscale : ∀ p tr, t_s (panSteps p es tr) = t_s tr).
  { induction es as [| e es' IH]; intros p tr; [done |]. cbn [panSteps]. by rewrite IH. }
  assert (Hdown : App.handleMouseDown rid e0 None st
    = App.withHooks (fun k =>
        (if truthyO (focusModeId k) then exitFocusMode k else k))
        (App.withHooks (fun k => setActiveLinkMenuId None (setSelectedId None
          (setIsPanning true (setLastMousePos (mkPoint (clientX e0) (clientY e0)) k)))) st)).
  { unfold App.handleMouseDown. cbn [truthyO negb]. rewrite Hb.
    rewrite bool_decide_eq_true_2 by done.
    destruct st as [items links k nw tms]. cbn in Hpend |- *. rewrite Hpend.
    destruct_hooks k. unfold App.withHooks. cbn. by destruct (truthyO hFoc). }
  rewrite Hdown. destruct st as [items links k nw tms]. destruct_hooks k.
  cbn in Hpend. rewrite pan_moves.
  - cbn -[panSteps pointerAt].
    destruct (truthyO hFoc) eqn:E; cbn -[panSteps pointerAt]; rewrite ?E, Hscale;
      (split; [done |]); (split; [done |]); (split; [by intros -> |]); done.
  - cbn. by destruct (truthyO hFoc).
  - cbn. by destruct (truthyO hFoc) eqn:E.
  - cbn. by destruct (truthyO hFoc).
Qed.

Lemma pan_gesture_witness :
  transform (App.hooks (App.handleContainerMouseUp
     (pointerMoves [Samples.pointerMove]
        (App.handleMouseDown "l9" Samples.primaryPress None Samples.appTwoNotes))))
  = panned (mkPoint (int 700) (int 500)) (mkPoint (int 230) (int 190)) (mkTransform 0 0 1).
Proof.
  exact (proj1 (pan_gesture "l9" Samples.primaryPress [Samples.pointerMove]
                  Samples.appTwoNotes eq_refl eq_refl)).
Defined.

Lemma drag_step (id : string) (e : MouseEvent) (st : App.State) :
  id ≠ EmptyString →
  draggingId (App.hooks st) = Some id →
  isPanning (App.hooks st) && negb (truthyO (focusModeId (App.hooks st))) = false →
  truthyO (pendingLinkStart (App.hooks st)) = false →
  App.handleContainerMouseMove e st
  = App.withHooks (setLastMousePos (mkPoint (clientX e) (clientY e)))
      (App.setBoardItems
         (dragItems id (clientX e - px (lastMousePos (App.hooks st)))
            (clientY e - py (lastMousePos (App.hooks st)))
            (t_s (transform (App.hooks st)))) st).
Proof.
  intros Hid Hdrag Hpan Hpend. unfold App.handleContainerMouseMove.
  rewrite Hpend. cbv zeta. rewrite Hpan, Hdrag. cbn [truthyO str default].
  by rewrite (truthy_true id Hid).
Qed.

Lemma drag_moves (id : string) (es : list MouseEvent) (st : App.State) :
  id ≠ EmptyString →
  draggingId (App.hooks st) = Some id →
  isPanning (App.hooks st) && negb (truthyO (focusModeId (App.hooks st))) = false →
  truthyO (pendingLinkStart (App.hooks st)) = false →
  pointerMoves es st
  = App.withHooks (setLastMousePos (pointerAt es (lastMousePos (App.hooks st))))
      (App.setBoardItems
         (dragSteps id (t_s (transform (App.hooks st))) (lastMousePos (App.hooks st)) es) st).
Proof.
  intros Hid. revert st. induction es as [| e es IH]; intros st Hdrag Hpan Hpend.
  - destruct st as [items links k nw tms]. by destruct_hooks k.
  - unfold pointerMoves in *. cbn [fold_left].
    rewrite (drag_step id e st Hid Hdrag Hpan Hpend).
    rewrite IH by (destruct st as [? ? []]; assumption).
    destruct st as [items links k nw tms]. destruct_hooks k.
    unfold App.withHooks, App.setBoardItems, setLastMousePos.
    cbn [App.hooks App.boardItems App.boardLinks App.now App.timers lastMousePos transform
         t_s dragSteps px py].
    by rewrite pointerAt_cons.
Qed.

(** A drag gesture in [src/App.tsx]: a press on an unlocked node while no
    link is pending and the canvas is not being panned, any run of pointer
    moves, and the release.  The press selects the node and makes its own
    position the starting point; every move then shifts the nodes that carry
    the id by its step from the previous pointer position over the scale,
    one move after the other, and a press released without a move leaves the
    nodes as they were.  The node stays selected, the drag is over, and the
    links and the viewport are untouched. *)
Theorem drag_gesture (rid id : string) (item : BoardItem) (e0 : MouseEvent)
    (es : list MouseEvent) (st : App.State) :
  id ≠ EmptyString →
  findItem id (App.boardItems st) = Some item →
  default false (item_isLocked item) = false →
  truthyO (pendingLinkStart (App.hooks st)) = false →
  isPanning (App.hooks st) = false →
  t_s (transform (App.hooks st)) ≠ 0 →
  let p0 := mkPoint (clientX e0) (clientY e0) in
  let st' := App.handleContainerMouseUp
               (pointerMoves es (App.handleMouseDown rid e0 (Some id) st)) in
  App.boardItems st'
  = dragSteps id (t_s (transform (App.hooks st))) p0 es (App.boardItems st)
  ∧ (es = [] → App.boardItems st' = App.boardItems st)
  ∧ item_id <$> App.boardItems st' = item_id <$> App.boardItems st
  ∧ lastMousePos (App.hooks st') = pointerAt es p0
  ∧ App.boardLinks st' = App.boardLinks st
  ∧ transform (App.hooks st') = transform (App.hooks st)
  ∧ selectedId (App.hooks st') = Some id
  ∧ draggingId (App.hooks st') = None.
Proof.
  intros Hid Hfind Hlock Hpend Hpan _. cbv zeta.
  assert (Hids : ∀ s p items, item_id <$> dragSteps id s p es items = item_id <$> items).
  { induction es as [| e es' IH]; intros s p items; [done |].
    cbn [dragSteps]. rewrite IH. unfold dragItems.
    change map with (@fmap list _) at 1. rewrite <- list_fmap_compose.
    apply list_fmap_ext. intros _ x _. cbn. by case_bool_decide. }
  assert (Hdown : App.handleMouseDown rid e0 (Some id) st
    = App.withHooks (fun k =>
        setDraggingId (Some id) (setActiveLinkMenuId None (setSelectedId (Some id)
          (setLastMousePos (mkPoint (clientX e0) (clientY e0)) k)))) st).
  { unfold App.handleMouseDown. cbn [truthyO negb str default].
    rewrite (truthy_true id Hid). cbn [negb].
    destruct st as [items links k nw tms]. cbn in Hpend, Hfind |- *.
    rewrite Hpend, Hfind, Hlock. reflexivity. }
  rewrite Hdown. destruct st as [items links k nw tms]. destruct_hooks k.
  cbn in Hpend, Hpan. subst hPan. rewrite (drag_moves id); [| exact Hid | done | done | done].
  cbn -[dragSteps pointerAt]. rewrite Hids.
  split; [done |]. split; [by intros -> |]. done.
Qed.

Lemma drag_gesture_witness :
  App.boardItems (App.handleContainerMouseUp
     (pointerMoves [Samples.pointerMove; Samples.primaryPress]
        (App.handleMouseDown "l9" (mkMouse (int 110) (int 110) 0) (Some "n1")
           Samples.appTwoNotes)))
  = dragSteps "n1" 1 (mkPoint (int 110) (int 110))
      [Samples.pointerMove; Samples.primaryPress] Samples.twoNotes.
Proof.
  refine (proj1 (drag_gesture "l9" "n1" (Samples.note "n1" 100 100)
                   (mkMouse (int 110) (int 110) 0)
                   [Samples.pointerMove; Samples.primaryPress]
                   Samples.appTwoNotes _ eq_refl eq_refl eq_refl eq_refl _)).
  - done.
  - by apply (bool_decide_unpack _).
Defined.

(** A press on a locked node selects it but starts no drag: whatever the
    pointer does afterwards, no node moves. *)
Theorem locked_node_stays (rid id : string) (item : BoardItem) (e0 : MouseEvent)
    (es : list MouseEvent) (st : App.State) :
  id ≠ EmptyString →
  findItem id (App.boardItems st) = Some item →
  item_isLocked item = Some true →
  truthyO (pendingLinkStart (App.hooks st)) = false →
  isPanning (App.hooks st) = false →
  truthyO (draggingId (App.hooks st)) = false →
  let st' := pointerMoves es (App.handleMouseDown rid e0 (Some id) st) in
  App.boardItems st' = App.boardItems st
  ∧ App.boardLinks st' = App.boardLinks st
  ∧ selectedId (App.hooks st') = Some id.
Proof.
  intros Hid Hfind Hlock Hpend Hpan Hdrag. cbv zeta.
  assert (Hdown : App.handleMouseDown rid e0 (Some id) st
    = App.withHooks (fun k =>
        setActiveLinkMenuId None (setSelectedId (Some id)
          (setLastMousePos (mkPoint (clientX e0) (clientY e0)) k))) st).
  { unfold App.handleMouseDown. cbn [truthyO negb str default].
    rewrite (truthy_true id Hid). cbn [negb].
    destruct st as [items links k nw tms]. cbn in Hpend, Hfind |- *.
    rewrite Hpend, Hfind, Hlock. reflexivity. }
  rewrite Hdown. clear Hdown Hfind.
  set (st0 := App.withHooks _ st).
  assert (Hidle : ∀ s, truthyO (pendingLinkStart (App.hooks s)) = false →
                       isPanning (App.hooks s) = false →
                       truthyO (draggingId (App.hooks s)) = false →
                       pointerMoves es s = s).
  { clear. induction es as [| e es IH]; intros s H1 H2 H3; [done |].
    unfold pointerMoves in *. cbn [fold_left].
    assert (Hstep : App.handleContainerMouseMove e s = s).
    { unfold App.handleContainerMouseMove. rewrite H1. cbv zeta. by rewrite H2, H3. }
    rewrite Hstep. by apply IH. }
  rewrite Hidle; subst st0; destruct st as [items links k nw tms]; by destruct_hooks k.
Qed.

Lemma locked_node_stays_witness :
  App.boardItems (pointerMoves [Samples.pointerMove]
     (App.handleMouseDown "l9" Samples.primaryPress (Some "k1") Boards.appLocked))
  = [Boards.lockedNote].
Proof.
  refine (proj1 (locked_node_stays "l9" "k1" Boards.lockedNote Samples.primaryPress
                   [Samples.pointerMove] Boards.appLocked _ eq_refl eq_refl eq_refl
                   eq_refl eq_refl)).
  done.
Defined.

(** ** Placement below a node *)

Lemma int_le (a b : Z) : (a ≤ b)%Z → int a ≤ int b.
Proof.
  intros Hab. unfold Qcle, int, Qc_of_Z, Q2Qc. cbn [this]. by rewrite <- Zle_Qle.
Qed.

Lemma gridRow_find (boardItems : list BoardItem) (refX targetY width height : Qc)
    (oxs : list Qc) :
  gridRow boardItems refX targetY width height oxs
  = List.find (freeAt boardItems width height)
      ((fun ox => mkPoint (refX + ox) targetY) <$> oxs).
Proof.
  induction oxs as [| ox oxs IH]; [done |].
  cbn [gridRow fmap list_fmap List.find]. unfold freeAt at 1. cbn [px py].
  destruct (negb _); [done | exact IH].
Qed.

Lemma find_app_list {A} (f : A → bool) (l1 l2 : list A) :
  List.find f (l1 ++ l2)
  = match List.find f l1 with Some x => Some x | None => List.find f l2 end.
Proof.
  induction l1 as [| a l1 IH]; [done |]. cbn. destruct (f a); [done | exact IH].
Qed.

Lemma gridRows_find (boardItems : list BoardItem) (refX refY width height : Qc)
    (rows : list Z) :
  gridRows boardItems refX refY width height rows
  = List.find (freeAt boardItems width height)
      (row ← rows;
       (fun ox => mkPoint (refX + ox) (refY + int row * rowHeight)) <$> offsets).
Proof.
  induction rows as [| row rows IH]; [done |].
  cbn [gridRows mbind list_bind]. rewrite find_app_list, gridRow_find, IH. reflexivity.
Qed.

Section GridBelow.
Context `{JsMath}.
Variables (boardItems : list BoardItem) (refX refY width height : Qc).

(** The first free cell of the grid, or else the spiral. *)
Lemma grid_below_cell :
  let r := findBestPosition boardItems refX refY width height grid_below in
  (∀ c, List.find (freeAt boardItems width height) (gridCells refX refY) = Some c →
        r = c
        ∧ checkOverlap boardItems (px r) (py r) width height None = false
        ∧ refY + int 250 ≤ py r)
  ∧ (List.find (freeAt boardItems width height) (gridCells refX refY) = None →
     r = findBestPosition boardItems refX refY width height spiral).
Proof.
  cbv zeta. unfold findBestPosition. rewrite gridRows_find.
  fold (gridCells refX refY). split.
  - intros c Hc. rewrite Hc. split; [done |].
    apply find_some in Hc as [Hin Hfree]. split.
    + unfold freeAt in Hfree. by destruct (checkOverlap _ _ _ _ _ _).
    + clear Hfree. unfold gridCells in Hin. apply list_elem_of_In in Hin.
      apply list_elem_of_bind in Hin as (row & Hc & Hrow).
      apply list_elem_of_fmap in Hc as (ox & -> & _). cbn [py].
      assert (Hr : (1 ≤ row)%Z).
      { repeat (apply elem_of_cons in Hrow as [-> | Hrow]; [lia |]).
        by apply elem_of_nil in Hrow. }
      unfold rowHeight.
      pose proof (int_le 1 row Hr) as Hle.
      revert Hle. generalize (int row). intros q Hq. qc_arith.
  - by intros ->.
Qed.

(** In grid-below mode [findBestPosition] returns the first free cell of a
    grid of five rows, 250 apart and starting 250 below the reference, by
    nine columns, tried nearest first (0, 220 right, 220 left, ...); a cell
    it returns is therefore free and at least 250 below the reference.  When
    all 45 cells overlap, the result is that of spiral mode around the
    reference. *)
Theorem findBestPosition_grid_below :
  let r := findBestPosition boardItems refX refY width height grid_below in
  (∀ c, List.find (freeAt boardItems width height) (gridCells refX refY) = Some c →
        r = c
        ∧ checkOverlap boardItems (px r) (py r) width height None = false
        ∧ refY + int 250 ≤ py r)
  ∧ (List.find (freeAt boardItems width height) (gridCells refX refY) = None →
     r = findBestPosition boardItems refX refY width height spiral).
Proof. exact grid_below_cell. Qed.

End GridBelow.

Lemma findBestPosition_grid_below_witness :
  findBestPosition (H := Samples.flatMath) Samples.twoNotes
    (int 100) (int 100) (int 180) (int 180) grid_below
  = mkPoint (int 100) (int 350).
Proof.
  refine (proj1 (proj1 (findBestPosition_grid_below (H := Samples.flatMath)
                          Samples.twoNotes (int 100) (int 100) (int 180) (int 180))
                   (mkPoint (int 100) (int 350)) _)).
  qc_eval.
Defined.

(** ** Creating nodes *)

Lemma findItem_app (id : string) (items more : list BoardItem) :
  findItem id (items ++ more)
  = match findItem id items with Some i => Some i | None => findItem id more end.
Proof. apply find_app_list. Qed.

Lemma findItem_id (id : string) (items : list BoardItem) (item : BoardItem) :
  findItem id items = Some item → item_id item = id.
Proof.
  intros Hfind. apply find_some in Hfind as [_ Hid]. by apply bool_decide_eq_true in Hid.
Qed.

Lemma findItem_is_Some (id : string) (items : list BoardItem) :
  is_Some (findItem id items) ↔ ∃ item, item ∈ items ∧ item_id item = id.
Proof.
  split.
  - intros [item Hfind]. exists item. pose proof (findItem_id _ _ _ Hfind).
    apply find_some in Hfind as [Hin _]. by apply list_elem_of_In in Hin.
  - intros (item & Hin & Hid). destruct (findItem id items) eqn:Hfind; [done |].
    apply list_elem_of_In in Hin.
    pose proof (find_none _ _ Hfind item Hin) as Hno. cbn in Hno.
    by rewrite bool_decide_eq_true_2 in Hno.
Qed.

Lemma spiral_free_reference `{JsMath} (boardItems : list BoardItem)
    (refX refY width height : Qc) :
  checkOverlap boardItems refX refY width height None = false →
  findBestPosition boardItems refX refY width height spiral = mkPoint refX refY.
Proof.
  intros Hfree. unfold findBestPosition. change 200%nat with (S 199).
  cbn [whileSpiral spiralStart sx sy]. by rewrite Hfree.
Qed.

Section Creation.
Context `{JsMath}.

(** [handleAddItem] in [src/App.tsx] appends exactly one node, of the asked
    type, with the drawn id and the default content of the type, unlocked
    and not completed, and selects it; the links are untouched.  Where the
    box centred on the viewport centre is free the node is put there.  Only
    an objective moves the viewport: on a mounted board it enters focus
    mode on the new node, whose corner is then drawn at the centre of the
    container. *)
Theorem handleAddItem_effect (rid : string) (type : ItemType) (st : App.State) :
  let st' := App.handleAddItem rid type st in
  let dims := getItemDimensions type in
  let center := getViewportCenter (App.hooks st) in
  ∃ n,
    App.boardItems st' = App.boardItems st ++ [n]
    ∧ App.boardLinks st' = App.boardLinks st
    ∧ item_id n = rid ∧ item_type n = type ∧ item_content n = defaultContent type
    ∧ item_isLocked n = Some false ∧ item_isCompleted n = Some false
    ∧ selectedId (App.hooks st') = Some rid
    ∧ (checkOverlap (App.boardItems st) (px center - w dims / int 2)
         (py center - h dims / int 2) (w dims) (h dims) None = false →
       item_x n + w dims / int 2 = px center ∧ item_y n + h dims / int 2 = py center)
    ∧ (type ≠ objective → App.hooks st' = setSelectedId (Some rid) (App.hooks st))
    ∧ (type = objective → ∀ rect, containerRef (App.hooks st) = Some rect →
       focusModeId (App.hooks st') = Some rid
       ∧ boardToClient (App.hooks st') (mkPoint (item_x n) (item_y n))
         = mkPoint (rect_left rect + rect_width rect / int 2)
                   (rect_top rect + rect_height rect / int 2)).
Proof.
  cbv zeta. unfold App.handleAddItem.
  set (pos := findBestPosition _ _ _ _ _ _).
  set (n := mkItem rid type _ _ _ _ _ _). exists n.
  assert (Hpos : checkOverlap (App.boardItems st)
            (px (getViewportCenter (App.hooks st)) - w (getItemDimensions type) / int 2)
            (py (getViewportCenter (App.hooks st)) - h (getItemDimensions type) / int 2)
            (w (getItemDimensions type)) (h (getItemDimensions type)) None = false →
          item_x n + w (getItemDimensions type) / int 2 = px (getViewportCenter (App.hooks st))
          ∧ item_y n + h (getItemDimensions type) / int 2 = py (getViewportCenter (App.hooks st))).
  { intros Hfree. subst n pos. rewrite (spiral_free_reference _ _ _ _ _ Hfree).
    cbn [item_x item_y px py]. split; ring. }
  destruct (decide (type = objective)) as [Hobj | Hobj].
  - rewrite (bool_decide_eq_true_2 _ Hobj).
    destruct st as [items links k nw tms]. cbn [App.boardItems App.hooks] in *.
    unfold App.withHooks, App.setBoardItems.
    cbn [App.boardItems App.boardLinks App.hooks App.now App.timers].
    destruct (enterFocusMode_mounted (item_id n) (item_x n) (item_y n)
                (setSelectedId (Some (item_id n)) k)) as [Hmounted Habsent].
    split; [done |]. split; [done |]. do 5 (split; [done |]).
    split.
    { destruct (containerRef k) as [rect |] eqn:Hrect.
      - by destruct (Hmounted rect) as (_ & _ & _ & Hsel).
      - by rewrite Habsent. }
    split; [exact Hpos |]. split; [done |].
    intros _ rect Hrect. destruct (Hmounted rect) as (Hc & _ & Hf & _); [done |].
    by split.
  - rewrite (bool_decide_eq_false_2 _ Hobj).
    split; [done |]. split; [done |]. do 5 (split; [done |]).
    split; [done |]. split; [exact Hpos |]. split; [done |]. done.
Qed.

End Creation.

Lemma handleAddItem_effect_witness :
  ∃ n, App.boardItems (App.handleAddItem (H := Samples.flatMath) "a1" goal Samples.appEmpty)
       = [n]
       ∧ item_x n + int 180 / int 2 = int 400.
Proof.
  destruct (handleAddItem_effect (H := Samples.flatMath) "a1" goal Samples.appEmpty)
    as (n & Hitems & _ & _ & _ & _ & _ & _ & _ & Hpos & _).
  exists n. split; [exact Hitems |].
  destruct Hpos as [Hx _]; [reflexivity |].
  etransitivity; [exact Hx |]. qc_eval.
Defined.

(** ** Link resolution *)

Lemma findItem_ids (id : string) (items : list BoardItem) :
  is_Some (findItem id items) ↔ id ∈ item_id <$> items.
Proof.
  rewrite findItem_is_Some, list_elem_of_fmap. split.
  - intros (item & Hin & Hid). by exists item.
  - intros (item & Hid & Hin). by exists item.
Qed.

Lemma linksResolved_ids (items : list BoardItem) (links : list BoardLink) :
  linksResolved items links
  ↔ ∀ l, l ∈ links → fromId l ∈ item_id <$> items ∧ toId l ∈ item_id <$> items.
Proof.
  unfold linksResolved. split; intros Hres l Hl; specialize (Hres l Hl).
  - by rewrite <- !findItem_ids.
  - by rewrite !findItem_ids.
Qed.

Lemma linksResolved_more_items (items more : list BoardItem) (links : list BoardLink) :
  linksResolved items links → linksResolved (items ++ more) links.
Proof.
  rewrite !linksResolved_ids. intros Hres l Hl. rewrite fmap_app, !elem_of_app.
  destruct (Hres l Hl). by split; left.
Qed.

Lemma linksResolved_app (items : list BoardItem) (links more : list BoardLink) :
  linksResolved items links → linksResolved items more →
  linksResolved items (links ++ more).
Proof.
  intros H1 H2 l Hl. apply elem_of_app in Hl as [Hl | Hl]; [by apply H1 | by apply H2].
Qed.

Lemma linksResolved_same_ids (items items' : list BoardItem) (links : list BoardLink) :
  item_id <$> items' = item_id <$> items →
  linksResolved items links → linksResolved items' links.
Proof.
  intros Hids Hres. apply linksResolved_ids. rewrite Hids. by apply linksResolved_ids.
Qed.

Lemma linksResolved_one (items : list BoardItem) (l : BoardLink) :
  fromId l ∈ item_id <$> items → toId l ∈ item_id <$> items →
  linksResolved items [l].
Proof.
  intros Hfrom Hto. apply linksResolved_ids. intros l' Hl'.
  apply list_elem_of_singleton in Hl' as ->. by split.
Qed.

Section Connected.
Context `{JsMath}.

(** [createConnectedTask] in [src/App.tsx] does nothing when the source is
    not on the board.  Otherwise it appends one unlocked sticky note with
    the drawn id and one link of the asked variant from the source to the
    note, selects the note and closes the link menu.  When one of the 45
    cells below the source is free the note is put on the first free one,
    where it overlaps no node and lies at least 250 below the source.  A
    board whose links all resolve keeps that property. *)
Theorem createConnectedTask_effect (rid lid sourceId : string) (v : Variant)
    (st : App.State) :
  let st' := App.createConnectedTask rid lid sourceId v st in
  (findItem sourceId (App.boardItems st) = None → st' = st)
  ∧ (∀ src, findItem sourceId (App.boardItems st) = Some src →
       ∃ n,
         App.boardItems st' = App.boardItems st ++ [n]
         ∧ App.boardLinks st' = App.boardLinks st ++ [mkLink lid sourceId rid v]
         ∧ item_id n = rid ∧ item_type n = sticky ∧ item_isLocked n = Some false
         ∧ selectedId (App.hooks st') = Some rid
         ∧ activeLinkMenuId (App.hooks st') = None
         ∧ (∀ c, List.find (freeAt (App.boardItems st) (int 180) (int 180))
                   (gridCells (item_x src) (item_y src)) = Some c →
              mkPoint (item_x n) (item_y n) = c
              ∧ checkOverlap (App.boardItems st) (item_x n) (item_y n)
                  (int 180) (int 180) None = false
              ∧ item_y src + int 250 ≤ item_y n)
         ∧ (linksResolved (App.boardItems st) (App.boardLinks st) →
            linksResolved (App.boardItems st') (App.boardLinks st'))).
Proof.
  cbv zeta. unfold App.createConnectedTask. split; [by intros -> |].
  intros src Hsrc. rewrite Hsrc. rewrite (findItem_id _ _ _ Hsrc).
  set (pos := findBestPosition _ _ _ _ _ _).
  exists (mkItem rid sticky "New Task" (px pos) (py pos) (Some "bg-yellow-200")
            (Some false) (Some false)).
  do 7 (split; [done |]). cbn [item_x item_y item_id App.boardItems App.boardLinks
    App.withHooks App.setBoardLinks App.setBoardItems]. split.
  - intros c Hc.
    destruct (proj1 (grid_below_cell (App.boardItems st) (item_x src)
                       (item_y src) (int 180) (int 180)) c Hc) as (Hr & Hfree & Hbelow).
    split; [| split; [exact Hfree | exact Hbelow]].
    rewrite <- Hr. change (mkPoint (px pos) (py pos) = pos). by destruct pos.
  - intros Hres. apply linksResolved_app.
    + by apply linksResolved_more_items.
    + apply linksResolved_one; cbn [fromId toId]; rewrite fmap_app, elem_of_app.
      * left. apply findItem_ids. by rewrite Hsrc.
      * right. cbn. apply list_elem_of_here.
Qed.

(** [createConnectedIdea] in [src/App.tsx]: the same for an idea strip,
    linked from the source by a neutral link. *)
Theorem createConnectedIdea_effect (rid lid sourceId : string) (st : App.State) :
  let st' := App.createConnectedIdea rid lid sourceId st in
  (findItem sourceId (App.boardItems st) = None → st' = st)
  ∧ (∀ src, findItem sourceId (App.boardItems st) = Some src →
       ∃ n,
         App.boardItems st' = App.boardItems st ++ [n]
         ∧ App.boardLinks st' = App.boardLinks st ++ [mkLink lid sourceId rid neutral]
         ∧ item_id n = rid ∧ item_type n = idea_strip ∧ item_isLocked n = Some false
         ∧ selectedId (App.hooks st') = Some rid
         ∧ activeLinkMenuId (App.hooks st') = None
         ∧ (∀ c, List.find (freeAt (App.boardItems st) (int 280) (int 60))
                   (gridCells (item_x src) (item_y src)) = Some c →
              mkPoint (item_x n) (item_y n) = c
              ∧ checkOverlap (App.boardItems st) (item_x n) (item_y n)
                  (int 280) (int 60) None = false
              ∧ item_y src + int 250 ≤ item_y n)
         ∧ (linksResolved (App.boardItems st) (App.boardLinks st) →
            linksResolved (App.boardItems st') (App.boardLinks st'))).
Proof.
  cbv zeta. unfold App.createConnectedIdea. split; [by intros -> |].
  intros src Hsrc. rewrite Hsrc. rewrite (findItem_id _ _ _ Hsrc).
  set (pos := findBestPosition _ _ _ _ _ _).
  exists (mkItem rid idea_strip "New Idea" (px pos) (py pos) None
            (Some false) (Some false)).
  do 7 (split; [done |]). cbn [item_x item_y item_id App.boardItems App.boardLinks
    App.withHooks App.setBoardLinks App.setBoardItems]. split.
  - intros c Hc.
    destruct (proj1 (grid_below_cell (App.boardItems st) (item_x src)
                       (item_y src) (int 280) (int 60)) c Hc) as (Hr & Hfree & Hbelow).
    split; [| split; [exact Hfree | exact Hbelow]].
    rewrite <- Hr. change (mkPoint (px pos) (py pos) = pos). by destruct pos.
  - intros Hres. apply linksResolved_app.
    + by apply linksResolved_more_items.
    + apply linksResolved_one; cbn [fromId toId]; rewrite fmap_app, elem_of_app.
      * left. apply findItem_ids. by rewrite Hsrc.
      * right. cbn. apply list_elem_of_here.
Qed.

(** In the multi-room variant [createConnectedTask] loses the note: the
    second write, of the links, goes through
    [updateActiveRoom(activeRoom.items, l)] with the nodes of the render
    that created the handler.  The board ends with the nodes it had, one
    more link, and the selection on an id that no node carries; if the drawn
    id is new, the new link dangles. *)
Theorem connected_task_lost_in_rooms_variant (rid lid sourceId : string) (v : Variant)
    (src : BoardItem) (st : Part0.State) :
  roomResolved st →
  findItem sourceId (Part0.shownItems st) = Some src →
  let st' := Part0.dispatch
               (fun p => Part0.createConnectedTask p rid lid sourceId v) st in
  Part0.shownItems st' = Part0.shownItems st
  ∧ Part0.shownLinks st' = Part0.shownLinks st ++ [mkLink lid sourceId rid v]
  ∧ selectedId (Part0.hooks st') = Some rid
  ∧ (findItem rid (Part0.shownItems st) = None →
     ¬ linksResolved (Part0.shownItems st') (Part0.shownLinks st')).
Proof.
  intros Hroom Hsrc. cbv zeta. unfold Part0.dispatch.
  rewrite (props_resolved st Hroom). unfold Part0.createConnectedTask.
  cbn [Part0.boardItems Part0.boardLinks]. rewrite Hsrc.
  set (pos := findBestPosition _ _ _ _ _ _).
  set (n := mkItem rid sticky _ _ _ _ _ _).
  unfold Part0.setBoardItems, Part0.setBoardLinks.
  cbn [Part0.roomKey Part0.boardItems Part0.boardLinks item_id].
  pose proof (roomResolved_update st (Part0.shownItems st ++ [n]) (Part0.shownLinks st)
                Hroom) as Hroom1.
  destruct (shown_after_update _ (Part0.shownItems st)
              (Part0.shownLinks st ++ [mkLink lid sourceId rid v]) Hroom1)
    as [Hitems Hlinks].
  split; [exact Hitems |]. split; [exact Hlinks |]. split; [done |].
  intros Hnew Hres.
  change (linksResolved
            (Part0.shownItems (Part0.updateActiveRoom
               (Part0.activeRoomId (Part0.updateActiveRoom (Part0.activeRoomId st)
                  (Part0.shownItems st ++ [n]) (Part0.shownLinks st) st))
               (Part0.shownItems st)
               (Part0.shownLinks st ++ [mkLink lid sourceId rid v])
               (Part0.updateActiveRoom (Part0.activeRoomId st)
                  (Part0.shownItems st ++ [n]) (Part0.shownLinks st) st)))
            (Part0.shownLinks (Part0.updateActiveRoom
               (Part0.activeRoomId (Part0.updateActiveRoom (Part0.activeRoomId st)
                  (Part0.shownItems st ++ [n]) (Part0.shownLinks st) st))
               (Part0.shownItems st)
               (Part0.shownLinks st ++ [mkLink lid sourceId rid v])
               (Part0.updateActiveRoom (Part0.activeRoomId st)
                  (Part0.shownItems st ++ [n]) (Part0.shownLinks st) st)))) in Hres.
  rewrite Hitems, Hlinks in Hres.
  destruct (Hres (mkLink lid sourceId rid v)) as [_ [x Hx]].
  - apply elem_of_app. right. apply list_elem_of_here.
  - cbn [toId] in Hx. by rewrite Hnew in Hx.
Qed.

End Connected.

Lemma createConnectedTask_effect_witness :
  ∃ n, App.boardItems (App.createConnectedTask (H := Samples.flatMath)
                         "t1" "l9" "n1" positive Samples.appTwoNotes)
       = Samples.twoNotes ++ [n]
       ∧ mkPoint (item_x n) (item_y n) = mkPoint (int 100) (int 350).
Proof.
  destruct (proj2 (createConnectedTask_effect (H := Samples.flatMath)
                     "t1" "l9" "n1" positive Samples.appTwoNotes)
              (Samples.note "n1" 100 100) eq_refl)
    as (n & Hitems & _ & _ & _ & _ & _ & _ & Hpos & _).
  exists n. split; [exact Hitems |].
  destruct (Hpos (mkPoint (int 100) (int 350))) as [Hc _]; [qc_eval | exact Hc].
Defined.

Lemma createConnectedIdea_effect_witness :
  ∃ n, App.boardItems (App.createConnectedIdea (H := Samples.flatMath)
                         "i1" "l9" "n2" Samples.appTwoNotes)
       = Samples.twoNotes ++ [n]
       ∧ mkPoint (item_x n) (item_y n) = mkPoint (int 500) (int 350).
Proof.
  destruct (proj2 (createConnectedIdea_effect (H := Samples.flatMath)
                     "i1" "l9" "n2" Samples.appTwoNotes)
              (Samples.note "n2" 500 100) eq_refl)
    as (n & Hitems & _ & _ & _ & _ & _ & _ & Hpos & _).
  exists n. split; [exact Hitems |].
  destruct (Hpos (mkPoint (int 500) (int 350))) as [Hc _]; [qc_eval | exact Hc].
Defined.

Lemma connected_task_lost_in_rooms_variant_witness :
  Part0.shownItems
    (Part0.dispatch (fun p => Part0.createConnectedTask (H := Samples.flatMath)
                                p "t1" "l9" "n1" positive) Samples.roomTwoNotes)
  = Samples.twoNotes.
Proof.
  refine (proj1 (connected_task_lost_in_rooms_variant (H := Samples.flatMath)
                   "t1" "l9" "n1" positive (Samples.note "n1" 100 100)
                   Samples.roomTwoNotes _ eq_refl)).
  by eexists.
Defined.

(** ** The scanner *)

Lemma int_mul (a b : Z) : int (a * b) = int a * int b.
Proof. apply Z2Qc_inj_mul. Qed.

Lemma tagged_snoc (bs : list Scanner.DocBlock) (b : Scanner.DocBlock) :
  tagged (bs ++ [b])
  = tagged bs ++ match Scanner.block_tag b with Some tag => [(b, tag)] | None => [] end.
Proof.
  unfold tagged. rewrite omap_app. f_equal. cbn. by destruct (Scanner.block_tag b).
Qed.

Lemma scanCell_next (k : nat) :
  (if px (scanCell k) + int 220 >? int 800
   then mkPoint (int 100) (py (scanCell k) + int 220)
   else mkPoint (px (scanCell k) + int 220) (py (scanCell k)))
  = scanCell (S k).
Proof.
  unfold scanCell. cbn [px py].
  pose proof (Nat.div_mod_eq k 4) as Hk.
  pose proof (Nat.mod_upper_bound k 4 ltac:(lia)) as Hlt.
  pose proof (Nat.div_mod_eq (S k) 4) as HSk.
  pose proof (Nat.mod_upper_bound (S k) 4 ltac:(lia)) as HSlt.
  destruct (decide (k mod 4 = 3)%nat) as [H3 | H3].
  - assert (HS : (S k mod 4 = 0 ∧ S k / 4 = S (k / 4))%nat) by lia.
    destruct HS as [-> ->]. rewrite H3.
    replace (int 100 + int 220 * int (Z.of_nat 3) + int 220 >? int 800) with true
      by (symmetry; qc_eval).
    rewrite int_succ. f_equal; [qc_eval | ring].
  - assert (HS : (S k mod 4 = S (k mod 4) ∧ S k / 4 = k / 4)%nat) by lia.
    destruct HS as [-> ->].
    replace (int 100 + int 220 * int (Z.of_nat (k mod 4)) + int 220 >? int 800)
      with false.
    + rewrite int_succ. f_equal. ring.
    + symmetry. destruct (k mod 4)%nat as [| [| [| ?]]]; [qc_eval | qc_eval | qc_eval | lia].
Qed.

Lemma sync_items (rnd : nat → string) (bs : list Scanner.DocBlock) :
  let s := fold_left (Scanner.syncBlock rnd) bs Scanner.syncStart in
  Scanner.newItems s = imap scanItem (tagged bs)
  ∧ mkPoint (Scanner.gridX s) (Scanner.gridY s) = scanCell (length (tagged bs)).
Proof.
  cbv zeta. induction bs as [| b bs IH] using rev_ind.
  - split; [done |]. cbn. unfold scanCell. cbn. f_equal; qc_eval.
  - rewrite fold_left_app, tagged_snoc. cbn [fold_left].
    destruct IH as [Hitems Hgrid].
    set (s := fold_left (Scanner.syncBlock rnd) bs Scanner.syncStart) in *.
    unfold Scanner.syncBlock. destruct (Scanner.block_tag b) as [tag |] eqn:Htag.
    + rewrite imap_app, length_app. cbn [imap length].
      replace (length (tagged bs) + 1)%nat with (S (length (tagged bs))) by lia.
      rewrite <- (scanCell_next (length (tagged bs))).
      assert (Hnew : mkItem ("scan-" +:+ Scanner.block_id b) (Scanner.tagType tag)
                       (Scanner.block_content b) (Scanner.gridX s) (Scanner.gridY s)
                       (if bool_decide (tag = Scanner.tagSticky)
                        then Some "bg-yellow-200" else None) (Some false) None
                     = scanItem (length (tagged bs) + 0) (b, tag)).
      { unfold scanItem. cbn [fst snd]. rewrite Nat.add_0_r. by rewrite <- Hgrid. }
      rewrite <- Hgrid. cbn [px py].
      destruct (Scanner.gridX s + int 220 >? int 800);
        cbn [Scanner.newItems Scanner.gridX Scanner.gridY];
        rewrite Hitems, Hnew; done.
    + rewrite app_nil_r. by split.
Qed.

(** [handleSyncToBoard] makes one node of every tagged block, in the order
    of the document and with the id of the block behind the prefix
    [scan-]; untagged blocks are skipped.  The nodes fill a grid of four
    columns, 220 apart, from (100, 100): the [k]-th node is in column
    [k mod 4] of row [k / 4], whatever its type. *)
Theorem scanner_sync_layout (rnd : nat → string) (st : Scanner.State) :
  (Scanner.handleSyncToBoard rnd st).1 = imap scanItem (tagged (Scanner.blocks st))
  ∧ ∀ (k : nat) item, (Scanner.handleSyncToBoard rnd st).1 !! k = Some item →
      item_x item = int (100 + 220 * Z.of_nat (k mod 4))
      ∧ item_y item = int (100 + 220 * Z.of_nat (k / 4))
      ∧ item_x item ≤ int 760.
Proof.
  unfold Scanner.handleSyncToBoard. cbn [fst].
  destruct (sync_items rnd (Scanner.blocks st)) as [Hitems _]. split; [exact Hitems |].
  intros k item Hk. rewrite Hitems in Hk. apply list_lookup_imap_Some in Hk as (bt & _ & ->).
  unfold scanItem, scanCell. cbn [item_x item_y px py].
  rewrite !int_add, !int_mul. split; [done |]. split; [done |].
  pose proof (Nat.mod_upper_bound k 4 ltac:(lia)) as Hlt.
  rewrite <- int_mul, <- int_add. apply int_le. lia.
Qed.

Lemma scanner_sync_layout_witness :
  ∃ item, (Scanner.handleSyncToBoard Boards.linkIds Boards.scannedDoc).1 !! 4%nat = Some item
          ∧ item_x item = int 100 ∧ item_y item = int 320.
Proof.
  eexists. split; [reflexivity |].
  destruct (proj2 (scanner_sync_layout Boards.linkIds Boards.scannedDoc) 4%nat _ eq_refl)
    as (Hx & Hy & _).
  split; [exact Hx | exact Hy].
Defined.

Lemma tagType_sticky (tag : Scanner.Tag) :
  Scanner.tagType tag = sticky ↔ tag = Scanner.tagSticky.
Proof. by destruct tag. Qed.

Lemma tagType_image (tag : Scanner.Tag) :
  Scanner.tagType tag = image ↔ tag = Scanner.tagImage.
Proof. by destruct tag. Qed.

Lemma notePicture_more (items more : list BoardItem) (l : BoardLink) :
  notePicture items l → notePicture (items ++ more) l.
Proof.
  intros (i & j & t & m & Hij & Hi & Hj & Ht & Hm & Hfrom & Hto & Hv & Hbetween).
  exists i, j, t, m. split; [exact Hij |].
  split; [by apply lookup_app_l_Some |]. split; [by apply lookup_app_l_Some |].
  do 5 (split; [done |]). intros k x Hk Hx. apply (Hbetween k x Hk).
  rewrite lookup_app_l in Hx; [exact Hx |].
  apply lookup_lt_Some in Hj. lia.
Qed.

Lemma syncInv_step (rnd : nat → string) (s : Scanner.Sync) (b : Scanner.DocBlock) :
  syncInv s → syncInv (Scanner.syncBlock rnd s b).
Proof.
  intros [Hlinks Hlast]. unfold Scanner.syncBlock.
  destruct (Scanner.block_tag b) as [tag |]; [| by split].
  set (n := mkItem _ _ _ _ _ _ _ _).
  set (last := if bool_decide (tag = Scanner.tagSticky) then Some (item_id n)
               else Scanner.lastTaskItemId s).
  set (links := if _ && _ then _ else _).
  assert (Hn : item_type n = Scanner.tagType tag) by done.
  assert (Hinv : (∀ l, l ∈ links → notePicture (Scanner.newItems s ++ [n]) l)
                 ∧ match last with
                   | None => ∀ x, x ∈ Scanner.newItems s ++ [n] → item_type x ≠ sticky
                   | Some id =>
                       truthy id = true
                       ∧ ∃ (i : nat) t, (Scanner.newItems s ++ [n]) !! i = Some t
                           ∧ item_type t = sticky ∧ item_id t = id
                           ∧ ∀ (k : nat) x, (i < k)%nat →
                               (Scanner.newItems s ++ [n]) !! k = Some x →
                               item_type x ≠ sticky
                   end).
  { destruct (decide (tag = Scanner.tagSticky)) as [Hs | Hs].
    - (* a note: it becomes the last note; no link is made *)
      subst last links. rewrite (bool_decide_eq_true_2 _ Hs).
      rewrite bool_decide_eq_false_2 by (rewrite Hs; discriminate). cbn [andb].
      split; [intros l Hl; by apply notePicture_more, Hlinks |].
      split; [done |]. exists (length (Scanner.newItems s)), n.
      split; [by rewrite lookup_app_r, Nat.sub_diag by lia |].
      split; [by rewrite Hn, Hs |]. split; [done |].
      intros k x Hk Hx. apply lookup_lt_Some in Hx. rewrite length_app in Hx.
      cbn in Hx. lia.
    - (* not a note: the last note stays *)
      assert (Hnot : item_type n ≠ sticky) by (rewrite Hn; by rewrite tagType_sticky).
      subst last links. rewrite (bool_decide_eq_false_2 _ Hs). split.
      + destruct (decide (tag = Scanner.tagImage)) as [Hi | Hi].
        * rewrite (bool_decide_eq_true_2 _ Hi). cbn [andb].
          destruct (Scanner.lastTaskItemId s) as [id |] eqn:Hid; cbn [truthyO].
          -- destruct Hlast as (Htruthy & i & t & Hit & Ht & Htid & Hafter).
             rewrite Htruthy. intros l Hl. apply elem_of_app in Hl as [Hl | Hl].
             ++ by apply notePicture_more, Hlinks.
             ++ apply list_elem_of_singleton in Hl as ->.
                exists i, (length (Scanner.newItems s)), t, n.
                pose proof (lookup_lt_Some _ _ _ Hit) as Hlt.
                split; [exact Hlt |]. split; [by apply lookup_app_l_Some |].
                split; [by rewrite lookup_app_r, Nat.sub_diag by lia |].
                split; [exact Ht |]. split; [by rewrite Hn, Hi |].
                split; [by rewrite Htid |]. split; [done |]. split; [done |].
                intros k x Hk Hx. apply (Hafter k x); [lia |].
                rewrite lookup_app_l in Hx; [exact Hx | lia].
          -- intros l Hl. by apply notePicture_more, Hlinks.
        * rewrite (bool_decide_eq_false_2 _ Hi). cbn [andb].
          intros l Hl. by apply notePicture_more, Hlinks.
      + destruct (Scanner.lastTaskItemId s) as [id |].
        * destruct Hlast as (Htruthy & i & t & Hit & Ht & Htid & Hafter).
          split; [exact Htruthy |]. exists i, t.
          split; [by apply lookup_app_l_Some |]. split; [exact Ht |].
          split; [exact Htid |]. intros k x Hk Hx.
          destruct (decide (k < length (Scanner.newItems s))%nat) as [Hin | Hout].
          -- rewrite lookup_app_l in Hx by exact Hin. by apply (Hafter k x).
          -- rewrite lookup_app_r in Hx by lia.
             destruct (k - length (Scanner.newItems s))%nat; [| done].
             by injection Hx as <-.
        * intros x Hx. apply elem_of_app in Hx as [Hx | Hx]; [by apply Hlast |].
          by apply list_elem_of_singleton in Hx as ->. }
  by destruct (Scanner.gridX s + int 220 >? int 800).
Qed.

Lemma syncInv_fold (rnd : nat → string) (bs : list Scanner.DocBlock) (s : Scanner.Sync) :
  syncInv s → syncInv (fold_left (Scanner.syncBlock rnd) bs s).
Proof.
  revert s. induction bs as [| b bs IH]; intros s Hs; [exact Hs |].
  cbn [fold_left]. by apply IH, syncInv_step.
Qed.

Lemma syncInv_start : syncInv Scanner.syncStart.
Proof.
  split; [intros l Hl; by apply not_elem_of_nil in Hl |].
  intros x Hx. by apply not_elem_of_nil in Hx.
Qed.

Lemma notePicture_resolved (items : list BoardItem) (links : list BoardLink) :
  (∀ l, l ∈ links → notePicture items l) → linksResolved items links.
Proof.
  intros Hpairs. apply linksResolved_ids. intros l Hl.
  destruct (Hpairs l Hl) as (i & j & t & m & _ & Hi & Hj & _ & _ & -> & -> & _).
  split; apply list_elem_of_fmap.
  - exists t. split; [done |]. by apply list_elem_of_lookup_2 in Hi.
  - exists m. split; [done |]. by apply list_elem_of_lookup_2 in Hj.
Qed.

(** Every link of a batch of [handleSyncToBoard] is neutral and goes from a
    note of the batch to a picture that follows it in the batch, the note
    being the last one before the picture; so the batch is closed: both
    ends of every link are nodes of the batch.  A picture tagged before any
    note gets no link. *)
Theorem scanner_links_note_to_picture (rnd : nat → string) (st : Scanner.State) :
  let batch := Scanner.handleSyncToBoard rnd st in
  (∀ l, l ∈ batch.2 → notePicture batch.1 l)
  ∧ linksResolved batch.1 batch.2
  ∧ ((∀ b, b ∈ Scanner.blocks st → Scanner.block_tag b ≠ Some Scanner.tagSticky) →
     batch.2 = []).
Proof.
  cbv zeta. unfold Scanner.handleSyncToBoard. cbn [fst snd].
  pose proof (syncInv_fold rnd (Scanner.blocks st) _ syncInv_start) as [Hpairs _].
  split; [exact Hpairs |]. split; [by apply notePicture_resolved |].
  intros Hnone.
  destruct (Scanner.newLinks (fold_left _ _ _)) as [| l ls] eqn:Hl; [done |].
  destruct (Hpairs l) as (i & j & t & m & _ & Hi & _ & Ht & _).
  { apply list_elem_of_here. }
  destruct (sync_items rnd (Scanner.blocks st)) as [Hitems _]. rewrite Hitems in Hi.
  apply list_lookup_imap_Some in Hi as ([b tag] & Hbt & ->).
  cbn [scanItem item_type snd] in Ht. apply tagType_sticky in Ht. subst tag.
  apply list_elem_of_lookup_2 in Hbt. unfold tagged in Hbt.
  apply list_elem_of_omap in Hbt as (b' & Hb' & Htag).
  destruct (Scanner.block_tag b') as [tag' |] eqn:Hb; [| done].
  cbn in Htag. injection Htag as -> ->.
  by destruct (Hnone b Hb').
Qed.

Lemma scanner_links_note_to_picture_witness :
  notePicture (Scanner.handleSyncToBoard Boards.linkIds Boards.scannedDoc).1
    (mkLink "link-r2" "scan-b1" "scan-b6" neutral).
Proof.
  apply (proj1 (scanner_links_note_to_picture Boards.linkIds Boards.scannedDoc)).
  vm_compute. do 2 right. left.
Defined.

(** ** Editing a node *)

Lemma updateItems_ids (id : string) (u : Patch) (items : list BoardItem) :
  patch_id u = None → item_id <$> updateItems id u items = item_id <$> items.
Proof.
  intros Hu. unfold updateItems. change map with (@fmap list _) at 1.
  rewrite <- list_fmap_compose. apply list_fmap_ext. intros _ item _. cbn.
  case_bool_decide; [| done]. unfold applyPatch. cbn. by rewrite Hu.
Qed.

Lemma updateItems_absent (id : string) (u : Patch) (items : list BoardItem) :
  findItem id items = None → updateItems id u items = items.
Proof.
  intros Hnone. unfold updateItems. rewrite <- (map_id items) at 2.
  apply map_ext_in. intros item Hin.
  pose proof (find_none _ _ Hnone item Hin) as Hno. cbn in Hno. by rewrite Hno.
Qed.

Lemma applyPatch_twice (item : BoardItem) (u : Patch) :
  applyPatch (applyPatch item u) u = applyPatch item u.
Proof.
  unfold applyPatch. cbn.
  destruct u as [[?|] [?|] [?|] [?|] [?|] [?|] [?|] [?|]]; reflexivity.
Qed.

(** [handleUpdateItem] in [src/App.tsx] touches nothing but the nodes, keeps
    their number, and changes nothing at all when no node carries the id.
    With a patch that has no [id] key the ids stay as they are, applying the
    patch a second time changes nothing, and no link is left dangling; if
    the patch has no [type], [x] or [y] key either, as the one the text
    fields send, [checkOverlap] answers as before for every box. *)
Theorem handleUpdateItem_laws (id : string) (u : Patch) (st : App.State) :
  let st' := App.handleUpdateItem id u st in
  App.boardLinks st' = App.boardLinks st
  ∧ App.hooks st' = App.hooks st
  ∧ length (App.boardItems st') = length (App.boardItems st)
  ∧ (findItem id (App.boardItems st) = None → st' = st)
  ∧ (patch_id u = None →
       item_id <$> App.boardItems st' = item_id <$> App.boardItems st
       ∧ App.handleUpdateItem id u st' = st'
       ∧ (resolved st → resolved st'))
  ∧ (patch_id u = None → patch_type u = None → patch_x u = None → patch_y u = None →
       ∀ x y width height excludeId,
         checkOverlap (App.boardItems st') x y width height excludeId
         = checkOverlap (App.boardItems st) x y width height excludeId).
Proof.
  cbv zeta. unfold App.handleUpdateItem, App.setBoardItems. destruct st as [items links k nw tms].
  cbn [App.boardItems App.boardLinks App.hooks App.now App.timers].
  split; [done |]. split; [done |]. split; [apply length_map |]. split.
  { intros Hnone. by rewrite updateItems_absent. }
  split.
  - intros Hu. split; [by apply updateItems_ids |]. split.
    + f_equal. unfold updateItems. rewrite map_map. apply map_ext. intros item.
      destruct (decide (item_id item = id)) as [Hid | Hid].
      * rewrite (bool_decide_eq_true_2 _ Hid).
        assert (Hid' : item_id (applyPatch item u) = id)
          by (unfold applyPatch; cbn; by rewrite Hu).
        rewrite (bool_decide_eq_true_2 _ Hid'). apply applyPatch_twice.
      * rewrite (bool_decide_eq_false_2 _ Hid). by rewrite (bool_decide_eq_false_2 _ Hid).
    + unfold resolved. cbn. apply linksResolved_same_ids. by apply updateItems_ids.
  - intros Hid Hty Hx Hy x y width height excludeId.
    unfold checkOverlap, updateItems.
    induction items as [| item items IH]; [done |].
    cbn [map existsb]. rewrite IH. f_equal.
    destruct (decide (item_id item = id)) as [Hitem | Hitem].
    + rewrite (bool_decide_eq_true_2 _ Hitem).
      unfold applyPatch. cbn. by rewrite Hid, Hty, Hx, Hy.
    + by rewrite (bool_decide_eq_false_2 _ Hitem).
Qed.

Lemma handleUpdateItem_laws_witness :
  item_id <$> App.boardItems
     (App.handleUpdateItem "n1" (contentPatch "Plan") Samples.appTwoNotes)
  = ["n1"; "n2"].
Proof.
  destruct (handleUpdateItem_laws "n1" (contentPatch "Plan") Samples.appTwoNotes)
    as (_ & _ & _ & _ & Hids & _).
  destruct Hids as (Hids & _); [reflexivity | exact Hids].
Defined.

(** ** No dangling links in [src/App.tsx] *)

Lemma dragItems_ids (id : string) (dx dy scale : Qc) (items : list BoardItem) :
  item_id <$> dragItems id dx dy scale items = item_id <$> items.
Proof.
  unfold dragItems. change map with (@fmap list _) at 1.
  rewrite <- list_fmap_compose. apply list_fmap_ext. intros _ item _. cbn.
  by case_bool_decide.
Qed.

Lemma fire_resolved (cb : App.Callback) (st : App.State) :
  resolved st → resolved (App.fire cb st).
Proof.
  destruct cb as [id]. unfold resolved, App.fire. destruct st as [items links k nw tms].
  cbn [App.boardItems App.boardLinks App.setBoardItems App.setBoardLinks App.withHooks
       App.hooks App.now App.timers].
  rewrite !linksResolved_ids. intros Hres l Hl.
  apply list_elem_of_filter in Hl as [[Hfrom Hto] Hl].
  destruct (Hres l Hl) as [Hf Ht].
  apply list_elem_of_fmap in Hf as (a & Ha & Hain).
  apply list_elem_of_fmap in Ht as (b & Hb & Hbin).
  split; apply list_elem_of_fmap.
  - exists a. split; [done |]. apply list_elem_of_filter. split; [congruence | done].
  - exists b. split; [done |]. apply list_elem_of_filter. split; [congruence | done].
Qed.

Lemma fires_resolved (tms : list App.Timer) (st : App.State) :
  resolved st → resolved (fold_left (fun s tm => App.fire (App.callback tm) s) tms st).
Proof.
  revert st. induction tms as [| tm tms IH]; intros st Hres; [exact Hres |].
  cbn [fold_left]. by apply IH, fire_resolved.
Qed.

Lemma linksResolved_batch (items batch : list BoardItem) (links : list BoardLink) :
  linksResolved batch links → linksResolved (items ++ batch) links.
Proof.
  rewrite !linksResolved_ids. intros Hres l Hl. rewrite fmap_app, !elem_of_app.
  destruct (Hres l Hl). by split; right.
Qed.

Section Resolved.
Context `{JsMath}.

(** A board of [src/App.tsx] on which both ends of every link are nodes
    stays so under the handlers that add, edit, move and delete nodes and
    under the import of a scanned batch: adding a node, an edit that keeps
    the id, any pointer move, the request of a deletion, any passage of time
    (with the deletions that come due), and [handleSyncFromScanner] with
    what [handleSyncToBoard] produced.  A press that ends a link gesture
    keeps it when the node the gesture started on is still on the board. *)
Theorem links_stay_resolved (st : App.State) :
  resolved st →
  (∀ rid type, resolved (App.handleAddItem rid type st))
  ∧ (∀ id u, patch_id u = None → resolved (App.handleUpdateItem id u st))
  ∧ (∀ e, resolved (App.handleContainerMouseMove e st))
  ∧ resolved (App.handleContainerMouseUp st)
  ∧ (∀ id, resolved (App.handleDeleteItem id st))
  ∧ (∀ dt, resolved (App.elapse dt st))
  ∧ (∀ rnd doc, resolved (App.handleSyncFromScanner
                            (Scanner.handleSyncToBoard rnd doc).1
                            (Scanner.handleSyncToBoard rnd doc).2 st).1)
  ∧ (∀ rid e id target,
       truthyO (pendingLinkStart (App.hooks st)) = true →
       is_Some (findItem (str (pendingLinkStart (App.hooks st))) (App.boardItems st)) →
       findItem id (App.boardItems st) = Some target →
       resolved (App.handleMouseDown rid e (Some id) st)).
Proof.
  intros Hres. split; [| split; [| split; [| split; [| split; [| split; [| split]]]]]].
  - intros rid type.
    unfold resolved, App.handleAddItem.
    assert (Hhooks : ∀ f s, App.boardItems (App.withHooks f s) = App.boardItems s
                            ∧ App.boardLinks (App.withHooks f s) = App.boardLinks s)
      by done.
    case_bool_decide; rewrite ?(proj1 (Hhooks _ _)), ?(proj2 (Hhooks _ _));
      by apply linksResolved_more_items.
  - intros id u Hu. unfold resolved, App.handleUpdateItem. cbn.
    eapply linksResolved_same_ids; [by apply updateItems_ids | exact Hres].
  - intros e. unfold resolved, App.handleContainerMouseMove.
    destruct st as [items links k nw tms]. unfold resolved in Hres. cbn in Hres.
    destruct_hooks k. cbn -[dragItems].
    destruct (truthyO hPend); cbn -[dragItems];
      (destruct (hPan && negb (truthyO hFoc)); cbn -[dragItems]; [exact Hres |]);
      (destruct (truthyO hDrag); cbn -[dragItems]; [| exact Hres]);
      (eapply linksResolved_same_ids; [apply dragItems_ids | exact Hres]).
  - exact Hres.
  - intros id. unfold resolved, App.handleDeleteItem.
    destruct st as [items links k nw tms]. cbn.
    by repeat case_bool_decide.
  - intros dt. unfold App.elapse. by apply fires_resolved.
  - intros rnd doc. unfold resolved, App.handleSyncFromScanner. cbn.
    apply linksResolved_app.
    + by apply linksResolved_more_items.
    + apply linksResolved_batch, notePicture_resolved, syncInv_fold, syncInv_start.
  - intros rid e id target Hpend Hsrc Htarget. unfold resolved, App.handleMouseDown.
    pose proof (findItem_id _ _ _ Htarget) as Hid.
    destruct st as [items links k nw tms]. unfold resolved in Hres.
    cbn -[findItem] in *.
    destruct (truthy id) eqn:Htruthy; cbn -[findItem].
    + rewrite Hpend. case_bool_decide; cbn -[findItem]; [| exact Hres].
      apply linksResolved_app; [exact Hres |].
      apply linksResolved_one; cbn -[findItem].
      * by apply findItem_ids.
      * apply findItem_ids. by rewrite Htarget.
    + case_bool_decide; [| exact Hres].
      rewrite Hpend. exact Hres.
Qed.

End Resolved.

Lemma links_stay_resolved_witness :
  resolved (App.elapse 300 (App.handleDeleteItem "n1" Samples.appTwoNotes)).
Proof.
  assert (Hstart : resolved Samples.appTwoNotes).
  { apply linksResolved_ids. intros l Hl. apply list_elem_of_singleton in Hl as ->.
    split; cbn; [left | right; left]. }
  destruct (links_stay_resolved (H := Samples.flatMath) Samples.appTwoNotes Hstart)
    as (_ & _ & _ & _ & Hdel & _).
  destruct (links_stay_resolved (H := Samples.flatMath) _ (Hdel "n1"))
    as (_ & _ & _ & _ & _ & Htime & _).
  exact (Htime 300%Z).
Defined.

(** ** The planning sheet *)

Lemma getDeps_unfold (items : list BoardItem) (links : list BoardLink)
    (id : string) (type : Sheet.Direction) :
  Sheet.getDeps items links id type
  = omap (fun l => findItem (farEnd type l) items)
      (List.filter (fun l => bool_decide (nearEnd type l = id)) links).
Proof.
  unfold Sheet.getDeps.
  assert (Hmap : ∀ ls : list BoardLink,
            omap (fun o : option BoardItem => o)
              (map (fun l => findItem (farEnd type l) items) ls)
            = omap (fun l => findItem (farEnd type l) items) ls).
  { induction ls as [| l ls IH]; [done |]. cbn. rewrite IH. by destruct (findItem _ _). }
  destruct type; cbn [nearEnd farEnd] in *; apply Hmap.
Qed.

(** [getDeps] of the planning sheet lists, in the order of the links, the
    nodes found at the far end of the links whose near end is the given id:
    one link gives the node at its far end if its near end is the id and
    its far end is a node, and nothing otherwise, and the list for a
    collection cut in two is the list for the first part followed by the
    list for the second.  So a link whose far end is no node contributes
    nothing, and on a board without dangling links there is one entry per
    such link.  Between two ids that name nodes the two directions mirror
    each other: the first node is an incoming dependency of the second
    exactly when the second is an outgoing dependency of the first. *)
Theorem getDeps_spec (items : list BoardItem) (links : list BoardLink) :
  (∀ id type l,
     Sheet.getDeps items [l] id type
     = if bool_decide (nearEnd type l = id)
       then match findItem (farEnd type l) items with Some x => [x] | None => [] end
       else [])
  ∧ (∀ id type before after,
       links = before ++ after →
       Sheet.getDeps items links id type
       = Sheet.getDeps items before id type ++ Sheet.getDeps items after id type)
  ∧ (∀ id type x,
     x ∈ Sheet.getDeps items links id type
     ↔ ∃ l, l ∈ links ∧ nearEnd type l = id ∧ findItem (farEnd type l) items = Some x)
  ∧ (∀ id type,
       linksResolved items links →
       length (Sheet.getDeps items links id type)
       = length (List.filter (fun l => bool_decide (nearEnd type l = id)) links))
  ∧ (∀ a b x y,
       findItem a items = Some x → findItem b items = Some y →
       x ∈ Sheet.getDeps items links b Sheet.incoming
       ↔ y ∈ Sheet.getDeps items links a Sheet.outgoing).
Proof.
  assert (Hmem : ∀ id type x,
     x ∈ Sheet.getDeps items links id type
     ↔ ∃ l, l ∈ links ∧ nearEnd type l = id ∧ findItem (farEnd type l) items = Some x).
  { intros id type x. rewrite getDeps_unfold, list_elem_of_omap. split.
    - intros (l & Hl & Hx). exists l. apply list_elem_of_In, filter_In in Hl as [Hl Hnear].
      apply bool_decide_eq_true in Hnear. by rewrite list_elem_of_In.
    - intros (l & Hl & Hnear & Hx). exists l. split; [| exact Hx].
      apply list_elem_of_In, filter_In. split; [by apply list_elem_of_In |].
      by apply bool_decide_eq_true. }
  split; [| split; [| split; [exact Hmem |]]].
  { intros id type l. rewrite getDeps_unfold. cbn [List.filter].
    case_bool_decide; [| done]. cbn. by destruct (findItem _ _). }
  { intros id type before after ->. rewrite !getDeps_unfold.
    by rewrite List.filter_app, omap_app. }
  split.
  - intros id type Hres. rewrite getDeps_unfold.
    assert (Hsub : ∀ l, l ∈ List.filter (fun l => bool_decide (nearEnd type l = id)) links
                        → is_Some (findItem (farEnd type l) items)).
    { intros l Hl. apply list_elem_of_In, filter_In in Hl as [Hl _].
      apply list_elem_of_In in Hl. destruct (Hres l Hl). by destruct type. }
    induction (List.filter _ links) as [| l ls IH]; [done |].
    cbn [omap list_omap]. destruct (Hsub l) as [x ->]; [apply list_elem_of_here |].
    cbn. f_equal. apply IH. intros l' Hl'. apply Hsub. by apply list_elem_of_further.
  - intros a b x y Hx Hy. rewrite !Hmem. cbn [nearEnd farEnd].
    pose proof (findItem_id _ _ _ Hx) as Hxa. pose proof (findItem_id _ _ _ Hy) as Hyb.
    split; intros (l & Hl & Hnear & Hfar); exists l; (split; [exact Hl |]).
    + pose proof (findItem_id _ _ _ Hfar) as Hid. split; [congruence |].
      by rewrite Hnear.
    + pose proof (findItem_id _ _ _ Hfar) as Hid. split; [congruence |].
      by rewrite Hnear.
Qed.

Lemma getDeps_spec_witness :
  Samples.note "n1" 100 100
    ∈ Sheet.getDeps Samples.twoNotes Samples.oneLink "n2" Sheet.incoming
  ↔ Samples.note "n2" 500 100
    ∈ Sheet.getDeps Samples.twoNotes Samples.oneLink "n1" Sheet.outgoing.
Proof.
  destruct (getDeps_spec Samples.twoNotes Samples.oneLink) as (_ & _ & _ & _ & Hdual).
  apply (Hdual "n1" "n2"); reflexivity.
Defined.

(** ** Rooms *)

Lemma find_room_filter (key id : string) (rooms : list Part0.PlanningRoom) :
  key ≠ id →
  List.find (fun r => bool_decide (Some (Part0.room_id r) = Some key))
    (List.filter (fun r => negb (bool_decide (Part0.room_id r = id))) rooms)
  = List.find (fun r => bool_decide (Some (Part0.room_id r) = Some key)) rooms.
Proof.
  intros Hne. induction rooms as [| r rooms IH]; [done |]. cbn [List.filter List.find].
  destruct (decide (Part0.room_id r = id)) as [Hid | Hid].
  - rewrite (bool_decide_eq_true_2 _ Hid). cbn [negb].
    rewrite bool_decide_eq_false_2 by congruence. exact IH.
  - rewrite (bool_decide_eq_false_2 _ Hid). cbn [negb List.find].
    by destruct (bool_decide (Some (Part0.room_id r) = Some key)).
Qed.

(** In the multi-room variant the active id either names a room or there
    is no room and no active id; [createRoom], [deleteRoom] and
    [updateActiveRoom] keep it so.  A new room becomes the one shown, with
    the nodes and links it was created with; deleting the shown room shows
    the first of those that remain; deleting another room leaves the shown
    nodes and links as they are. *)
Theorem rooms_stay_consistent (st : Part0.State) :
  roomsConsistent st →
  (∀ rid items links,
     let st' := (Part0.createRoom rid items links st).1 in
     roomResolved st' ∧ Part0.shownItems st' = items ∧ Part0.shownLinks st' = links
     ∧ Part0.rooms st' = Part0.mkRoom rid items links (Part0.now st) :: Part0.rooms st)
  ∧ (∀ id, roomsConsistent (Part0.deleteRoom id st))
  ∧ (∀ id, Part0.activeRoomId st = Some id →
       Part0.activeRoom (Part0.deleteRoom id st)
       = head (List.filter (fun r => negb (bool_decide (Part0.room_id r = id)))
                 (Part0.rooms st)))
  ∧ (∀ id, Part0.activeRoomId st ≠ Some id →
       Part0.activeRoom (Part0.deleteRoom id st) = Part0.activeRoom st)
  ∧ (∀ key items links, roomsConsistent (Part0.updateActiveRoom key items links st)).
Proof.
  intros Hcons. split; [| split; [| split; [| split]]].
  - intros rid items links. cbv zeta.
    unfold Part0.createRoom, roomResolved, Part0.shownItems, Part0.shownLinks,
      Part0.activeRoom. cbn. rewrite bool_decide_eq_true_2 by done. by cbn.
  - intros id. unfold roomsConsistent, roomResolved, Part0.deleteRoom in *.
    destruct st as [rooms active k nw tms].
    cbn [Part0.rooms Part0.activeRoomId] in Hcons. cbn.
    destruct (decide (active = Some id)) as [-> | Hne].
    + rewrite bool_decide_eq_true_2 by done.
      destruct (List.filter _ rooms) as [| r rs]; [by right |].
      left. cbn. rewrite bool_decide_eq_true_2 by done. by eexists.
    + rewrite (bool_decide_eq_false_2 _ Hne).
      destruct Hcons as [Hres | [-> ->]]; [| by right].
      left. destruct active as [key |].
      * rewrite find_room_filter by congruence. exact Hres.
      * destruct Hres as [r Hr]. apply find_some in Hr as [_ Hr].
        by apply bool_decide_eq_true in Hr.
  - intros id Hactive. unfold Part0.deleteRoom, Part0.activeRoom.
    cbn. rewrite Hactive. rewrite bool_decide_eq_true_2 by done.
    destruct (List.filter _ (Part0.rooms st)) as [| r rs]; [done |].
    cbn. by rewrite bool_decide_eq_true_2 by done.
  - intros id Hne. unfold Part0.deleteRoom, Part0.activeRoom. cbn.
    rewrite (bool_decide_eq_false_2 _ Hne).
    destruct Hcons as [Hres | [Hrooms Hactive]].
    + unfold roomResolved in Hres. destruct (Part0.activeRoomId st) as [key |].
      * rewrite find_room_filter by congruence. by destruct Hres as [r ->].
      * destruct Hres as [r Hr]. apply find_some in Hr as [_ Hr].
        by apply bool_decide_eq_true in Hr.
    + by rewrite Hrooms.
  - intros key items links. destruct Hcons as [Hres | [Hrooms Hactive]].
    + left. unfold roomResolved, Part0.updateActiveRoom.
      cbn [Part0.rooms Part0.activeRoomId]. destruct Hres as [r Hr]. revert Hr.
      induction (Part0.rooms st) as [| r0 rs IH]; [discriminate |].
      cbn [List.find map].
      assert (Hsame : Part0.room_id
                (if bool_decide (Some (Part0.room_id r0) = key)
                 then Part0.mkRoom (Part0.room_id r0) items links (Part0.now st)
                 else r0) = Part0.room_id r0) by (by case_bool_decide).
      rewrite Hsame.
      destruct (decide (Some (Part0.room_id r0) = Part0.activeRoomId st)) as [Hid | Hid].
      * rewrite !(bool_decide_eq_true_2 _ Hid). intros _. by eexists.
      * rewrite !(bool_decide_eq_false_2 _ Hid). exact IH.
    + right. unfold Part0.updateActiveRoom. cbn. by rewrite Hrooms.
Qed.

Lemma rooms_stay_consistent_witness :
  roomsConsistent (Part0.deleteRoom "r" Samples.roomTwoNotes).
Proof.
  refine (proj1 (proj2 (rooms_stay_consistent Samples.roomTwoNotes _)) "r").
  left. by eexists.
Defined.

(** In the multi-room variant the scanner hands its batch over with one
    write of both collections.  With the active id naming a room, the batch
    is appended to the nodes and links shown, and a batch without dangling
    links leaves a board without dangling links so; with no room at all the
    handler fails before it writes or navigates. *)
Theorem scanner_sync_into_room (i : list BoardItem) (l : list BoardLink)
    (st : Part0.State) :
  (Part0.rooms st = [] → Part0.onSync i l st = None)
  ∧ (roomResolved st →
     ∃ st', Part0.onSync i l st = Some (st', planning)
       ∧ Part0.shownItems st' = Part0.shownItems st ++ i
       ∧ Part0.shownLinks st' = Part0.shownLinks st ++ l
       ∧ roomResolved st'
       ∧ (linksResolved (Part0.shownItems st) (Part0.shownLinks st) →
          linksResolved i l →
          linksResolved (Part0.shownItems st') (Part0.shownLinks st'))).
Proof.
  split.
  - intros Hnone. unfold Part0.onSync, Part0.activeRoom. by rewrite Hnone.
  - intros Hroom. unfold Part0.onSync.
    pose proof (shown_after_update st (Part0.shownItems st ++ i)
                  (Part0.shownLinks st ++ l) Hroom) as [Hitems Hlinks].
    pose proof (roomResolved_update st (Part0.shownItems st ++ i)
                  (Part0.shownLinks st ++ l) Hroom) as Hroom'.
    destruct Hroom as [r Hr].
    assert (Hact : Part0.activeRoom st = Some r) by (unfold Part0.activeRoom; by rewrite Hr).
    assert (Hsi : Part0.shownItems st = Part0.room_items r)
      by (unfold Part0.shownItems; by rewrite Hact).
    assert (Hsl : Part0.shownLinks st = Part0.room_links r)
      by (unfold Part0.shownLinks; by rewrite Hact).
    rewrite Hact, <- Hsi, <- Hsl.
    eexists. split; [reflexivity |]. split; [exact Hitems |]. split; [exact Hlinks |].
    split; [exact Hroom' |]. intros Hres Hbatch. rewrite Hitems, Hlinks.
    apply linksResolved_app; [by apply linksResolved_more_items |].
    by apply linksResolved_batch.
Qed.

Lemma scanner_sync_into_room_witness :
  ∃ st', Part0.onSync [Samples.note "n3" 0 0] [] Samples.roomTwoNotes = Some (st', planning)
         ∧ Part0.shownItems st' = Samples.twoNotes ++ [Samples.note "n3" 0 0].
Proof.
  destruct (proj2 (scanner_sync_into_room [Samples.note "n3" 0 0] [] Samples.roomTwoNotes))
    as (st' & Hsync & Hitems & _).
  - by eexists.
  - exists st'. by split.
Defined.

(** ** The language button *)

Lemma indexOf_at (langs : list string) (j : nat) (x : string) (i : Z) :
  NoDup langs → langs !! j = Some x →
  findIndexFrom (fun y => bool_decide (y = x)) langs i = (i + Z.of_nat j)%Z.
Proof.
  revert j i. induction langs as [| y langs IH]; intros j i Hnd Hj; [done |].
  cbn [findIndexFrom]. apply NoDup_cons in Hnd as [Hy Hnd]. destruct j as [| j].
  - injection Hj as ->. rewrite bool_decide_eq_true_2 by done. lia.
  - cbn in Hj. rewrite bool_decide_eq_false_2.
    + rewrite (IH j (i + 1)%Z Hnd Hj). lia.
    + intros ->. apply Hy. by apply list_elem_of_lookup_2 in Hj.
Qed.

Lemma indexOf_absent (langs : list string) (x : string) (i : Z) :
  x ∉ langs → findIndexFrom (fun y => bool_decide (y = x)) langs i = (-1)%Z.
Proof.
  revert i. induction langs as [| y langs IH]; intros i Hx; [done |].
  cbn [findIndexFrom]. apply not_elem_of_cons in Hx as [Hne Hx].
  rewrite bool_decide_eq_false_2 by congruence. by apply IH.
Qed.

Lemma toggle_at (langs : list string) (i : nat) (language : string) :
  NoDup langs → langs !! i = Some language →
  App.toggleLanguage langs language = langs !! ((i + 1) mod length langs)%nat.
Proof.
  intros Hnd Hi. unfold App.toggleLanguage, App.indexOf, findIndex.
  rewrite (indexOf_at langs i language 0 Hnd Hi).
  rewrite bool_decide_eq_false_2 by (by intros ->).
  f_equal. replace (0 + Z.of_nat i + 1)%Z with (Z.of_nat (i + 1)) by lia.
  rewrite <- Nat2Z.inj_mod. apply Nat2Z.id.
Qed.

(** [toggleLanguage] moves to the language that follows the current one in
    the key order of the table, and from the last to the first; from a
    value that is no key it moves to the first.  With [n] languages, [n]
    presses lead back to the language one started with and no smaller
    positive number of presses does. *)
Theorem toggleLanguage_cycles (langs : list string) (language : string) :
  NoDup langs →
  (∀ i : nat, langs !! i = Some language →
     App.toggleLanguage langs language = langs !! ((i + 1) mod length langs)%nat)
  ∧ (language ∉ langs → App.toggleLanguage langs language = head langs)
  ∧ (language ∈ langs →
     toggles langs (length langs) language = Some language
     ∧ ∀ k : nat, (0 < k < length langs)%nat → toggles langs k language ≠ Some language).
Proof.
  intros Hnd. split; [intros i; by apply toggle_at |]. split.
  - intros Hno. unfold App.toggleLanguage, App.indexOf, findIndex.
    rewrite (indexOf_absent langs language 0 Hno).
    destruct langs as [| x langs]; [done |].
    rewrite bool_decide_eq_false_2 by done.
    change (-1 + 1)%Z with 0%Z. by rewrite Z.mod_0_l by (cbn; lia).
  - intros Hin. apply list_elem_of_lookup in Hin as [i Hi].
    pose proof (lookup_lt_Some _ _ _ Hi) as Hlt.
    assert (Hrun : ∀ k, toggles langs k language = langs !! ((i + k) mod length langs)%nat).
    { induction k as [| k IH].
      - cbn. by rewrite Nat.add_0_r, Nat.mod_small.
      - change (toggles langs (S k) language)
          with (toggles langs k language ≫= App.toggleLanguage langs).
        rewrite IH.
        assert (Hk : ((i + k) mod length langs < length langs)%nat)
          by (apply Nat.mod_upper_bound; lia).
        destruct (lookup_lt_is_Some_2 langs _ Hk) as [x Hx]. rewrite Hx. cbn.
        rewrite (toggle_at langs _ x Hnd Hx). f_equal.
        rewrite Nat.Div0.add_mod_idemp_l. f_equal. lia. }
    split.
    + rewrite Hrun. rewrite <- Hi. f_equal.
      rewrite <- (Nat.mul_1_l (length langs)) at 1.
      rewrite Nat.Div0.mod_add. by apply Nat.mod_small.
    + intros k Hk. rewrite Hrun. intros Hback.
      assert (Hlt' : ((i + k) mod length langs < length langs)%nat)
        by (apply Nat.mod_upper_bound; lia).
      pose proof (NoDup_lookup langs _ _ language Hnd Hback Hi) as Heq.
      destruct (decide (i + k < length langs)%nat) as [Hsmall | Hbig].
      * rewrite Nat.mod_small in Heq by exact Hsmall. lia.
      * assert (Hmod : ((i + k) mod length langs = i + k - length langs)%nat).
        { replace (i + k)%nat with ((i + k - length langs) + 1 * length langs)%nat
            at 1 by lia.
          rewrite Nat.Div0.mod_add. apply Nat.mod_small. lia. }
        lia.
Qed.

Lemma toggleLanguage_cycles_witness :
  toggles ["en"; "es"; "fr"] 3 "es" = Some "es".
Proof.
  refine (proj1 (proj2 (proj2 (toggleLanguage_cycles ["en"; "es"; "fr"] "es" _)) _)).
  - by apply (bool_decide_unpack _).
  - by apply (bool_decide_unpack _).
Defined.

(** ** The wizard, from opening to submission *)

Section WizardRound.
Context `{JsMath}.

Lemma wizardSource_on_board (st : App.State) (s : BoardItem) :
  App.wizardSource st = Some s → item_id s ∈ item_id <$> App.boardItems st.
Proof.
  unfold App.wizardSource. intros Hs. apply list_elem_of_fmap. exists s. split; [done |].
  apply list_elem_of_In.
  destruct (truthyO (wizardSourceId (App.hooks st))).
  - destruct (findItem _ _) as [i |] eqn:Hfind.
    + injection Hs as ->. by apply find_some in Hfind as [Hin _].
    + by apply find_some in Hs as [Hin _].
  - by apply find_some in Hs as [Hin _].
Qed.

Lemma wizard_resolved (ids : App.WizardIds) (st : App.State) :
  resolved st →
  (App.createsGoal (App.hooks st) = false →
   truthy (wizardGoalId (App.hooks st)) = true →
   is_Some (findItem (wizardGoalId (App.hooks st)) (App.boardItems st))) →
  resolved (App.handleCreateLinkedTask ids st).
Proof.
  intros Hres Hgoal. unfold resolved, App.handleCreateLinkedTask.
  pose proof (wizardSource_on_board st) as Hsrc.
  destruct (App.wizardSource st) as [s |];
    destruct (App.createsGoal (App.hooks st)) eqn:Hcreate;
    cbn [App.boardItems App.boardLinks App.withHooks App.setBoardItems App.setBoardLinks
         item_id app];
    (apply linksResolved_app; [by apply linksResolved_more_items |]);
    apply linksResolved_ids; intros l Hl;
    repeat match type of Hl with
    | _ ∈ (if ?c then _ else _) => destruct c eqn:?
    | _ ∈ _ ++ _ => apply elem_of_app in Hl as [Hl | Hl]
    | _ ∈ _ :: _ => apply elem_of_cons in Hl as [-> | Hl]
    | _ ∈ [] => by apply not_elem_of_nil in Hl
    end;
    cbn [fromId toId]; rewrite !fmap_app, !elem_of_app; cbn [fmap list_fmap item_id].
  all: try (split; [left; by apply Hsrc | right; apply list_elem_of_here]).
  all: try (split; [right; apply list_elem_of_here
                   | right; apply list_elem_of_further, list_elem_of_here]).
  all: split; [right; apply list_elem_of_here |]; left; apply findItem_ids, Hgoal;
    [done | by match goal with Hc : _ && _ = true |- _ =>
                 apply andb_true_iff in Hc as [Hc _] end].
Qed.

(** [openTaskWizard] opens the form on the first goal of the board, or on
    no goal when the board has none, with the given source if it is not
    empty; it touches neither the board nor the two name fields, so a name
    left from an earlier attempt is still there.  The goal it preselects is
    on the board, so a submission right after it leaves no link dangling on
    a board that had none. *)
Theorem openTaskWizard_round (sourceId : option string) (ids : App.WizardIds)
    (st : App.State) :
  let st1 := App.openTaskWizard sourceId st in
  App.boardItems st1 = App.boardItems st
  ∧ App.boardLinks st1 = App.boardLinks st
  ∧ isTaskWizardOpen (App.hooks st1) = true
  ∧ wizardSourceId (App.hooks st1) = (if truthyO sourceId then sourceId else None)
  ∧ wizardGoalId (App.hooks st1)
    = match Sheet.goals (App.boardItems st) with g :: _ => item_id g | [] => EmptyString end
  ∧ wizardTaskName (App.hooks st1) = wizardTaskName (App.hooks st)
  ∧ wizardNewGoalName (App.hooks st1) = wizardNewGoalName (App.hooks st)
  ∧ (truthy (wizardGoalId (App.hooks st1)) = true →
     is_Some (findItem (wizardGoalId (App.hooks st1)) (App.boardItems st)))
  ∧ (resolved st → resolved (App.handleCreateLinkedTask ids st1)).
Proof.
  cbv zeta.
  assert (Hshape : App.openTaskWizard sourceId st
    = App.withHooks (fun k =>
        setIsTaskWizardOpen true
          (setWizardGoalId
             (match Sheet.goals (App.boardItems st) with
              | g :: _ => item_id g | [] => EmptyString end)
             (setWizardSourceId (if truthyO sourceId then sourceId else None) k))) st).
  { unfold App.openTaskWizard, Sheet.goals. destruct st as [items links k nw tms]. cbn.
    destruct (List.filter _ items); reflexivity. }
  assert (Hgoal : truthy (match Sheet.goals (App.boardItems st) with
                          | g :: _ => item_id g | [] => EmptyString end) = true →
                  is_Some (findItem (match Sheet.goals (App.boardItems st) with
                                     | g :: _ => item_id g | [] => EmptyString end)
                             (App.boardItems st))).
  { unfold Sheet.goals.
    destruct (List.filter _ (App.boardItems st)) as [| g gs] eqn:Hgoals; intros Htruthy.
    - discriminate Htruthy.
    - apply findItem_is_Some. exists g. split; [| done].
      assert (Hin : In g (List.filter (fun i => bool_decide (item_type i = goal))
                            (App.boardItems st))) by (rewrite Hgoals; by left).
      apply filter_In in Hin as [Hin _]. by apply list_elem_of_In. }
  rewrite Hshape. destruct st as [items links k nw tms].
  cbn [App.withHooks App.boardItems App.boardLinks App.hooks] in *.
  do 7 (split; [done |]). split; [exact Hgoal |].
  intros Hres. apply wizard_resolved; [exact Hres |]. intros _. exact Hgoal.
Qed.

End WizardRound.

Lemma openTaskWizard_round_witness :
  resolved (App.handleCreateLinkedTask (H := Samples.flatMath) Samples.wizardIds
              (App.openTaskWizard (Some "n1") Samples.appTwoNotes)).
Proof.
  refine (proj2 (proj2 (proj2 (proj2 (proj2 (proj2 (proj2 (proj2
            (openTaskWizard_round (H := Samples.flatMath) (Some "n1") Samples.wizardIds
               Samples.appTwoNotes)))))))) _).
  apply linksResolved_ids. intros l Hl. apply list_elem_of_singleton in Hl as ->.
  split; cbn; [left | right; left].
Defined.

Lemma point_eta (p : Point) : mkPoint (px p) (py p) = p.
Proof. by destruct p. Qed.

Section WizardPlacement.
Context `{JsMath}.

(** When a submission of the wizard creates a goal and one of the 45 cells
    below the new task is free on the board as it was, the goal is put on
    the first such cell, and there it overlaps neither a node of the old
    board nor the task created with it, although the task was not on the
    board when the cell was chosen. *)
Theorem wizard_goal_clear_of_task (ids : App.WizardIds) (st : App.State)
    (task newGoal : BoardItem) (c : Point) :
  App.boardItems (App.handleCreateLinkedTask ids st)
  = App.boardItems st ++ [task; newGoal] →
  List.find (freeAt (App.boardItems st) (int 180) (int 180))
    (gridCells (item_x task) (item_y task)) = Some c →
  item_type task = sticky ∧ item_type newGoal = goal
  ∧ mkPoint (item_x newGoal) (item_y newGoal) = c
  ∧ item_y task + int 250 ≤ item_y newGoal
  ∧ checkOverlap (App.boardItems st ++ [task]) (item_x newGoal) (item_y newGoal)
      (int 180) (int 180) None = false.
Proof.
  unfold App.handleCreateLinkedTask.
  destruct (App.createsGoal (App.hooks st));
    cbn [App.boardItems App.withHooks App.setBoardItems App.setBoardLinks app];
    intros Hitems Hcell; apply app_inv_head in Hitems; [| discriminate Hitems].
  injection Hitems as <- <-. cbn [item_x item_y item_type px py] in *.
  set (taskPos := findBestPosition _ _ _ _ _ _) in *.
  destruct (proj1 (grid_below_cell (App.boardItems st) (px taskPos) (py taskPos)
                     (int 180) (int 180)) c Hcell) as (Hr & Hfree & Hbelow).
  set (goalPos := findBestPosition (App.boardItems st) (px taskPos) (py taskPos)
                    (int 180) (int 180) grid_below) in *.
  split; [done |]. split; [done |].
  split; [etransitivity; [apply point_eta | exact Hr] |].
  split; [exact Hbelow |].
  change (checkOverlap (App.boardItems st ++ [mkItem (App.taskId ids) sticky
            (App.str_or (wizardTaskName (App.hooks st)) "New Task")
            (px taskPos) (py taskPos) (Some "bg-yellow-200") (Some false) (Some false)])
            (px goalPos) (py goalPos) (int 180) (int 180) None = false).
  unfold checkOverlap in *. rewrite existsb_app, Hfree.
  cbn [existsb orb item_id item_type item_x item_y getItemDimensions w h].
  rewrite bool_decide_eq_false_2 by done.
  assert (Hy : (py goalPos <? py taskPos + int 180 + buffer) = false).
  { apply Qcltb_false. unfold buffer. revert Hbelow.
    generalize (py goalPos) (py taskPos). intros a b Hab. qc_arith. }
  rewrite Hy. by rewrite andb_false_r, andb_false_l.
Qed.

End WizardPlacement.

Lemma wizard_goal_clear_of_task_witness :
  ∃ task newGoal,
    App.boardItems (App.handleCreateLinkedTask (H := Samples.flatMath) Samples.wizardIds
                      Samples.appWizardNewGoal)
    = Samples.twoNotes ++ [task; newGoal]
    ∧ item_y task + int 250 ≤ item_y newGoal.
Proof.
  eexists _, _. split; [reflexivity |].
  refine (proj1 (proj2 (proj2 (proj2
            (wizard_goal_clear_of_task (H := Samples.flatMath) Samples.wizardIds
               Samples.appWizardNewGoal _ _ (mkPoint (int 730) (int 550)) eq_refl _))))).
  qc_eval.
Defined.

(** ** The preview of a pending link *)

(** After [handleStartLink] on a node of a mounted board of [src/App.tsx]
    the preview runs, in the colour of the chosen variant, from the centre
    of that node to the board point that is drawn under the pointer, and a
    pointer move (no pan, no drag) takes the free end along, leaving the
    board as it is.  A primary press on the empty canvas ends the preview. *)
Theorem pending_preview_follows_pointer (e : MouseEvent) (id : string) (v : Variant)
    (item : BoardItem) (rect : DOMRect) (st : App.State) :
  id ≠ EmptyString →
  findItem id (App.boardItems st) = Some item →
  containerRef (App.hooks st) = Some rect →
  t_s (transform (App.hooks st)) ≠ 0 →
  isPanning (App.hooks st) = false →
  truthyO (draggingId (App.hooks st)) = false →
  let st1 := App.handleStartLink e id v st in
  (∃ p, App.pendingConnection st1 = Some (App.mkPreview (App.getItemCenter item) p v)
        ∧ boardToClient (App.hooks st1) p = mkPoint (clientX e) (clientY e))
  ∧ (∀ e', ∃ p,
       App.pendingConnection (App.handleContainerMouseMove e' st1)
       = Some (App.mkPreview (App.getItemCenter item) p v)
       ∧ boardToClient (App.hooks (App.handleContainerMouseMove e' st1)) p
         = mkPoint (clientX e') (clientY e')
       ∧ App.boardItems (App.handleContainerMouseMove e' st1) = App.boardItems st
       ∧ App.boardLinks (App.handleContainerMouseMove e' st1) = App.boardLinks st)
  ∧ (∀ rid e0, button e0 = 0%Z →
       App.pendingConnection (App.handleMouseDown rid e0 None st1) = None).
Proof.
  intros Hid Hfind Hrect Hs Hpan Hdrag. cbv zeta.
  pose proof (truthy_true id Hid) as Htruthy.
  destruct st as [items links k nw tms]. destruct_hooks k.
  cbn [App.boardItems App.hooks containerRef transform t_s isPanning draggingId] in *.
  subst hRef hPan.
  assert (Hback : ∀ cx cy, boardToClient
            (mkHooks hSel hDrag (Some id) v None (Some rect) hDel (mkTransform tx ty ts)
               false (mkPoint lx ly)
               (mkPoint ((cx - rect_left rect - tx) / ts) ((cy - rect_top rect - ty) / ts))
               hFoc hWo hWt hWg hWn hWs)
            (mkPoint ((cx - rect_left rect - tx) / ts) ((cy - rect_top rect - ty) / ts))
          = mkPoint cx cy).
  { intros cx cy. unfold boardToClient. cbn. f_equal; field; exact Hs. }
  split; [| split].
  - unfold App.handleStartLink, App.pendingConnection, getBoardCoordinates.
    cbn -[findItem App.getItemCenter]. rewrite Htruthy. cbn -[findItem App.getItemCenter].
    rewrite Hfind. eexists. split; [reflexivity |]. apply Hback.
  - intros e'.
    unfold App.handleStartLink, App.handleContainerMouseMove, App.pendingConnection,
      getBoardCoordinates.
    cbn -[findItem App.getItemCenter]. rewrite Htruthy. cbn -[findItem App.getItemCenter].
    rewrite Hdrag. cbn -[findItem App.getItemCenter]. rewrite Htruthy.
    cbn -[findItem App.getItemCenter]. rewrite Hfind.
    eexists. split; [reflexivity |]. split; [apply Hback | by split].
  - intros rid e0 Hb. unfold App.handleStartLink, App.handleMouseDown, App.pendingConnection.
    cbn -[findItem App.getItemCenter]. rewrite Hb. cbn -[findItem App.getItemCenter].
    rewrite Htruthy. by cbn.
Qed.

Lemma pending_preview_follows_pointer_witness :
  ∃ p, App.pendingConnection Samples.appPending
       = Some (App.mkPreview (App.getItemCenter (Samples.note "n1" 100 100)) p positive)
       ∧ boardToClient (App.hooks Samples.appPending) p = mkPoint (int 150) (int 150).
Proof.
  refine (proj1 (pending_preview_follows_pointer (mkMouse (int 150) (int 150) 0) "n1"
                   positive (Samples.note "n1" 100 100) Samples.rect800 Samples.appTwoNotes
                   _ eq_refl eq_refl _ eq_refl eq_refl)).
  - done.
  - by apply (bool_decide_unpack _).
Defined.

(** ** Editing the document before a sync *)

Lemma scan_id_inj (a b : string) : "scan-" +:+ a = "scan-" +:+ b → a = b.
Proof. apply String.app_inj. Qed.

Lemma tagged_elem (blocks : list Scanner.DocBlock) (b : Scanner.DocBlock)
    (tag : Scanner.Tag) :
  (b, tag) ∈ tagged blocks ↔ b ∈ blocks ∧ Scanner.block_tag b = Some tag.
Proof.
  unfold tagged. rewrite list_elem_of_omap. split.
  - intros (b' & Hb' & Htag). destruct (Scanner.block_tag b') eqn:Hb; [| done].
    cbn in Htag. injection Htag as -> ->. by split.
  - intros [Hb Htag]. exists b. split; [done |]. by rewrite Htag.
Qed.

Lemma sync_ids (rnd : nat → string) (st : Scanner.State) (id : string) :
  "scan-" +:+ id ∈ item_id <$> (Scanner.handleSyncToBoard rnd st).1
  ↔ ∃ b, b ∈ Scanner.blocks st ∧ Scanner.block_id b = id ∧ is_Some (Scanner.block_tag b).
Proof.
  unfold Scanner.handleSyncToBoard. cbn [fst].
  rewrite (proj1 (sync_items rnd (Scanner.blocks st))). rewrite list_elem_of_fmap. split.
  - intros (item & Hid & Hitem). apply list_elem_of_lookup in Hitem as [k Hk].
    apply list_lookup_imap_Some in Hk as ([b tag] & Hbt & ->).
    apply list_elem_of_lookup_2, tagged_elem in Hbt as [Hb Htag].
    exists b. split; [done |]. split; [| by rewrite Htag].
    symmetry. by apply scan_id_inj.
  - intros (b & Hb & Hid & [tag Htag]).
    assert (Hbt : (b, tag) ∈ tagged (Scanner.blocks st)) by (by apply tagged_elem).
    apply list_elem_of_lookup in Hbt as [k Hk].
    exists (scanItem k (b, tag)). split; [by rewrite <- Hid |].
    apply list_elem_of_lookup. exists k. by rewrite list_lookup_imap, Hk.
Qed.

(** What the edits of the document mean for the next sync.  A tag chosen in
    the context menu of a block makes the block a node of the batch, of the
    type the tag stands for, and closes the menu; with no menu open
    [handleTag] does nothing.  After [deleteBlock], and after removing the
    tag through the menu, no node of the batch stems from a block with that
    id.  [updateBlock] changes neither which nodes are made nor where they
    are put. *)
Theorem scanner_edits_then_sync (rnd : nat → string) (st : Scanner.State) (id : string) :
  (Scanner.contextMenu st = None → ∀ tag, Scanner.handleTag tag st = st)
  ∧ (∀ e tag b, b ∈ Scanner.blocks st → Scanner.block_id b = id →
       let st' := Scanner.handleTag (Some tag) (Scanner.handleRightClick e id st) in
       Scanner.contextMenu st' = None
       ∧ ∃ item, item ∈ (Scanner.handleSyncToBoard rnd st').1
                 ∧ item_id item = "scan-" +:+ id
                 ∧ item_type item = Scanner.tagType tag
                 ∧ item_content item = Scanner.block_content b)
  ∧ (∀ e, ("scan-" +:+ id)
            ∉ (item_id <$> (Scanner.handleSyncToBoard rnd
                              (Scanner.handleTag None (Scanner.handleRightClick e id st))).1))
  ∧ (("scan-" +:+ id)
      ∉ (item_id <$> (Scanner.handleSyncToBoard rnd (Scanner.deleteBlock id st)).1))
  ∧ (∀ content,
       let before := (Scanner.handleSyncToBoard rnd st).1 in
       let after := (Scanner.handleSyncToBoard rnd (Scanner.updateBlock id content st)).1 in
       item_id <$> after = item_id <$> before
       ∧ item_type <$> after = item_type <$> before
       ∧ item_x <$> after = item_x <$> before
       ∧ item_y <$> after = item_y <$> before).
Proof.
  split; [by intros Hnone tag; unfold Scanner.handleTag; rewrite Hnone |].
  split; [| split; [| split]].
  - intros e tag b Hb Hid. cbv zeta. split; [done |].
    unfold Scanner.handleTag, Scanner.handleRightClick, Scanner.handleSyncToBoard.
    cbn [Scanner.contextMenu Scanner.blocks Scanner.menu_blockId fst].
    rewrite (proj1 (sync_items rnd _)).
    set (b' := Scanner.mkBlock (Scanner.block_id b) (Scanner.block_type b)
                 (Scanner.block_content b) (Some tag)).
    assert (Hbt : (b', tag) ∈ tagged (map (fun b0 =>
              if bool_decide (Scanner.block_id b0 = id)
              then Scanner.mkBlock (Scanner.block_id b0) (Scanner.block_type b0)
                     (Scanner.block_content b0) (Some tag)
              else b0) (Scanner.blocks st))).
    { apply tagged_elem. split; [| done]. apply list_elem_of_In, in_map_iff.
      exists b. split; [by rewrite (bool_decide_eq_true_2 _ Hid) | by apply list_elem_of_In]. }
    apply list_elem_of_lookup in Hbt as [k Hk]. exists (scanItem k (b', tag)).
    split; [| by rewrite <- Hid].
    apply list_elem_of_lookup. exists k. by rewrite list_lookup_imap, Hk.
  - intros e Hin. apply sync_ids in Hin as (b & Hb & Hid & Htag).
    unfold Scanner.handleTag, Scanner.handleRightClick in Hb.
    cbn [Scanner.contextMenu Scanner.blocks Scanner.menu_blockId] in Hb.
    apply list_elem_of_In, in_map_iff in Hb as (b0 & Hb0 & _).
    destruct (decide (Scanner.block_id b0 = id)) as [Hb0id | Hb0id].
    + rewrite (bool_decide_eq_true_2 _ Hb0id) in Hb0. subst b.
      by destruct Htag as [tag Htag].
    + rewrite (bool_decide_eq_false_2 _ Hb0id) in Hb0. by subst b.
  - intros Hin. apply sync_ids in Hin as (b & Hb & Hid & _).
    unfold Scanner.deleteBlock in Hb. cbn [Scanner.blocks] in Hb.
    apply list_elem_of_In, filter_In in Hb as [_ Hb].
    by rewrite (bool_decide_eq_true_2 _ Hid) in Hb.
  - intros content. cbv zeta. unfold Scanner.handleSyncToBoard, Scanner.updateBlock.
    cbn [fst Scanner.blocks]. rewrite !(proj1 (sync_items rnd _)).
    set (f := fun b : Scanner.DocBlock =>
                if bool_decide (Scanner.block_id b = id)
                then Scanner.mkBlock (Scanner.block_id b) (Scanner.block_type b) content
                       (Scanner.block_tag b)
                else b).
    assert (Htagged : tagged (map f (Scanner.blocks st))
                      = (fun bt => (f bt.1, bt.2)) <$> tagged (Scanner.blocks st)).
    { unfold tagged. induction (Scanner.blocks st) as [| b bs IH]; [done |].
      cbn [map omap list_omap].
      assert (Hf : Scanner.block_tag (f b) = Scanner.block_tag b)
        by (unfold f; by case_bool_decide).
      rewrite Hf. destruct (Scanner.block_tag b); cbn; by rewrite IH. }
    rewrite Htagged. rewrite !fmap_imap, !imap_fmap.
    assert (Hfid : ∀ b, Scanner.block_id (f b) = Scanner.block_id b)
      by (intros b; unfold f; by case_bool_decide).
    split; [| split; [| split]]; apply imap_ext; intros k [b tag] _; cbn;
      by rewrite ?Hfid.
Qed.

Lemma scanner_edits_then_sync_witness :
  ∃ item, item ∈ (Scanner.handleSyncToBoard Boards.linkIds
                    (Scanner.handleTag (Some Scanner.tagObjective)
                       (Scanner.handleRightClick Samples.primaryPress "b2"
                          Boards.scannedDoc))).1
          ∧ item_id item = "scan-b2" ∧ item_type item = objective.
Proof.
  destruct (proj1 (proj2 (scanner_edits_then_sync Boards.linkIds Boards.scannedDoc "b2"))
              Samples.primaryPress Scanner.tagObjective
              (Scanner.mkBlock "b2" Scanner.textBlock "so that" None))
    as (_ & item & Hin & Hid & Hty & _).
  - vm_compute. right. left.
  - reflexivity.
  - exists item. by split.
Defined.

(** ** Anchors of the links *)

Lemma within_box (x half full : Qc) :
  0 ≤ half → half ≤ full → x ≤ x + half ∧ x + half ≤ x + full.
Proof. intros H0 H1. split; qc_arith. Qed.

(** The point a link is attached to, [getItemCenter], lies inside the box
    [getItemDimensions] gives the node, for every type and in both files;
    it is the centre of that box for goals and idea strips only.  The two
    files put it at the same point except for text nodes. *)
Theorem link_anchor_inside_box (item : BoardItem) :
  let d := getItemDimensions (item_type item) in
  let inside (c : Point) :=
    (item_x item ≤ px c ∧ px c ≤ item_x item + w d)
    ∧ (item_y item ≤ py c ∧ py c ≤ item_y item + h d) in
  inside (App.getItemCenter item)
  ∧ inside (Part0.getItemCenter item)
  ∧ (App.getItemCenter item
     = mkPoint (item_x item + w d / int 2) (item_y item + h d / int 2)
     ↔ item_type item = goal ∨ item_type item = idea_strip)
  ∧ (item_type item ≠ text → App.getItemCenter item = Part0.getItemCenter item).
Proof.
  destruct item as [id type content x y color completed locked].
  cbv zeta. cbn [item_type item_x item_y].
  split; [| split; [| split]].
  - destruct type; cbn; split; apply within_box; qc_eval.
  - destruct type; cbn; split; apply within_box; qc_eval.
  - assert (Hcancel : ∀ a b : Qc, x + a = x + b → a = b).
    { intros a b Hab. replace a with (x + a - x) by ring. rewrite Hab. ring. }
    assert (Hcancel' : ∀ a b : Qc, y + a = y + b → a = b).
    { intros a b Hab. replace a with (y + a - y) by ring. rewrite Hab. ring. }
    destruct type; cbn; split;
      try (intros _; reflexivity); try (intros _; by left); try (intros _; by right);
      try (intros [Hty | Hty]; discriminate Hty);
      intros Heq; pose proof (f_equal px Heq) as Hx; pose proof (f_equal py Heq) as Hy;
      cbn [px py] in Hx, Hy; exfalso;
      first [ apply Hcancel in Hx; revert Hx; by apply (bool_decide_unpack _)
            | apply Hcancel' in Hy; revert Hy; by apply (bool_decide_unpack _) ].
  - intros Hty. destruct type; try done.
Qed.

Lemma link_anchor_inside_box_witness :
  App.getItemCenter (Samples.note "n1" 100 100)
  = Part0.getItemCenter (Samples.note "n1" 100 100).
Proof.
  by apply (proj2 (proj2 (proj2 (link_anchor_inside_box (Samples.note "n1" 100 100))))).
Defined.

(** ** The general form of two facts about the multi-room variant *)

Lemma scale_clamp_invariant_rooms_witness :
  scaleInRange (t_s (transform (Part0.hooks
    (Part0.runViewportOp (Part0.opWheel Samples.wheelIn) Samples.roomEmpty)))).
Proof.
  apply (scale_clamp_invariant_rooms (Part0.opWheel Samples.wheelIn) Samples.roomEmpty).
  split; qc_eval.
Defined.

Lemma Part0_delete_keeps_items_witness :
  Part0.shownItems (Part0.elapse 300
     (Part0.dispatch (fun p => Part0.handleDeleteItem p "n1") Samples.roomTwoNotes))
  = Samples.twoNotes.
Proof.
  refine (proj1 (Part0_delete_keeps_items "n1" Samples.roomTwoNotes 300 _ eq_refl _)).
  - by eexists.
  - lia.
Defined.

Lemma opposite_links_share_control_witness :
  let links := [mkLink "a" "n1" "n2" critical; mkLink "m" "n3" "n1" neutral;
                mkLink "c" "n2" "n1" positive] in
  let st := App.mkState Samples.twoNotes links Samples.hooks0 0 [] in
  ∃ ca cc,
    App.connection (H := Samples.flatMath) st (mkLink "a" "n1" "n2" critical) = Some ca
    ∧ App.connection (H := Samples.flatMath) st (mkLink "c" "n2" "n1" positive) = Some cc
    ∧ curve_control ca = curve_control cc.
Proof.
  cbv zeta.
  destruct (opposite_links_share_control (H := Samples.flatMath)
              (App.mkState Samples.twoNotes
                 [mkLink "a" "n1" "n2" critical; mkLink "m" "n3" "n1" neutral;
                  mkLink "c" "n2" "n1" positive] Samples.hooks0 0 [])
              (mkLink "a" "n1" "n2" critical) (mkLink "c" "n2" "n1" positive)
              (Samples.note "n1" 100 100) (Samples.note "n2" 500 100))
    as (ca & cc & Ha & Hc & _ & _ & _ & _ & _ & Heq).
  - by apply (bool_decide_unpack _).
  - apply keysFaithful_no_dash. intros l Hl.
    repeat (apply elem_of_cons in Hl as [-> | Hl]; [by split |]).
    by apply not_elem_of_nil in Hl.
  - qc_eval.
  - reflexivity.
  - reflexivity.
  - reflexivity.
  - reflexivity.
  - qc_eval.
  - exists ca, cc. by split.
Defined.

(** In the multi-room variant [handleUpdateItem] writes once, through
    [setBoardItems], so nothing is lost: the room ends with the nodes
    [src/App.tsx] would have and with the links it had. *)
Theorem update_in_rooms_variant (id : string) (u : Patch) (st : Part0.State)
    (st0 : App.State) :
  roomResolved st →
  App.boardItems st0 = Part0.shownItems st →
  let st' := Part0.dispatch (fun p => Part0.handleUpdateItem p id u) st in
  Part0.shownItems st' = App.boardItems (App.handleUpdateItem id u st0)
  ∧ Part0.shownLinks st' = Part0.shownLinks st
  ∧ roomResolved st'.
Proof.
  intros Hroom Hsame. cbv zeta. unfold Part0.dispatch.
  rewrite (props_resolved st Hroom).
  unfold Part0.handleUpdateItem, Part0.setBoardItems, App.handleUpdateItem.
  cbn [Part0.boardItems Part0.boardLinks Part0.roomKey App.setBoardItems App.boardItems].
  rewrite Hsame.
  destruct (shown_after_update st (updateItems id u (Part0.shownItems st))
              (Part0.shownLinks st) Hroom) as [Hitems Hlinks].
  split; [exact Hitems |]. split; [exact Hlinks |]. by apply roomResolved_update.
Qed.

Lemma update_in_rooms_variant_witness :
  Part0.shownItems
    (Part0.dispatch (fun p => Part0.handleUpdateItem p "n1" (contentPatch "Plan"))
       Samples.roomTwoNotes)
  = App.boardItems (App.handleUpdateItem "n1" (contentPatch "Plan") Samples.appTwoNotes).
Proof.
  refine (proj1 (update_in_rooms_variant "n1" (contentPatch "Plan") Samples.roomTwoNotes
                   Samples.appTwoNotes _ eq_refl)).
  by eexists.
Defined.

Lemma enterFocusMode_centres_witness :
  boardToClient (enterFocusMode "n1" (int 100) (int 200) Samples.hooks0)
    (mkPoint (int 100) (int 200))
  = mkPoint (0 + int 800 / int 2) (0 + int 600 / int 2).
Proof.
  by destruct (proj1 (enterFocusMode_centres "n1" (int 100) (int 200) Samples.hooks0)
                 Samples.rect800 eq_refl) as [Hc _].
Defined.

(** ** How far a new node can land from its reference *)

Lemma scaled_bound (c r : Qc) :
  - (1) ≤ c → c ≤ 1 → 0 ≤ r → r ≤ int 3000 →
  - int 3000 ≤ c * r ∧ c * r ≤ int 3000.
Proof.
  unfold Qcle, Qclt, Qcminus, Qcplus, Qcopp, Qcmult, int, Qc_of_Z, Q2Qc.
  cbn [this]. rewrite ?Qred_correct. unfold inject_Z.
  generalize (this c) (this r). intros a b H1 H2 H3 H4.
  change (this 1) with 1%Q in *. change (this 0) with 0%Q in *.
  split; nra.
Qed.

Lemma radius_bound (j : nat) :
  (j ≤ 200)%nat → 0 ≤ int (Z.of_nat j) * int 15 ∧ int (Z.of_nat j) * int 15 ≤ int 3000.
Proof.
  intros Hj. rewrite <- int_mul. split.
  - rewrite <- int_0. apply int_le. lia.
  - apply int_le. lia.
Qed.

Section Reach.
Context `{JsMath}.
Hypothesis cos_bounded : ∀ a, - (1) ≤ Math_cos a ∧ Math_cos a ≤ 1.
Hypothesis sin_bounded : ∀ a, - (1) ≤ Math_sin a ∧ Math_sin a ≤ 1.

Lemma spiral_reach (boardItems : list BoardItem) (refX refY width height : Qc) :
  let r := findBestPosition boardItems refX refY width height spiral in
  (refX - int 3000 ≤ px r ∧ px r ≤ refX + int 3000)
  ∧ (refY - int 3000 ≤ py r ∧ py r ≤ refY + int 3000).
Proof.
  cbv zeta.
  destruct (whileSpiral_first boardItems refX refY width height 200 0 eq_refl)
    as (j & Hj & Hrun & _).
  unfold findBestPosition. rewrite spiralStart_at, Hrun.
  cbn [sx sy Spec.spiralAt spiralCandidate px py].
  destruct (radius_bound j ltac:(lia)) as [Hr0 Hr1].
  destruct (cos_bounded (int (Z.of_nat j) * dec 4 5)) as [Hc0 Hc1].
  destruct (sin_bounded (int (Z.of_nat j) * dec 4 5)) as [Hs0 Hs1].
  destruct (scaled_bound _ _ Hc0 Hc1 Hr0 Hr1) as [Hx0 Hx1].
  destruct (scaled_bound _ _ Hs0 Hs1 Hr0 Hr1) as [Hy0 Hy1].
  revert Hx0 Hx1 Hy0 Hy1.
  generalize (Math_cos (int (Z.of_nat j) * dec 4 5) * (int (Z.of_nat j) * int 15)).
  generalize (Math_sin (int (Z.of_nat j) * dec 4 5) * (int (Z.of_nat j) * int 15)).
  intros a b Hx0 Hx1 Hy0 Hy1. repeat split; qc_arith.
Qed.

(** With a cosine and a sine that stay within [-1, 1], [findBestPosition]
    never puts a box further than 3000 from its reference, in either
    direction and in either mode: the spiral stops after 200 steps of 15,
    and the cells of the grid are at most 880 to the side and 1250 below. *)
Theorem placement_stays_near (boardItems : list BoardItem)
    (refX refY width height : Qc) (mode : Mode) :
  let r := findBestPosition boardItems refX refY width height mode in
  (refX - int 3000 ≤ px r ∧ px r ≤ refX + int 3000)
  ∧ (refY - int 3000 ≤ py r ∧ py r ≤ refY + int 3000).
Proof.
  destruct mode; [apply spiral_reach |]. cbv zeta.
  destruct (List.find (freeAt boardItems width height) (gridCells refX refY))
    as [c |] eqn:Hfind.
  - destruct (proj1 (grid_below_cell boardItems refX refY width height) c Hfind)
      as (-> & _ & _).
    apply find_some in Hfind as [Hin _]. apply list_elem_of_In in Hin.
    unfold gridCells in Hin. apply list_elem_of_bind in Hin as (row & Hc & Hrow).
    apply list_elem_of_fmap in Hc as (ox & -> & Hox). cbn [px py].
    assert (Hrow' : 0 ≤ int row * rowHeight ∧ int row * rowHeight ≤ int 1250).
    { unfold rowHeight. rewrite <- int_mul, <- int_0.
      repeat (apply elem_of_cons in Hrow as [-> | Hrow]; [split; apply int_le; lia |]).
      by apply not_elem_of_nil in Hrow. }
    assert (Hox' : int (-880) ≤ ox ∧ ox ≤ int 880).
    { unfold offsets in Hox.
      repeat (apply elem_of_cons in Hox as [-> | Hox]; [split; apply int_le; lia |]).
      by apply not_elem_of_nil in Hox. }
    revert Hrow' Hox'. generalize (int row * rowHeight). intros a [Ha0 Ha1] [Hb0 Hb1].
    repeat split; qc_arith.
  - rewrite (proj2 (grid_below_cell boardItems refX refY width height) Hfind).
    apply spiral_reach.
Qed.

End Reach.

Lemma placement_stays_near_witness :
  px (findBestPosition (H := Samples.flatMath) Samples.twoNotes
        (int 400) (int 300) (int 180) (int 180) spiral) ≤ int 400 + int 3000.
Proof.
  refine (proj2 (proj1 (placement_stays_near (H := Samples.flatMath) _ _
                          Samples.twoNotes (int 400) (int 300) (int 180) (int 180)
                          spiral))).
  - intros a. split; qc_eval.
  - intros a. split; qc_eval.
Defined.

(** ** The zoom buttons *)

(** The zoom buttons change nothing but the scale, and never in the wrong
    direction: from a scale of at most 5 zoom-in gives a scale that is not
    smaller and still at most 5, from a scale of at least 0.1 zoom-out gives
    one that is not larger and still at least 0.1; at 5 zoom-in does
    nothing, and at 0.1 zoom-out does nothing. *)
Theorem zoom_buttons_monotone (k : Hooks) :
  let s := t_s (transform k) in
  (t_x (transform (zoomIn k)) = t_x (transform k)
   ∧ t_y (transform (zoomIn k)) = t_y (transform k)
   ∧ t_x (transform (zoomOut k)) = t_x (transform k)
   ∧ t_y (transform (zoomOut k)) = t_y (transform k))
  ∧ (s ≤ int 5 → s ≤ t_s (transform (zoomIn k)) ∧ t_s (transform (zoomIn k)) ≤ int 5)
  ∧ (dec 1 10 ≤ s →
     dec 1 10 ≤ t_s (transform (zoomOut k)) ∧ t_s (transform (zoomOut k)) ≤ s)
  ∧ (s = int 5 → zoomIn k = k)
  ∧ (s = dec 1 10 → zoomOut k = k).
Proof.
  destruct_hooks k. cbv zeta. unfold zoomIn, zoomOut, setTransform.
  cbn [transform t_x t_y t_s]. split; [done |]. split; [| split; [| split]].
  - intros Hs. split; [| apply Math_min_ub_r].
    apply Math_min_glb; [qc_arith | exact Hs].
  - intros Hs. split; [apply Math_max_lb_r |].
    apply Math_max_lub; [qc_arith | exact Hs].
  - intros ->. do 2 f_equal; qc_eval.
  - intros ->. do 2 f_equal; qc_eval.
Qed.

Lemma zoom_buttons_monotone_witness :
  zoomIn (setTransform (fun _ => mkTransform 0 0 (int 5)) Samples.hooks0)
  = setTransform (fun _ => mkTransform 0 0 (int 5)) Samples.hooks0.
Proof.
  by apply (proj1 (proj2 (proj2 (proj2
              (zoom_buttons_monotone
                 (setTransform (fun _ => mkTransform 0 0 (int 5)) Samples.hooks0)))))).
Defined.
